(** * ANP_PFE rag-service: retrieval core

    A shallow embedding of the two modules that make up the retrieval
    core of the service,

      - [src/core/document_processor.py]: [enhanced_context_window],
        [load_document] and [split_documents];
      - [src/core/vector_store.py]: index life cycle, single-store and
        per-department search, cross-department fusion, the relevance
        summary and the index statistics,

    and of the places where the API puts them together
    ([src/models/query.py], [src/api/endpoints.py]), together with the
    properties of them that the design document states and others that
    the code shows.

    Modelling conventions.

      - Python [str] is [string]; characters are code points below 256.
      - Python [int] is [Z]; a Python [float] is the rational [Q] it
        denotes (every finite double is one).  Comparisons are exact;
        rounding of float arithmetic is not modelled, and the only float
        arithmetic on the paths studied here is one division of small
        integers, whose order is the order of the exact quotients.
      - A [Document] is a value.  The in-place writes [doc.metadata[k] = v]
        of the source are modelled by returning the updated documents.
        What a search writes on the documents it returns is therefore seen
        on the list returned and nowhere else: the state after a search
        tells which indices the object holds, its settings and the calls
        made, and says nothing of the metadata of the documents that the
        indices hold.  The statements about searches are about the list
        returned and the calls made.
      - LangChain/FAISS, [os] and the embedding provider are not part of
        the repository: they are the fields of a [Backend] record, and
        every theorem is universally quantified over it.  An answer of the
        backend may depend on the whole history of calls made so far. *)

From Stdlib Require Import ZArith QArith Ascii String List Lia Bool.
From Stdlib Require Import Sorted Permutation.
From stdpp Require Import base option list gmap strings.

Local Open Scope string_scope.
Local Open Scope list_scope.
Local Open Scope Z_scope.

(** ** Python values *)

Module Py.

(** [int] and [float], the two numeric types written into metadata. *)
Inductive PyNum : Type :=
| PInt (z : Z)
| PFloat (q : Q).

Definition num_q (n : PyNum) : Q :=
  match n with
  | PInt z => inject_Z z
  | PFloat q => q
  end.

(** The values found in a [Document.metadata] dict. *)
Inductive MVal : Type :=
| VNum (n : PyNum)
| VStr (s : string)
| VBool (b : bool).

Definition Qltb (a b : Q) : bool := negb (Qle_bool b a).

(** [bool(v)]. *)
Definition truthy (v : MVal) : bool :=
  match v with
  | VNum n => negb (Qeq_bool (num_q n) 0)
  | VStr s => negb (String.eqb s "")
  | VBool b => b
  end.

(** The number a value stands for in a comparison with a number;
    [bool] is a subclass of [int].  Strings have none. *)
Definition as_number (v : MVal) : option Q :=
  match v with
  | VNum n => Some (num_q n)
  | VBool b => Some (if b then 1%Q else 0%Q)
  | VStr _ => None
  end.

(** [a < b]; [None] is Python's [TypeError] for [str] against a number. *)
Definition py_lt (a b : MVal) : option bool :=
  match a, b with
  | VStr s, VStr t => Some (String.ltb s t)
  | _, _ =>
      match as_number a, as_number b with
      | Some x, Some y => Some (Qltb x y)
      | _, _ => None
      end
  end.

(** [a == b] between a metadata value and a [str]. *)
Definition eq_str (v : option MVal) (s : string) : bool :=
  match v with
  | Some (VStr t) => String.eqb t s
  | _ => false
  end.

(** [x or y] on an optional integer: [None] and [0] are falsy. *)
Definition int_or (k : option Z) (dflt : Z) : Z :=
  match k with
  | Some z => if z =? 0 then dflt else z
  | None => dflt
  end.

(** Slice bounds as CPython normalises them. *)
Definition norm_index (len i : Z) : Z :=
  if i <? 0 then Z.max 0 (len + i) else Z.min i len.

(** [l[a:b]]. *)
Definition slice {A : Type} (l : list A) (a b : Z) : list A :=
  let n := Z.of_nat (length l) in
  let a' := norm_index n a in
  let b' := norm_index n b in
  take (Z.to_nat (b' - a')) (drop (Z.to_nat a') l).

(** [l[:b]]. *)
Definition prefix {A : Type} (l : list A) (b : Z) : list A :=
  take (Z.to_nat (norm_index (Z.of_nat (length l)) b)) l.

(** Characters [c] with [c.isspace()], which are also the ones the
    regular-expression class [\s] matches on [str]. *)
Definition is_space (c : ascii) : bool :=
  let n := nat_of_ascii c in
  (((9 <=? n) && (n <=? 13)) || ((28 <=? n) && (n <=? 32))
   || (n =? 133) || (n =? 160))%nat.

Definition lower_char (c : ascii) : ascii :=
  let n := nat_of_ascii c in
  (if ((65 <=? n) && (n <=? 90))
      || ((192 <=? n) && (n <=? 222) && negb (n =? 215))
   then ascii_of_nat (n + 32) else c)%nat.

(** [s.lower()]. *)
Fixpoint lower (s : string) : string :=
  match s with
  | EmptyString => EmptyString
  | String c s' => String (lower_char c) (lower s')
  end.

Fixpoint split_go (cs cur : list ascii) : list string :=
  match cs with
  | [] => match cur with [] => [] | _ => [string_of_list_ascii (rev cur)] end
  | c :: cs' =>
      if is_space c then
        match cur with
        | [] => split_go cs' []
        | _ => string_of_list_ascii (rev cur) :: split_go cs' []
        end
      else split_go cs' (c :: cur)
  end.

(** [s.split()]: the maximal runs of non-space characters. *)
Definition split (s : string) : list string :=
  split_go (list_ascii_of_string s) [].

End Py.

Import Py.

(** ** Documents *)

Record Document : Type := mkDocument {
  page_content : string;
  metadata : gmap string MVal
}.

Definition set_meta (k : string) (v : MVal) (d : Document) : Document :=
  mkDocument (page_content d) (<[k := v]> (metadata d)).

(** ** Context window refiner ([document_processor.py]) *)

Module DocumentProcessor.

Definition is_terminator (c : ascii) : bool :=
  (Ascii.eqb c "." || Ascii.eqb c "!" || Ascii.eqb c "?")%char.

(** [re.split(r'(?<=[.!?])\s+', text)].  [after] tells that the previous
    character is a terminator, [in_sep] that a separator is being
    consumed; [cur] is the current piece, reversed. *)
Fixpoint re_split_go (cs : list ascii) (after in_sep : bool)
    (cur : list ascii) : list string :=
  match cs with
  | [] => [string_of_list_ascii (rev cur)]
  | c :: cs' =>
      if is_space c then
        if in_sep then re_split_go cs' false true cur
        else if after then
          string_of_list_ascii (rev cur) :: re_split_go cs' false true []
        else re_split_go cs' false false (c :: cur)
      else re_split_go cs' (is_terminator c) false (c :: cur)
  end.

Definition split_sentences (text : string) : list string :=
  re_split_go (list_ascii_of_string text) false false [].

(** [set(text.lower().split())]. *)
Definition terms (text : string) : gset string :=
  list_to_set (split (lower text)).

(** [len(common_terms) / max(len(query_terms), 1) if query_terms else 0]. *)
Definition sentence_score (query_terms : gset string) (sentence : string)
    : PyNum :=
  let sentence_terms := terms sentence in
  let common_terms := query_terms ∩ sentence_terms in
  if (size query_terms =? 0)%nat then PInt 0
  else PFloat (Z.of_nat (size common_terms)
                 # Pos.of_nat (Nat.max (size query_terms) 1)).

(** [max(scores)] on a non-empty list: the first of the largest. *)
Fixpoint max_from (cur : PyNum) (l : list PyNum) : PyNum :=
  match l with
  | [] => cur
  | x :: l' => max_from (if Qltb (num_q cur) (num_q x) then x else cur) l'
  end.

Definition py_max (l : list PyNum) : option PyNum :=
  match l with
  | [] => None
  | x :: l' => Some (max_from x l')
  end.

(** [l.index(x)]. *)
Fixpoint index_of (x : PyNum) (l : list PyNum) : option nat :=
  match l with
  | [] => None
  | y :: l' =>
      if Qeq_bool (num_q y) (num_q x) then Some O
      else S <$> index_of x l'
  end.

Definition has_error (doc : Document) : bool :=
  match metadata doc !! "error" with
  | Some v => truthy v
  | None => false
  end.

(** The body of the loop of [enhanced_context_window] for one document.
    Each step is total on documents of this type, so the handler of the
    enclosing [try] is never entered. *)
Definition refine (query : string) (window_size : Z) (doc : Document)
    : Document :=
  if has_error doc then doc
  else
    let sentences := split_sentences (page_content doc) in
    let len := Z.of_nat (length sentences) in
    if (length sentences =? 0)%nat || (len <=? window_size * 2) then doc
    else
      let query_terms := terms query in
      let scores := map (sentence_score query_terms) sentences in
      match py_max scores with
      | None => doc
      | Some best =>
          if Qltb (num_q best) (1 # 10) && (10 <? len) then
            let new_content :=
              String.concat " " (prefix sentences (Z.min 10 len)) in
            mkDocument new_content
              (<["window_type" := VStr "prefix"]> (metadata doc))
          else
            match index_of best scores with
            | None => doc
            | Some i =>
                let most_relevant_idx := Z.of_nat i in
                let start_idx := Z.max 0 (most_relevant_idx - window_size) in
                let end_idx := Z.min len (most_relevant_idx + window_size + 1) in
                let window_content :=
                  String.concat " " (slice sentences start_idx end_idx) in
                mkDocument window_content
                  (<["window_type" := VStr "context"]>
                   (<["sentence_relevance" := VNum (nth i scores (PInt 0))]>
                    (<["central_sentence" := VNum (PInt most_relevant_idx)]>
                     (<["window_end" := VNum (PInt end_idx)]>
                      (<["window_start" := VNum (PInt start_idx)]>
                       (metadata doc))))))
            end
      end.

Definition enhanced_context_window (docs : list Document) (query : string)
    (window_size : Z) : list Document :=
  match docs with
  | [] => []
  | _ => map (refine query window_size) docs
  end.

(** [m] is the first position of [scores] holding the largest score. *)
Definition first_max (scores : list PyNum) (m : nat) (b : PyNum) : Prop :=
  scores !! m = Some b
  /\ (forall (j : nat) (y : PyNum),
        scores !! j = Some y -> (num_q y <= num_q b)%Q)
  /\ (forall (j : nat) (y : PyNum),
        (j < m)%nat -> scores !! j = Some y -> (num_q y < num_q b)%Q).

(** The sentences of [doc] and their scores for [query]. *)
Definition sentences_of (doc : Document) : list string :=
  split_sentences (page_content doc).

Definition scores_of (query : string) (doc : Document) : list PyNum :=
  map (sentence_score (terms query)) (sentences_of doc).

Definition eight : Document :=
  mkDocument "S1. S2. S3. S4. S5. S6. S7. S8." ∅.

Definition eight_split : list string :=
  ["S1."; "S2."; "S3."; "S4."; "S5."; "S6."; "S7."; "S8."].

(** The metadata keys that [enhanced_context_window] writes. *)
Definition window_keys : list string :=
  ["window_start"; "window_end"; "central_sentence"; "sentence_relevance";
   "window_type"].

(** The characters of [cs] that are not white space, in order. *)
Definition visible (cs : list ascii) : list ascii :=
  List.filter (fun c => negb (is_space c)) cs.

(** The characters of a list of sentences, one sentence after the other. *)
Definition chars_of (pieces : list string) : list ascii :=
  concat (map list_ascii_of_string pieces).

(** The sentence ends with [.], [!] or [?]. *)
Definition ends_sentence (piece : string) : Prop :=
  exists c : ascii,
    last (list_ascii_of_string piece) = Some c /\ is_terminator c = true.

(** Eleven sentences of one letter each. *)
Definition eleven : Document :=
  mkDocument "a. b. c. d. e. f. g. h. i. j. k." ∅.

End DocumentProcessor.

Import DocumentProcessor.


(** ** Vector store ([vector_store.py]) *)

Module VectorStore.

(** *** Exceptions and the collaborators *)

(** Every exception met here derives from [Exception]; the handlers of the
    source ([except Exception] and bare [except]) catch all of them. *)
Inductive PyExn : Type :=
| Exception (what : string).

Inductive Outcome (A : Type) : Type :=
| Ok (a : A)
| Raise (e : PyExn).
Arguments Ok {A} a.
Arguments Raise {A} e.

(** What the source observes of a LangChain [FAISS] object:
    [docstore] is [vs.docstore._dict], in insertion order, when [vs] has a
    truthy attribute [docstore]; [index] is [None] when [vs] has no
    attribute [index] and [Some b] when it has one with [bool(vs.index) = b]. *)
Record Faiss : Type := mkFaiss {
  docstore : option (list (string * Document));
  index : option bool
}.

(** The calls that leave the repository. *)
Inductive Call : Type :=
| CMakedirs (path : string)
| CPathExists (path : string)
| CLoadLocal (path : string)
| CFromTexts (texts : list string)
| CFromDocuments (docs : list Document)
| CSaveLocal (vs : Faiss) (path : string)
| CAddDocuments (vs : Faiss) (docs : list Document)
| CMmrSearch (vs : Faiss) (query : string) (k fetch_k : Z)
| CSimilaritySearch (vs : Faiss) (query : string) (k : Z)
| CEmbedQuery (text : string).

Definition Trace : Type := list Call.

(** The collaborators.  Each answer is a function of the calls made before
    it, so that a backend can fail at one moment and succeed at another,
    and can remember what was saved. *)
Record Backend : Type := mkBackend {
  os_makedirs : Trace -> string -> Outcome unit;
  os_path_exists : Trace -> string -> bool;
  FAISS_load_local : Trace -> string -> Outcome Faiss;
  FAISS_from_texts : Trace -> list string -> Outcome Faiss;
  FAISS_from_documents : Trace -> list Document -> Outcome Faiss;
  vs_save_local : Trace -> Faiss -> string -> Outcome unit;
  vs_add_documents : Trace -> Faiss -> list Document -> Faiss * Outcome unit;
  vs_max_marginal_relevance_search :
    Trace -> Faiss -> string -> Z -> Z -> Outcome (list Document);
  vs_similarity_search :
    Trace -> Faiss -> string -> Z -> Outcome (list Document);
  embed_query : Trace -> string -> Outcome (list Q);
  np_linalg_norm : list Q -> Q
}.

(** *** The object and the monad of its methods *)

(** The fields of [VectorStore] that the methods below read or write.
    [department_vectorstores] is a [dict]: keys are unique and keep their
    insertion order. *)
Record VectorStore : Type := mkVectorStore {
  faiss_index_path : string;
  top_k_retrieval : Z;
  use_mmr : bool;
  vectorstore : option Faiss;
  department_vectorstores : list (string * Faiss)
}.

Record St : Type := mkSt {
  self : VectorStore;
  trace : Trace
}.

Definition M (A : Type) : Type := St -> Outcome A * St.

Definition ret {A : Type} (a : A) : M A := fun st => (Ok a, st).

Definition bind {A B : Type} (m : M A) (f : A -> M B) : M B :=
  fun st =>
    match m st with
    | (Ok a, st') => f a st'
    | (Raise e, st') => (Raise e, st')
    end.

Definition raise {A : Type} (e : PyExn) : M A := fun st => (Raise e, st).

(** [try: body except Exception as e: handler].  What [body] did to the
    state before raising stays done. *)
Definition try_catch {A : Type} (body : M A) (handler : PyExn -> M A) : M A :=
  fun st =>
    match body st with
    | (Ok a, st') => (Ok a, st')
    | (Raise e, st') => handler e st'
    end.

Definition lift {A : Type} (o : Outcome A) : M A := fun st => (o, st).

Definition get_self : M VectorStore := fun st => (Ok (self st), st).

Definition put_self (s : VectorStore) : M unit :=
  fun st => (Ok tt, mkSt s (trace st)).

(** A call to a collaborator: its answer, and the call recorded. *)
Definition call {A : Type} (c : Call) (answer : Trace -> Outcome A) : M A :=
  fun st => (answer (trace st), mkSt (self st) (trace st ++ [c])).

Declare Scope py_scope.
Delimit Scope py_scope with py.
Notation "x <- m ;; k" := (bind m (fun x => k))
  (at level 100, m at next level, right associativity) : py_scope.
Notation "m ;;; k" := (bind m (fun _ => k))
  (at level 100, right associativity) : py_scope.
Local Open Scope py_scope.

(** *** Insertion-ordered dictionaries *)

Fixpoint od_get {V : Type} (k : string) (d : list (string * V)) : option V :=
  match d with
  | [] => None
  | (k', v) :: d' => if String.eqb k' k then Some v else od_get k d'
  end.

(** [d[k] = v]: an existing key keeps its place. *)
Fixpoint od_set {V : Type} (k : string) (v : V) (d : list (string * V))
    : list (string * V) :=
  match d with
  | [] => [(k, v)]
  | (k', v') :: d' =>
      if String.eqb k' k then (k, v) :: d' else (k', v') :: od_set k v d'
  end.

Definition od_keys {V : Type} (d : list (string * V)) : list string :=
  map fst d.

Definition od_mem {V : Type} (k : string) (d : list (string * V)) : bool :=
  match od_get k d with Some _ => true | None => false end.

Definition nonempty {A : Type} (l : list A) : bool :=
  match l with [] => false | _ => true end.

(** [bool(chunks)] for [chunks : Optional[List[Document]]]. *)
Definition chunks_given (chunks : option (list Document)) : list Document :=
  match chunks with Some l => l | None => [] end.

Definition set_vectorstore (vs : Faiss) : M unit :=
  s <- get_self ;;
  put_self (mkVectorStore (faiss_index_path s) (top_k_retrieval s) (use_mmr s)
              (Some vs) (department_vectorstores s)).

Definition set_department_vectorstore (department : string) (vs : Faiss)
    : M unit :=
  s <- get_self ;;
  put_self (mkVectorStore (faiss_index_path s) (top_k_retrieval s) (use_mmr s)
              (vectorstore s)
              (od_set department vs (department_vectorstores s))).

(** [os.path.join(a, b)] for a relative [b]. *)
Definition path_join (a b : string) : string := a +:+ "/" +:+ b.

(** *** Index life cycle *)

(** The body of the outer [try] of [initialize_vectorstore]. *)
Definition initialize_vectorstore_primary (B : Backend)
    (chunks : option (list Document)) (rebuild : bool) : M bool :=
  s <- get_self ;;
  let path := faiss_index_path s in
  present <- call (CPathExists path) (fun t => Ok (os_path_exists B t path)) ;;
  loaded <-
    (if present && negb rebuild && negb (nonempty (chunks_given chunks)) then
       try_catch
         (vs <- call (CLoadLocal path) (fun t => FAISS_load_local B t path) ;;
          set_vectorstore vs ;;;
          ret true)
         (fun _ => ret false)
     else ret false) ;;
  if loaded then ret true
  else
    vs <-
      (if negb (nonempty (chunks_given chunks)) then
         call (CFromTexts ["empty placeholder"])
           (fun t => FAISS_from_texts B t ["empty placeholder"])
       else
         call (CFromDocuments (chunks_given chunks))
           (fun t => FAISS_from_documents B t (chunks_given chunks))) ;;
    set_vectorstore vs ;;;
    call (CMakedirs path) (fun t => os_makedirs B t path) ;;;
    call (CSaveLocal vs path) (fun t => vs_save_local B t vs path) ;;;
    ret true.

Definition main_fallback_text : string := "empty fallback placeholder".

Definition initialize_vectorstore (B : Backend)
    (chunks : option (list Document)) (rebuild : bool) : M bool :=
  try_catch (initialize_vectorstore_primary B chunks rebuild)
    (fun _ =>
       try_catch
         (vs <- call (CFromTexts [main_fallback_text])
                  (fun t => FAISS_from_texts B t [main_fallback_text]) ;;
          set_vectorstore vs ;;;
          ret true)
         (fun _ => ret false)).

Definition placeholder_text (department : string) : string :=
  "Empty placeholder for " +:+ department +:+ " department".

Definition fallback_text (department : string) : string :=
  "Empty fallback placeholder for " +:+ department +:+ " department".

(** [chunk.metadata.get('department') == department]. *)
Definition in_department (department : string) (chunk : Document) : bool :=
  eq_str (metadata chunk !! "department") department.

(** The body of the outer [try] of [initialize_department_vectorstore]. *)
Definition initialize_department_primary (B : Backend) (department : string)
    (chunks : option (list Document)) (rebuild : bool) : M bool :=
  s <- get_self ;;
  let department_index_path := path_join (faiss_index_path s) department in
  call (CMakedirs department_index_path)
    (fun t => os_makedirs B t department_index_path) ;;;
  present <- call (CPathExists department_index_path)
               (fun t => Ok (os_path_exists B t department_index_path)) ;;
  loaded <-
    (if present && negb rebuild && negb (nonempty (chunks_given chunks)) then
       try_catch
         (vs <- call (CLoadLocal department_index_path)
                  (fun t => FAISS_load_local B t department_index_path) ;;
          set_department_vectorstore department vs ;;;
          ret true)
         (fun _ => ret false)
     else ret false) ;;
  if loaded then ret true
  else
    let dept_chunks := filter (fun c => in_department department c = true)
                         (chunks_given chunks) in
    vs <-
      (if negb (nonempty (chunks_given chunks)) || negb (nonempty dept_chunks)
       then
         call (CFromTexts [placeholder_text department])
           (fun t => FAISS_from_texts B t [placeholder_text department])
       else
         call (CFromDocuments dept_chunks)
           (fun t => FAISS_from_documents B t dept_chunks)) ;;
    set_department_vectorstore department vs ;;;
    call (CSaveLocal vs department_index_path)
      (fun t => vs_save_local B t vs department_index_path) ;;;
    ret true.

Definition initialize_department_vectorstore (B : Backend)
    (department : string) (chunks : option (list Document)) (rebuild : bool)
    : M bool :=
  try_catch (initialize_department_primary B department chunks rebuild)
    (fun _ =>
       try_catch
         (vs <- call (CFromTexts [fallback_text department])
                  (fun t => FAISS_from_texts B t [fallback_text department]) ;;
          set_department_vectorstore department vs ;;;
          ret true)
         (fun _ => ret false)).

(** [vs.add_documents(chunks)] changes [vs] in place, also when it raises. *)
Definition add_to (B : Backend) (c : Call) (vs : Faiss)
    (chunks : list Document) (store : Faiss -> M unit) : M unit :=
  fun st =>
    let '(vs', r) := vs_add_documents B (trace st) vs chunks in
    match store vs' (mkSt (self st) (trace st ++ [c])) with
    | (Ok _, st') => (r, st')
    | (Raise e, st') => (Raise e, st')
    end.

Definition add_documents (B : Backend) (chunks : option (list Document))
    : M bool :=
  if negb (nonempty (chunks_given chunks)) then ret false
  else
    s <- get_self ;;
    match vectorstore s with
    | None => initialize_vectorstore B chunks false
    | Some vs =>
        try_catch
          (add_to B (CAddDocuments vs (chunks_given chunks)) vs
             (chunks_given chunks) set_vectorstore ;;;
           s' <- get_self ;;
           match vectorstore s' with
           | Some vs' =>
               call (CSaveLocal vs' (faiss_index_path s'))
                 (fun t => vs_save_local B t vs' (faiss_index_path s'))
           | None => ret tt
           end ;;;
           ret true)
          (fun _ => ret false)
    end.

Definition add_documents_to_department (B : Backend) (department : string)
    (chunks : option (list Document)) : M bool :=
  if negb (nonempty (chunks_given chunks)) then ret false
  else
    s <- get_self ;;
    match od_get department (department_vectorstores s) with
    | None => initialize_department_vectorstore B department chunks false
    | Some vs =>
        try_catch
          (let dept_chunks := filter (fun c => in_department department c = true)
                                (chunks_given chunks) in
           if negb (nonempty dept_chunks) then ret true
           else
             add_to B (CAddDocuments vs dept_chunks) vs dept_chunks
               (set_department_vectorstore department) ;;;
             s' <- get_self ;;
             let department_index_path :=
               path_join (faiss_index_path s') department in
             match od_get department (department_vectorstores s') with
             | Some vs' =>
                 call (CSaveLocal vs' department_index_path)
                   (fun t => vs_save_local B t vs' department_index_path)
             | None => ret tt
             end ;;;
             ret true)
          (fun _ => ret false)
    end.

(** *** Retrieval *)

Definition score_key : string := "relevance_score".

Definition set_score (q : Q) (doc : Document) : Document :=
  set_meta score_key (VNum (PFloat q)) doc.

(** [if 'relevance_score' not in doc.metadata: doc.metadata[...] = q]. *)
Definition fill_score (q : Q) (doc : Document) : Document :=
  match metadata doc !! score_key with
  | Some _ => doc
  | None => set_score q doc
  end.

Definition set_department (department : string) (doc : Document) : Document :=
  set_meta "department" (VStr department) doc.

(** [docstore.search(key)] answers with a string for a key it does not
    hold, and the write to [.metadata] of that string raises. *)
Fixpoint fetch (ds : list (string * Document)) (stamp : Document -> Document)
    (keys : list string) : Outcome (list Document) :=
  match keys with
  | [] => Ok []
  | key :: keys' =>
      match od_get key ds with
      | None => Raise (Exception "AttributeError")
      | Some doc =>
          match fetch ds stamp keys' with
          | Ok docs => Ok (stamp doc :: docs)
          | Raise e => Raise e
          end
      end
  end.

(** The first [min(k, len(docstore_keys))] documents of the docstore, each
    one stamped. *)
Definition enumerate (ds : list (string * Document)) (k : Z)
    (stamp : Document -> Document) : Outcome (list Document) :=
  let docstore_keys := od_keys ds in
  let count := Z.min k (Z.of_nat (length docstore_keys)) in
  fetch ds stamp (take (Z.to_nat count) docstore_keys).

(** The three places where the source reads the docstore directly.  Each
    is a [try] whose handler only logs; [Some docs] is its [return docs],
    [None] means that control goes on after it. *)
Definition direct_tier (vs : Faiss) (k : Z) (stamp : Document -> Document)
    : M (option (list Document)) :=
  try_catch
    (match docstore vs with
     | Some ds =>
         if nonempty (od_keys ds)
            && match index vs with None => true | Some _ => false end
         then docs <- lift (enumerate ds k stamp) ;; ret (Some docs)
         else ret None
     | None => ret None
     end)
    (fun _ => ret None).

Definition docstore_tier (vs : Faiss) (k : Z) (stamp : Document -> Document)
    : M (option (list Document)) :=
  try_catch
    (match docstore vs with
     | Some ds =>
         if nonempty (od_keys ds)
         then docs <- lift (enumerate ds k stamp) ;; ret (Some docs)
         else ret None
     | None => ret None
     end)
    (fun _ => ret None).

Definition plain_search (B : Backend) (vs : Faiss) (query : string) (k : Z)
    : M (list Document) :=
  call (CSimilaritySearch vs query k)
    (fun t => vs_similarity_search B t vs query k).

(** The search proper: diversity search with its two ways back to the
    plain one, or the plain one alone. *)
Definition primary_search (B : Backend) (mmr : bool) (vs : Faiss)
    (query : string) (k : Z) : M (list Document) :=
  if mmr then
    try_catch
      (docs <- call (CMmrSearch vs query k (k * 3))
                 (fun t => vs_max_marginal_relevance_search B t vs query k (k * 3)) ;;
       if negb (nonempty docs)
          && match index vs with Some b => b | None => false end
       then plain_search B vs query k
       else ret docs)
      (fun _ => plain_search B vs query k)
  else plain_search B vs query k.

Definition similarity_search (B : Backend) (query : string) (k : option Z)
    : M (list Document) :=
  s <- get_self ;;
  match vectorstore s with
  | None => ret []
  | Some vs =>
      let k := int_or k (top_k_retrieval s) in
      try_catch
        (direct <- direct_tier vs k (set_score (8 # 10)) ;;
         match direct with
         | Some result_docs => ret result_docs
         | None =>
             found <- primary_search B (use_mmr s) vs query k ;;
             let docs := map (fill_score (85 # 100)) found in
             fallback <-
               (if negb (nonempty docs)
                then docstore_tier vs k (set_score (7 # 10))
                else ret None) ;;
             match fallback with
             | Some result_docs => ret result_docs
             | None => ret docs
             end
         end)
        (fun _ =>
           emergency <- docstore_tier vs k (set_score (6 # 10)) ;;
           match emergency with
           | Some result_docs => ret result_docs
           | None => ret []
           end)
  end.

Definition stamp_department (q : Q) (department : string) (doc : Document)
    : Document :=
  set_department department (set_score q doc).

Definition search_department (B : Backend) (query department : string)
    (k : option Z) : M (list Document) :=
  s <- get_self ;;
  match od_get department (department_vectorstores s) with
  | None => ret []
  | Some dept_vs =>
      let k := int_or k (top_k_retrieval s) in
      try_catch
        (direct <- direct_tier dept_vs k (stamp_department (8 # 10) department) ;;
         match direct with
         | Some result_docs => ret result_docs
         | None =>
             found <- primary_search B (use_mmr s) dept_vs query k ;;
             let docs :=
               map (fun doc => set_department department
                                 (fill_score (85 # 100) doc)) found in
             fallback <-
               (if negb (nonempty docs)
                then docstore_tier dept_vs k
                       (stamp_department (7 # 10) department)
                else ret None) ;;
             match fallback with
             | Some result_docs => ret result_docs
             | None => ret docs
             end
         end)
        (fun _ =>
           emergency <- docstore_tier dept_vs k
                          (stamp_department (6 # 10) department) ;;
           match emergency with
           | Some result_docs => ret result_docs
           | None => ret []
           end)
  end.

(** *** Fusion across departments *)

Fixpoint dot (v1 v2 : list Q) : Q :=
  match v1, v2 with
  | x :: v1', y :: v2' => (x * y + dot v1' v2')%Q
  | _, _ => 0%Q
  end.

(** [_cosine_similarity].  [np.dot] raises on vectors of different
    lengths, and the handler answers [0.7]. *)
Definition cosine_similarity (B : Backend) (vec1 vec2 : list Q) : PyNum :=
  if (length vec1 =? length vec2)%nat then
    let dot_product := dot vec1 vec2 in
    let norm_a := np_linalg_norm B vec1 in
    let norm_b := np_linalg_norm B vec2 in
    if Qeq_bool norm_a 0 || Qeq_bool norm_b 0 then PInt 0
    else PFloat (dot_product / (norm_a * norm_b))
  else PFloat (7 # 10).

(** [_compute_relevance]. *)
Definition compute_relevance (B : Backend) (text : string)
    (query_embedding : option (list Q)) : M PyNum :=
  match query_embedding with
  | None => ret (PFloat (7 # 10))
  | Some qe =>
      try_catch
        (text_embedding <- call (CEmbedQuery text)
                             (fun t => embed_query B t text) ;;
         ret (cosine_similarity B qe text_embedding))
        (fun _ => ret (PFloat (7 # 10)))
  end.

(** The loop over [departments], which extends [all_results]. *)
Fixpoint scan_departments (B : Backend) (query : string) (k : Z)
    (departments : list string) : M (list Document) :=
  match departments with
  | [] => ret []
  | department :: rest =>
      s <- get_self ;;
      dept_results <-
        (if od_mem department (department_vectorstores s) then
           try_catch
             (found <- search_department B query department (Some k) ;;
              ret (map (set_department department) found))
             (fun _ => ret [])
         else ret []) ;;
      others <- scan_departments B query k rest ;;
      ret (dept_results ++ others)
  end.

(** The loop that scores the documents that have no score yet. *)
Fixpoint score_missing (B : Backend) (query_embedding : option (list Q))
    (docs : list Document) : M (list Document) :=
  match docs with
  | [] => ret []
  | doc :: rest =>
      doc' <-
        (match metadata doc !! score_key with
         | Some _ => ret doc
         | None =>
             match query_embedding with
             | Some (_ :: _) =>
                 r <- compute_relevance B (page_content doc) query_embedding ;;
                 ret (set_meta score_key (VNum r) doc)
             | _ => ret (set_score (7 # 10) doc)
             end
         end) ;;
      rest' <- score_missing B query_embedding rest ;;
      ret (doc' :: rest')
  end.

(** [x.metadata.get('relevance_score', 0)]. *)
Definition relevance_key (doc : Document) : MVal :=
  match metadata doc !! score_key with
  | Some v => v
  | None => VNum (PInt 0)
  end.

(** [sorted(docs, key=relevance_key, reverse=True)]: documents with equal
    keys keep their order.  The sort is written as a stable insertion
    sort; like the one of CPython it compares with [<] only, and it raises
    exactly when the keys are not all numbers or all strings. *)
Fixpoint insert_desc (x : Document) (l : list Document)
    : Outcome (list Document) :=
  match l with
  | [] => Ok [x]
  | y :: l' =>
      match py_lt (relevance_key x) (relevance_key y) with
      | None => Raise (Exception "TypeError")
      | Some true =>
          match insert_desc x l' with
          | Ok r => Ok (y :: r)
          | Raise e => Raise e
          end
      | Some false => Ok (x :: y :: l')
      end
  end.

Fixpoint sorted_desc (l : list Document) : Outcome (list Document) :=
  match l with
  | [] => Ok []
  | x :: l' =>
      match sorted_desc l' with
      | Ok s => insert_desc x s
      | Raise e => Raise e
      end
  end.

(** The part of [search_across_departments] that gathers [all_results],
    up to and including the scoring loop. *)
Definition gather (B : Backend) (query : string) (departments : list string)
    (k : Z) : M (list Document) :=
  query_embedding <-
    try_catch
      (e <- call (CEmbedQuery query) (fun t => embed_query B t query) ;;
       ret (Some e))
      (fun _ => ret None) ;;
  all_results <- scan_departments B query k departments ;;
  score_missing B query_embedding all_results.

Definition search_across_departments (B : Backend) (query : string)
    (departments : option (list string)) (k : option Z)
    : M (list Document) :=
  s <- get_self ;;
  let given := match departments with Some l => l | None => [] end in
  if negb (nonempty given) && negb (nonempty (department_vectorstores s))
  then similarity_search B query k
  else
    let departments :=
      if negb (nonempty given) then od_keys (department_vectorstores s)
      else given in
    let k := int_or k (top_k_retrieval s) in
    all_results <- gather B query departments k ;;
    sorted <- lift (sorted_desc all_results) ;;
    ret (prefix sorted k).

(** *** Relevance summary *)

(** [max(values)] on a non-empty list, as CPython computes it: each item
    is compared with the largest so far. *)
Fixpoint max_value (cur : MVal) (l : list MVal) : Outcome MVal :=
  match l with
  | [] => Ok cur
  | x :: l' =>
      match py_lt cur x with
      | None => Raise (Exception "TypeError")
      | Some b => max_value (if b then x else cur) l'
      end
  end.

(** [doc.metadata.get('relevance_score', 0.7)]. *)
Definition score_or_default (doc : Document) : MVal :=
  match metadata doc !! score_key with
  | Some v => v
  | None => VNum (PFloat (7 # 10))
  end.

(** [evaluate_context_relevance]: the documents as the call leaves them,
    and the tuple it returns. *)
Definition evaluate_context_relevance (query : string) (docs : list Document)
    (threshold : Q) : list Document * Outcome (MVal * bool) :=
  match docs with
  | [] => (docs, Ok (VNum (PFloat 0), false))
  | _ =>
      let docs' := map (fill_score (7 # 10)) docs in
      (docs',
       match map score_or_default docs' with
       | [] => Raise (Exception "ValueError")
       | v :: vs =>
           match max_value v vs with
           | Ok max_similarity =>
               let has_relevant_context := true in
               Ok (max_similarity, has_relevant_context)
           | Raise e => Raise e
           end
       end)
  end.

(** The tuple that the design document describes. *)
Definition relevance_summary_by_threshold (scores : list Q) (threshold : Q)
    : Q * bool :=
  let max_score := match scores with
                   | [] => 0%Q
                   | s :: rest =>
                       fold_left (fun a b => if Qltb a b then b else a) rest s
                   end in
  (max_score, Qle_bool threshold max_score).

(** *** A backend to run the methods on

    It keeps nothing on disk ([load_local] always fails), builds a
    docstore with one entry per text or document, and answers a search
    with the first [k] stored documents.  Its embeddings are the unit
    vector [[1]], on which the squared norm it computes is the norm. *)

Fixpoint mock_ids (n : nat) (prefix_ : string) : list string :=
  match n with
  | O => []
  | S n' => prefix_ :: mock_ids n' (prefix_ +:+ "i")
  end.

Definition mock_store (docs : list Document) : Faiss :=
  mkFaiss (Some (combine (mock_ids (length docs) "id") docs)) (Some true).

Definition stored_documents (vs : Faiss) : list Document :=
  match docstore vs with
  | Some ds => map snd ds
  | None => []
  end.

Definition mock_backend : Backend :=
  mkBackend
    (fun _ _ => Ok tt)
    (fun _ _ => true)
    (fun _ _ => Raise (Exception "RuntimeError"))
    (fun _ texts => Ok (mock_store (map (fun t => mkDocument t ∅) texts)))
    (fun _ docs => Ok (mock_store docs))
    (fun _ _ _ => Ok tt)
    (fun _ vs docs => (mock_store (stored_documents vs ++ docs), Ok tt))
    (fun _ vs _ k _ => Ok (take (Z.to_nat k) (stored_documents vs)))
    (fun _ vs _ k => Ok (take (Z.to_nat k) (stored_documents vs)))
    (fun _ _ => Ok [1%Q])
    (fun v => dot v v).

(** A backend on which every call fails. *)
Definition failing_backend : Backend :=
  mkBackend
    (fun _ _ => Raise (Exception "OSError"))
    (fun _ _ => false)
    (fun _ _ => Raise (Exception "RuntimeError"))
    (fun _ _ => Raise (Exception "RuntimeError"))
    (fun _ _ => Raise (Exception "RuntimeError"))
    (fun _ _ _ => Raise (Exception "OSError"))
    (fun _ vs _ => (vs, Raise (Exception "RuntimeError")))
    (fun _ _ _ _ _ => Raise (Exception "RuntimeError"))
    (fun _ _ _ _ => Raise (Exception "RuntimeError"))
    (fun _ _ => Raise (Exception "RuntimeError"))
    (fun _ => 0%Q).

Definition fresh (path : string) : St :=
  mkSt (mkVectorStore path 5 true None []) [].

(** *** Vocabulary of the statements *)

(** The two search methods share one shape: the docstore read directly at
    three places around the search proper.  [stamp q] is what a docstore
    tier writes on a document, [fill] what the search tier writes. *)
Definition tiered_search (B : Backend) (mmr : bool) (vs : Faiss)
    (query : string) (k : Z) (stamp : Q -> Document -> Document)
    (fill : Document -> Document) : M (list Document) :=
  try_catch
    (direct <- direct_tier vs k (stamp (8 # 10)) ;;
     match direct with
     | Some result_docs => ret result_docs
     | None =>
         found <- primary_search B mmr vs query k ;;
         let docs := map fill found in
         fallback <-
           (if negb (nonempty docs)
            then docstore_tier vs k (stamp (7 # 10))
            else ret None) ;;
         match fallback with
         | Some result_docs => ret result_docs
         | None => ret docs
         end
     end)
    (fun _ =>
       emergency <- docstore_tier vs k (stamp (6 # 10)) ;;
       match emergency with
       | Some result_docs => ret result_docs
       | None => ret []
       end).

(** [found] is an answer of the index [vs] to a search for [query] with
    budget [k], at some moment. *)
Definition answered (B : Backend) (vs : Faiss) (query : string) (k : Z)
    (found : list Document) : Prop :=
  exists t : Trace,
    vs_max_marginal_relevance_search B t vs query k (k * 3) = Ok found
    \/ vs_similarity_search B t vs query k = Ok found.

(** What one of the docstore tiers hands back. *)
Definition tier_yield (vs : Faiss) (k : Z) (stamp : Document -> Document)
    (r : option (list Document)) : Prop :=
  match r with
  | Some docs =>
      exists ds : list (string * Document),
        docstore vs = Some ds /\ ds <> [] /\ enumerate ds k stamp = Ok docs
  | None => True
  end.

(** Where a result of [tiered_search] comes from: a docstore tier, the
    search tier, or nowhere. *)
Definition provenance (B : Backend) (vs : Faiss) (query : string) (k : Z)
    (stamp : Q -> Document -> Document) (fill : Document -> Document)
    (docs : list Document) : Prop :=
  (exists q : Q,
      (q = 8 # 10 \/ q = 7 # 10 \/ q = 6 # 10)
      /\ tier_yield vs k (stamp q) (Some docs))
  \/ (exists found : list Document,
        found <> [] /\ answered B vs query k found /\ docs = map fill found)
  \/ (docs = [] /\ (docstore vs = None \/ docstore vs = Some [])).

(** The indices an object holds. *)
Definition holds (s : VectorStore) (vs : Faiss) : Prop :=
  vectorstore s = Some vs
  \/ exists department : string,
       od_get department (department_vectorstores s) = Some vs.

Definition score_of (doc : Document) : option MVal :=
  metadata doc !! score_key.

(** The document carries a numeric score within [0, 1]. *)
Definition unit_score (doc : Document) : Prop :=
  exists n : PyNum,
    score_of doc = Some (VNum n) /\ (0 <= num_q n)%Q /\ (num_q n <= 1)%Q.

(** The document carries a score that is a number. *)
Definition numeric_score (doc : Document) : Prop :=
  exists (v : MVal) (q : Q), score_of doc = Some v /\ as_number v = Some q.

(** Every search answer of every index of [s] satisfies [P]. *)
Definition answers (B : Backend) (s : VectorStore)
    (P : Document -> Prop) : Prop :=
  forall (vs : Faiss) (query : string) (k : Z) (found : list Document),
    holds s vs -> answered B vs query k found -> Forall P found.

(** The indices of [s] never answer with more than [k] documents. *)
Definition honours_budget (B : Backend) (s : VectorStore) : Prop :=
  forall (vs : Faiss) (query : string) (k : Z) (found : list Document),
    holds s vs -> 0 <= k -> answered B vs query k found ->
    Z.of_nat (length found) <= k.

(** The indices of [s] answer with documents they store. *)
Definition answers_stored (B : Backend) (s : VectorStore) : Prop :=
  forall (vs : Faiss) (query : string) (k : Z) (found : list Document),
    holds s vs -> answered B vs query k found ->
    Forall (fun d => In d (stored_documents vs)) found.

(** The loop over [departments] again, with the results of each
    department kept apart: [scan_departments] is their concatenation. *)
Fixpoint scan_pieces (B : Backend) (query : string) (k : Z)
    (departments : list string) : M (list (list Document)) :=
  match departments with
  | [] => ret []
  | department :: rest =>
      s <- get_self ;;
      dept_results <-
        (if od_mem department (department_vectorstores s) then
           try_catch
             (found <- search_department B query department (Some k) ;;
              ret (map (set_department department) found))
             (fun _ => ret [])
         else ret []) ;;
      others <- scan_pieces B query k rest ;;
      ret (dept_results :: others)
  end.

(** The key of the sort is a number. *)
Definition numeric_key (doc : Document) : Prop :=
  exists q : Q, as_number (relevance_key doc) = Some q.

(** The sort key as a number; [0] stands for a string. *)
Definition key_q (doc : Document) : Q :=
  match as_number (relevance_key doc) with
  | Some q => q
  | None => 0%Q
  end.

Definition same_key (q : Q) (doc : Document) : bool :=
  Qeq_bool (key_q doc) q.

(** [l] is in non-increasing order of score. *)
Definition descending (l : list Document) : Prop :=
  StronglySorted (fun a b => (key_q b <= key_q a)%Q) l.

(** [s] is [l] rearranged in non-increasing order of score, documents of
    equal score staying in the order they have in [l]. *)
Definition stable_descending (l s : list Document) : Prop :=
  Permutation s l /\ descending s
  /\ forall q : Q, List.filter (same_key q) s = List.filter (same_key q) l.

(** An index that holds nothing but one sentinel entry. *)
Definition placeholder_index (text : string) (vs : Faiss) : Prop :=
  exists (id : string) (sentinel : Document) (b : bool),
    docstore vs = Some [(id, sentinel)] /\ index vs = Some b
    /\ page_content sentinel = text.

Definition is_fallback_call (text : string) (c : Call) : bool :=
  match c with
  | CFromTexts [t] => String.eqb t text
  | _ => false
  end.

(** How many times [calls] ask for the fallback placeholder [text]. *)
Definition fallback_attempts (text : string) (calls : list Call) : nat :=
  length (List.filter (is_fallback_call text) calls).

(** A metadata value as a number; [0] stands for a string. *)
Definition val_q (v : MVal) : Q :=
  match as_number v with
  | Some q => q
  | None => 0%Q
  end.

(** What a run returned, if it did. *)
Definition returned {A : Type} (r : Outcome A * St) : option A :=
  match fst r with
  | Ok a => Some a
  | Raise _ => None
  end.

Definition scored (q : Q) (text : string) : Document :=
  mkDocument text {[ score_key := VNum (PFloat q) ]}.

Definition with_main (docs : list Document) : St :=
  mkSt (mkVectorStore "faiss_index" 5 true (Some (mock_store docs)) []) [].

Definition with_departments (stores : list (string * list Document)) : St :=
  mkSt (mkVectorStore "faiss_index" 5 true None
          (map (fun p => (fst p, mock_store (snd p))) stores)) [].

(** The department [hr] after [initialize(hr, chunks=[])] on an empty
    disk. *)
Definition hr_state : St :=
  snd (initialize_department_vectorstore mock_backend "hr" (Some []) false
         (fresh "faiss_index")).

(** Two departments whose best chunks have the same score. *)
Definition two_departments : St :=
  with_departments
    [("a", [scored (9 # 10) "x"]);
     ("b", [scored (9 # 10) "y"; mkDocument "z" ∅])].

(** *** Vocabulary of the statements about calls *)

(** The calls that question an index. *)
Definition is_search_call (c : Call) : bool :=
  match c with
  | CMmrSearch _ _ _ _ | CSimilaritySearch _ _ _ => true
  | _ => false
  end.

Definition is_mmr_call (c : Call) : bool :=
  match c with
  | CMmrSearch _ _ _ _ => true
  | _ => false
  end.

Definition is_load_call (c : Call) : bool :=
  match c with
  | CLoadLocal _ => true
  | _ => false
  end.

(** The documents that a call hands to FAISS to be indexed. *)
Definition indexed_by (c : Call) : list Document :=
  match c with
  | CFromDocuments docs | CAddDocuments _ docs => docs
  | _ => []
  end.

(** [mock_backend] with other answers to the two searches and to
    [save_local]. *)
Definition mock_with
    (save : Trace -> Faiss -> string -> Outcome unit)
    (mmr : Trace -> Faiss -> string -> Z -> Z -> Outcome (list Document))
    (sim : Trace -> Faiss -> string -> Z -> Outcome (list Document))
    : Backend :=
  mkBackend
    (os_makedirs mock_backend) (os_path_exists mock_backend)
    (FAISS_load_local mock_backend) (FAISS_from_texts mock_backend)
    (FAISS_from_documents mock_backend) save
    (vs_add_documents mock_backend) mmr sim
    (embed_query mock_backend) (np_linalg_norm mock_backend).

(** The diversity search is out of order. *)
Definition no_mmr_backend : Backend :=
  mock_with (vs_save_local mock_backend)
    (fun _ _ _ _ _ => Raise (Exception "RuntimeError"))
    (vs_similarity_search mock_backend).

(** Both searches are out of order. *)
Definition no_search_backend : Backend :=
  mock_with (vs_save_local mock_backend)
    (fun _ _ _ _ _ => Raise (Exception "RuntimeError"))
    (fun _ _ _ _ => Raise (Exception "RuntimeError")).

(** Both searches find nothing. *)
Definition blind_backend : Backend :=
  mock_with (vs_save_local mock_backend)
    (fun _ _ _ _ _ => Ok []) (fun _ _ _ _ => Ok []).

(** The disk is full. *)
Definition no_save_backend : Backend :=
  mock_with (fun _ _ _ => Raise (Exception "OSError"))
    (vs_max_marginal_relevance_search mock_backend)
    (vs_similarity_search mock_backend).

(** The main index of [with_main], on an object that does not use the
    diversity search. *)
Definition plain_main (docs : list Document) : St :=
  mkSt (mkVectorStore "faiss_index" 5 false (Some (mock_store docs)) []) [].

(** A store that has a docstore but no attribute [index]. *)
Definition bare_store (docs : list Document) : Faiss :=
  mkFaiss (Some (combine (mock_ids (length docs) "id") docs)) None.

Definition with_store (vs : Faiss) : St :=
  mkSt (mkVectorStore "faiss_index" 5 true (Some vs) []) [].

Definition three_texts : list Document :=
  [mkDocument "x" ∅; mkDocument "y" ∅; mkDocument "z" ∅].

(** The configuration of the object, which no method changes. *)
Definition same_settings (s s' : VectorStore) : Prop :=
  faiss_index_path s' = faiss_index_path s
  /\ top_k_retrieval s' = top_k_retrieval s
  /\ use_mmr s' = use_mmr s.

(** Every document that [calls] hand to FAISS belongs to [department]. *)
Definition indexes_only (department : string) (calls : list Call) : Prop :=
  Forall (fun c => Forall (fun d => in_department department d = true)
                     (indexed_by c)) calls.

(** [initialize_all_department_vectorstores]; [default_departments] is
    the attribute of that name, which is set once, from the configuration. *)
Fixpoint initialize_all_loop (B : Backend) (departments : list string)
    (chunks : option (list Document)) (rebuild : bool) (all_success : bool)
    : M bool :=
  match departments with
  | [] => ret all_success
  | department :: rest =>
      success <- initialize_department_vectorstore B department chunks rebuild ;;
      initialize_all_loop B rest chunks rebuild
        (if negb success then false else all_success)
  end.

Definition initialize_all_department_vectorstores (B : Backend)
    (default_departments : list string) (chunks : option (list Document))
    (rebuild : bool) : M bool :=
  initialize_all_loop B default_departments chunks rebuild true.

Definition hr_chunk (text : string) : Document :=
  mkDocument text {[ "department" := VStr "hr" ]}.

(** [s] with another main index. *)
Definition with_vectorstore (s : VectorStore) (vs : Faiss) : VectorStore :=
  mkVectorStore (faiss_index_path s) (top_k_retrieval s) (use_mmr s)
    (Some vs) (department_vectorstores s).

(** [s] with another index for [department]. *)
Definition with_department (s : VectorStore) (department : string)
    (vs : Faiss) : VectorStore :=
  mkVectorStore (faiss_index_path s) (top_k_retrieval s) (use_mmr s)
    (vectorstore s) (od_set department vs (department_vectorstores s)).

(** [mock_backend] with the three texts saved at every path. *)
Definition disk_backend : Backend :=
  mkBackend
    (os_makedirs mock_backend) (os_path_exists mock_backend)
    (fun _ _ => Ok (mock_store three_texts))
    (FAISS_from_texts mock_backend) (FAISS_from_documents mock_backend)
    (vs_save_local mock_backend) (vs_add_documents mock_backend)
    (vs_max_marginal_relevance_search mock_backend)
    (vs_similarity_search mock_backend)
    (embed_query mock_backend) (np_linalg_norm mock_backend).

(** *** Index statistics *)

(** One entry of the dict that [get_index_stats] returns. *)
Record IndexInfo : Type := mkIndexInfo {
  info_exists : bool;
  info_size : Z;
  info_error : option string
}.

Record IndexStats : Type := mkIndexStats {
  main_index : IndexInfo;
  department_indexes : list (string * IndexInfo);
  total_documents : Z
}.

(** The entry for an index that is there: [index_size vs] is
    [len(vs.index_to_docstore_id)], which raises when the attribute is
    missing. *)
Definition measured (index_size : Faiss -> Outcome Z) (vs : Faiss)
    : IndexInfo :=
  match index_size vs with
  | Ok n => mkIndexInfo true n None
  | Raise (Exception what) => mkIndexInfo true 0 (Some what)
  end.

(** [get_index_stats].  A FAISS object is truthy, so that the branch of
    the loop for a falsy index is never taken. *)
Definition get_index_stats (index_size : Faiss -> Outcome Z)
    (s : VectorStore) : IndexStats :=
  let main := match vectorstore s with
              | Some vs => measured index_size vs
              | None => mkIndexInfo false 0 None
              end in
  let counted :=
    fold_left
      (fun acc p =>
         let info := measured index_size (snd p) in
         (od_set (fst p) info (fst acc), snd acc + info_size info))
      (department_vectorstores s) ([], info_size main) in
  mkIndexStats main (fst counted) (snd counted).

(** The sum of the sizes of a list of entries. *)
Definition sum_sizes (l : list (string * IndexInfo)) : Z :=
  fold_right (fun p acc => info_size (snd p) + acc) 0 l.

(** The document is labelled with [department]. *)
Definition labelled_with (department : string) (doc : Document) : Prop :=
  metadata doc !! "department" = Some (VStr department).

(** An index whose size is the number of documents in its docstore. *)
Definition docstore_size (vs : Faiss) : Outcome Z :=
  match docstore vs with
  | Some ds => Ok (Z.of_nat (length ds))
  | None => Raise (Exception "AttributeError")
  end.


(** [piece] is what the scan of [department] contributes to the fusion:
    nothing when the department has no index, and otherwise the result of
    a search of its index, labelled with the department. *)
Definition from_department (B : Backend) (s : VectorStore) (query : string)
    (k : Z) (department : string) (piece : list Document) : Prop :=
  Forall (labelled_with department) piece
  /\ match od_get department (department_vectorstores s) with
     | None => piece = []
     | Some vs =>
         exists found : list Document,
           provenance B vs query k
             (fun q => stamp_department q department)
             (fun doc => set_department department (fill_score (85 # 100) doc))
             found
           /\ piece = map (set_department department) found
     end.


End VectorStore.

(** ** Loading and chunking ([document_processor.py]) *)

Module Ingestion.

Import VectorStore.

(** [str(e)]. *)
Definition message (e : PyExn) : string :=
  match e with Exception what => what end.

(** What reading a text file with a given encoding can do. *)
Inductive ReadResult : Type :=
| ReadOk (content : string)
| ReadUnicodeDecodeError (e : PyExn)
| ReadRaise (e : PyExn).

(** The collaborators of [load_document]: [os.path] and [open], and the
    two LangChain loaders, constructor and [load()] taken together. *)
Record Files : Type := mkFiles {
  splitext_ext : string -> string;
  basename : string -> string;
  read_text : string -> string -> ReadResult;
  PyPDFLoader_load : string -> Outcome (list Document);
  Docx2txtLoader_load : string -> Outcome (list Document)
}.

(** [s or dflt] on an optional string: [None] and [''] are falsy. *)
Definition str_or (s : option string) (dflt : string) : string :=
  match s with
  | Some x => if String.eqb x EmptyString then dflt else x
  | None => dflt
  end.

(** [s.lstrip('.')]. *)
Fixpoint lstrip_dot (s : string) : string :=
  match s with
  | EmptyString => EmptyString
  | String c s' => if Ascii.eqb c "." then lstrip_dot s' else s
  end.

Definition quote : string := String (ascii_of_nat 34) EmptyString.

(** The message of the [TypeError] of [str + int]. *)
Definition concat_type_error : string :=
  "can only concatenate str (not " +:+ quote +:+ "int" +:+ quote +:+ ") to str".

(** [doc.metadata.get('page', 0) + 1]. *)
Definition next_page (md : gmap string MVal) : Outcome MVal :=
  match md !! "page" with
  | None => Ok (VNum (PInt 1))
  | Some (VNum (PInt z)) => Ok (VNum (PInt (z + 1)))
  | Some (VNum (PFloat q)) => Ok (VNum (PFloat (q + 1)))
  | Some (VBool b) => Ok (VNum (PInt ((if b then 1 else 0) + 1)))
  | Some (VStr _) => Raise (Exception concat_type_error)
  end.

(** A loop that stops at the first exception. *)
Fixpoint each {A : Type} (f : A -> Outcome A) (l : list A)
    : Outcome (list A) :=
  match l with
  | [] => Ok []
  | x :: l' =>
      match f x with
      | Ok y =>
          match each f l' with
          | Ok r => Ok (y :: r)
          | Raise e => Raise e
          end
      | Raise e => Raise e
      end
  end.

Section Loading.

Variable F : Files.
Variable file_path : string.
Variable department : option string.

(** The metadata of a document made by [load_document] itself. *)
Definition labelled (filetype : string) : gmap string MVal :=
  {[ "source" := VStr (basename F file_path);
     "filetype" := VStr filetype;
     "department" := VStr (str_or department "general");
     "page_number" := VNum (PInt 1) ]}.

Definition placeholder (content filetype : string) : Document :=
  mkDocument content (<["error" := VBool true]> (labelled filetype)).

(** The body of the loop over the pages of a PDF. *)
Definition stamp_pdf (doc : Document) : Outcome Document :=
  let md := <["department" := VStr (str_or department "general")]>
              (<["filetype" := VStr "pdf"]>
                 (<["source" := VStr (basename F file_path)]> (metadata doc))) in
  match next_page md with
  | Ok page_num =>
      Ok (mkDocument (page_content doc) (<["page_number" := page_num]> md))
  | Raise e => Raise e
  end.

Definition stamp_docx (doc : Document) : Document :=
  mkDocument (page_content doc)
    (<["department" := VStr (str_or department "general")]>
       (<["filetype" := VStr "docx"]>
          (<["source" := VStr (basename F file_path)]> (metadata doc)))).

Definition with_file_path (docs : list Document) : list Document :=
  map (set_meta "file_path" (VStr file_path)) docs.

Definition load_document : list Document :=
  let file_ext := lower (splitext_ext F file_path) in
  let text content := with_file_path [mkDocument content (labelled "txt")] in
  let failed e :=
    [set_meta "file_path" (VStr file_path)
       (placeholder ("[Error loading document: " +:+ message e +:+ "]")
          (if String.eqb file_ext EmptyString then "unknown"
           else lstrip_dot file_ext))] in
  if String.eqb file_ext ".txt" then
    match read_text F "utf-8" file_path with
    | ReadOk content => text content
    | ReadUnicodeDecodeError _ =>
        match read_text F "latin-1" file_path with
        | ReadOk content => text content
        | ReadUnicodeDecodeError e | ReadRaise e => failed e
        end
    | ReadRaise e => failed e
    end
  else if String.eqb file_ext ".pdf" then
    let pdf_error e :=
      [placeholder ("[Error loading PDF content: " +:+ message e +:+ "]")
         "pdf"] in
    with_file_path
      match PyPDFLoader_load F file_path with
      | Ok docs =>
          match each stamp_pdf docs with
          | Ok docs' => docs'
          | Raise e => pdf_error e
          end
      | Raise e => pdf_error e
      end
  else if String.eqb file_ext ".docx" then
    with_file_path
      match Docx2txtLoader_load F file_path with
      | Ok docs => map stamp_docx docs
      | Raise e =>
          [placeholder ("[Error loading DOCX content: " +:+ message e +:+ "]")
             "docx"]
      end
  else
    with_file_path
      [placeholder ("[Unsupported file type: " +:+ file_ext +:+ "]")
         (lstrip_dot file_ext)].

(** The file cannot be turned into text: its type is not one of the
    three, the loader of its type raises, or it is a text file that cannot
    be read. *)
Definition load_fails : Prop :=
  let file_ext := lower (splitext_ext F file_path) in
  (file_ext <> ".txt" /\ file_ext <> ".pdf" /\ file_ext <> ".docx")
  \/ (file_ext = ".pdf"
      /\ exists e, PyPDFLoader_load F file_path = Raise e)
  \/ (file_ext = ".docx"
      /\ exists e, Docx2txtLoader_load F file_path = Raise e)
  \/ (file_ext = ".txt"
      /\ ((exists e, read_text F "utf-8" file_path = ReadRaise e)
          \/ ((exists e, read_text F "utf-8" file_path
                         = ReadUnicodeDecodeError e)
              /\ forall content,
                   read_text F "latin-1" file_path <> ReadOk content))).

End Loading.

(** [doc.metadata.get(key, dflt)]. *)
Definition get_or (md : gmap string MVal) (key : string) (dflt : MVal)
    : MVal :=
  match md !! key with
  | Some v => v
  | None => dflt
  end.

(** The body of the loop of [split_documents] over the chunks;
    [first_valid] is [valid_docs[0]]. *)
Definition annotate (first_valid : Document) (i : nat) (chunk : Document)
    : Document :=
  let md := <["chunk_id" := VNum (PInt (Z.of_nat i))]> (metadata chunk) in
  let md := match md !! "source" with
            | Some _ => md
            | None =>
                <["source" := get_or (metadata first_valid) "source"
                                (VStr "unknown")]> md
            end in
  let md := match md !! "department" with
            | Some _ => md
            | None =>
                <["department" := get_or (metadata first_valid) "department"
                                    (VStr "general")]> md
            end in
  mkDocument (page_content chunk) md.

(** [split_documents]; [text_splitter] is
    [self.text_splitter.split_documents], which makes new documents. *)
Definition split_documents
    (text_splitter : list Document -> Outcome (list Document))
    (docs : list Document) : list Document :=
  match docs with
  | [] => []
  | _ =>
      let valid_docs := List.filter (fun doc => negb (has_error doc)) docs in
      match valid_docs with
      | [] => docs
      | first_valid :: _ =>
          match text_splitter valid_docs with
          | Ok chunks =>
              imap (annotate first_valid) chunks ++ List.filter has_error docs
          | Raise _ => docs
          end
      end
  end.

(** The keys that [split_documents] writes on a chunk. *)
Definition chunk_keys : list string := ["chunk_id"; "source"; "department"].

(** A file system with one text file, one PDF whose loader fails, and a
    splitter that cuts every document into its sentences. *)
Definition mock_files : Files :=
  mkFiles
    (fun p => if String.eqb p "notes.txt" then ".txt"
              else if String.eqb p "scan.PDF" then ".PDF" else ".xyz")
    (fun p => p)
    (fun _ _ => ReadOk "Pump one. Pump two.")
    (fun _ => Raise (Exception "broken xref"))
    (fun _ => Ok []).

Definition sentence_splitter (docs : list Document)
    : Outcome (list Document) :=
  Ok (flat_map (fun d => map (fun s => mkDocument s (metadata d))
                           (split_sentences (page_content d))) docs).

End Ingestion.

(** ** Request validation and the query endpoint
    ([models/query.py], [api/endpoints.py]) *)

Module Endpoints.

Import VectorStore.
Local Open Scope py_scope.

(** [QueryRequest.validate_max_results]. *)
Definition validate_max_results (v : option Z) : Outcome (option Z) :=
  match v with
  | Some z =>
      if (z <? 1) || (20 <? z) then Raise (Exception "ValueError") else Ok v
  | None => Ok v
  end.

(** The retrieval step of [query_endpoint]: a department that is given
    and not empty sends the query to the fusion, over that department
    alone. *)
Definition retrieve (B : Backend) (query : string)
    (department : option string) (max_results : option Z)
    : M (list Document) :=
  let departments :=
    match department with
    | Some d => if negb (String.eqb d EmptyString) then Some [d] else None
    | None => None
    end in
  match departments with
  | Some l => search_across_departments B query (Some l) max_results
  | None => similarity_search B query max_results
  end.

(** What [query_endpoint] hands to the response generator. *)
Record Context : Type := mkContext {
  docs : list Document;
  windowed_docs : list Document;
  max_relevance : MVal;
  has_relevant_context : bool
}.

(** [query_endpoint] from the retrieval to the windowing; [threshold] is
    [config.get("relevance_threshold", 0.7)]. *)
Definition query_context (B : Backend) (threshold : Q) (query : string)
    (department : option string) (max_results : option Z) : M Context :=
  found <- retrieve B query department max_results ;;
  let '(docs, summary) := evaluate_context_relevance query found threshold in
  r <- lift summary ;;
  ret (mkContext docs (enhanced_context_window docs query 3) (fst r) (snd r)).

End Endpoints.

(** * Properties *)

(** ** The context window refiner *)

Example split_eight :
  split_sentences (page_content eight)
  = ["S1."; "S2."; "S3."; "S4."; "S5."; "S6."; "S7."; "S8."].
Proof. reflexivity. Qed.

Example split_empty : split_sentences "" = [""].
Proof. reflexivity. Qed.

Example refine_eight :
  page_content (refine "S5." 2 eight) = "S3. S4. S5. S6. S7."
  /\ metadata (refine "S5." 2 eight) !! "central_sentence" = Some (VNum (PInt 4)).
Proof. vm_compute. split; reflexivity. Qed.

(** ** Facts about the Python helpers *)

Section PyFacts.

Lemma Qltb_true (a b : Q) : Qltb a b = true <-> (a < b)%Q.
Proof.
  unfold Qltb. rewrite negb_true_iff. split.
  - intros H. apply Qnot_le_lt. intros Hle.
    apply Qle_bool_iff in Hle. congruence.
  - intros H. destruct (Qle_bool b a) eqn:E; [|reflexivity].
    apply Qle_bool_iff in E. exfalso. exact (Qlt_not_le _ _ H E).
Qed.

Lemma Qltb_false (a b : Q) : Qltb a b = false <-> (b <= a)%Q.
Proof.
  unfold Qltb. rewrite negb_false_iff. apply Qle_bool_iff.
Qed.

Lemma slice_inner {A : Type} (l : list A) (a b : Z) :
  0 <= a -> a <= b -> b <= Z.of_nat (length l) ->
  slice l a b = take (Z.to_nat b - Z.to_nat a) (drop (Z.to_nat a) l).
Proof.
  intros Ha Hab Hb. unfold slice, norm_index.
  destruct (Z.ltb_spec a 0); [lia|]. destruct (Z.ltb_spec b 0); [lia|].
  rewrite !Z.min_l by lia. f_equal. lia.
Qed.

Lemma max_from_ge (l : list PyNum) : forall cur,
  (num_q cur <= num_q (max_from cur l))%Q
  /\ Forall (fun y => (num_q y <= num_q (max_from cur l))%Q) l.
Proof.
  induction l as [|x l IH]; intros cur; simpl.
  - split; [apply Qle_refl | constructor].
  - destruct (Qltb (num_q cur) (num_q x)) eqn:E.
    + apply Qltb_true in E. destruct (IH x) as [H1 H2].
      split; [|constructor; assumption].
      apply Qle_trans with (num_q x); [apply Qlt_le_weak|]; assumption.
    + apply Qltb_false in E. destruct (IH cur) as [H1 H2].
      split; [assumption|constructor; [|assumption]].
      apply Qle_trans with (num_q cur); assumption.
Qed.

Lemma max_from_in (l : list PyNum) : forall cur,
  max_from cur l = cur \/ In (max_from cur l) l.
Proof.
  induction l as [|x l IH]; intros cur; simpl; [now left|].
  destruct (Qltb (num_q cur) (num_q x)).
  - destruct (IH x) as [->|H]; right; [now left | now right].
  - destruct (IH cur) as [->|H]; [now left | right; now right].
Qed.

Lemma index_of_first (x : PyNum) (l : list PyNum) :
  (exists y, In y l /\ (num_q y == num_q x)%Q) ->
  exists (m : nat) (b : PyNum),
    index_of x l = Some m /\ l !! m = Some b /\ (num_q b == num_q x)%Q
    /\ forall (j : nat) (y : PyNum),
         (j < m)%nat -> l !! j = Some y -> ~ (num_q y == num_q x)%Q.
Proof.
  induction l as [|y l IH]; intros (z & Hin & Hz); [destruct Hin|].
  simpl. destruct (Qeq_bool (num_q y) (num_q x)) eqn:E.
  - exists O, y. repeat split; [now apply Qeq_bool_iff | intros; lia].
  - destruct Hin as [->|Hin].
    + apply Qeq_bool_iff in Hz. congruence.
    + destruct IH as (m & b & Hi & Hb & Hq & Hfirst); [eauto|].
      exists (S m), b. rewrite Hi. repeat split; try assumption.
      intros [|j] y' Hj Hy'; simpl in Hy'.
      * injection Hy' as <-. now apply Qeq_bool_neq.
      * apply (Hfirst j y'); [lia | assumption].
Qed.

Lemma max_then_index (scores : list PyNum) :
  scores <> [] ->
  exists (best : PyNum) (m : nat) (b : PyNum),
    py_max scores = Some best /\ index_of best scores = Some m
    /\ (num_q b == num_q best)%Q /\ first_max scores m b.
Proof.
  destruct scores as [|x l]; [congruence|]. intros _.
  set (best := max_from x l).
  destruct (max_from_ge l x) as [Hx Hl]. fold best in Hx, Hl.
  assert (Hall : Forall (fun y => (num_q y <= num_q best)%Q) (x :: l))
    by (constructor; assumption).
  destruct (index_of_first best (x :: l)) as (m & b & Hi & Hb & Hq & Hfirst).
  { exists best. split; [|reflexivity].
    destruct (max_from_in l x) as [H|H]; fold best in H;
      [rewrite H; now left | now right]. }
  exists best, m, b. split; [reflexivity|]. split; [exact Hi|].
  split; [exact Hq|]. split; [exact Hb|]. split.
  - intros j y Hy. rewrite Hq.
    rewrite Forall_forall in Hall. apply Hall.
    eapply list_elem_of_lookup_2; eassumption.
  - intros j y Hj Hy. rewrite Hq.
    assert (Hle : (num_q y <= num_q best)%Q).
    { rewrite Forall_forall in Hall. apply Hall.
      eapply list_elem_of_lookup_2; eassumption. }
    destruct (Qle_lt_or_eq _ _ Hle) as [Hlt|Heq]; [exact Hlt|].
    exfalso. exact (Hfirst j y Hj Hy Heq).
Qed.

End PyFacts.

Section RefinerFacts.

Lemma refine_window (query : string) (w : Z) (doc : Document) :
  has_error doc = false -> 0 <= w ->
  2 * w < Z.of_nat (length (sentences_of doc)) ->
  (Z.of_nat (length (sentences_of doc)) <= 10
   \/ Exists (fun x => (1 # 10 <= num_q x)%Q) (scores_of query doc)) ->
  exists (m : nat) (b : PyNum),
    first_max (scores_of query doc) m b
    /\ page_content (refine query w doc)
       = String.concat " "
           (take (Z.to_nat (Z.min (Z.of_nat (length (sentences_of doc)))
                              (Z.of_nat m + w + 1))
                  - Z.to_nat (Z.max 0 (Z.of_nat m - w)))
              (drop (Z.to_nat (Z.max 0 (Z.of_nat m - w))) (sentences_of doc)))
    /\ metadata (refine query w doc) !! "window_start"
       = Some (VNum (PInt (Z.max 0 (Z.of_nat m - w))))
    /\ metadata (refine query w doc) !! "window_end"
       = Some (VNum (PInt (Z.min (Z.of_nat (length (sentences_of doc)))
                             (Z.of_nat m + w + 1))))
    /\ metadata (refine query w doc) !! "central_sentence"
       = Some (VNum (PInt (Z.of_nat m)))
    /\ metadata (refine query w doc) !! "sentence_relevance" = Some (VNum b)
    /\ metadata (refine query w doc) !! "window_type" = Some (VStr "context").
Proof.
  intros Herr Hw Hlen Hgood.
  set (sentences := sentences_of doc) in *.
  set (scores := scores_of query doc) in *.
  set (len := Z.of_nat (length sentences)) in *.
  assert (Hne : scores <> []).
  { unfold scores, scores_of. fold sentences. intros Hnil.
    apply map_eq_nil in Hnil. unfold len in Hlen. rewrite Hnil in Hlen.
    simpl in Hlen. lia. }
  destruct (max_then_index scores Hne)
    as (best & m & b & Hmax & Hidx & Hq & Hfirst).
  exists m, b. split; [exact Hfirst|].
  assert (Hm : (m < length sentences)%nat).
  { destruct Hfirst as (Hb & _). apply lookup_lt_Some in Hb.
    unfold scores, scores_of in Hb. rewrite length_map in Hb. exact Hb. }
  assert (Hnth : nth m scores (PInt 0) = b).
  { destruct Hfirst as (Hb & _). now apply nth_lookup_Some with (d := PInt 0) in Hb. }
  assert (Hprefix : Qltb (num_q best) (1 # 10) && (10 <? len) = false).
  { destruct Hgood as [Hshort|Hex].
    - destruct (Z.ltb_spec 10 len); [lia|]. apply andb_false_r.
    - apply andb_false_intro1. apply Qltb_false.
      apply Exists_exists in Hex. destruct Hex as (x & Hin & Hx).
      apply list_elem_of_lookup in Hin. destruct Hin as (j & Hj).
      destruct Hfirst as (_ & Hall & _). rewrite <- Hq.
      apply Qle_trans with (num_q x); [exact Hx | exact (Hall j x Hj)]. }
  unfold refine. rewrite Herr. fold (sentences_of doc). fold sentences.
  fold len.
  replace ((length sentences =? 0)%nat || (len <=? w * 2)) with false.
  2:{ symmetry. apply orb_false_intro.
      - apply Nat.eqb_neq. lia.
      - apply Z.leb_gt. lia. }
  change (map (sentence_score (terms query)) sentences) with scores.
  rewrite Hmax, Hprefix, Hidx. cbv zeta. simpl page_content. simpl metadata.
  rewrite Hnth.
  rewrite slice_inner by (fold len; lia).
  repeat split.
  - rewrite !lookup_insert_ne by discriminate. apply lookup_insert_eq.
  - rewrite !lookup_insert_ne by discriminate. apply lookup_insert_eq.
  - rewrite !lookup_insert_ne by discriminate. apply lookup_insert_eq.
  - rewrite !lookup_insert_ne by discriminate. apply lookup_insert_eq.
  - apply lookup_insert_eq.
Qed.

Lemma score_without_overlap (qt : gset string) (sentence : string) :
  qt ∩ terms sentence = ∅ -> (num_q (sentence_score qt sentence) == 0)%Q.
Proof.
  intros H. unfold sentence_score. rewrite H.
  destruct (size qt =? 0)%nat; reflexivity.
Qed.

Lemma score_with_overlap (qt : gset string) (sentence : string) :
  qt ∩ terms sentence <> ∅ -> (0 < num_q (sentence_score qt sentence))%Q.
Proof.
  intros H. unfold sentence_score.
  assert (Hc : size (qt ∩ terms sentence) <> 0%nat).
  { intros Hz. apply size_empty_iff in Hz. apply H. now apply leibniz_equiv. }
  assert (Hq : size qt <> 0%nat).
  { intros Hz. apply size_empty_iff in Hz. apply leibniz_equiv in Hz.
    apply H. rewrite Hz. apply (left_absorb_L ∅ (∩)). }
  destruct (Nat.eqb_spec (size qt) 0); [contradiction|].
  simpl. unfold Qlt. simpl. lia.
Qed.

End RefinerFacts.

Section RefinerClaims.

Lemma refine_passes (query : string) (w : Z) (d : Document) :
  has_error d = true \/ Z.of_nat (length (sentences_of d)) <= 2 * w ->
  refine query w d = d.
Proof.
  intros H. unfold refine. destruct (has_error d); [reflexivity|].
  destruct H as [H|H]; [discriminate|]. fold (sentences_of d).
  replace (Z.of_nat (length (sentences_of d)) <=? w * 2) with true
    by (symmetry; apply Z.leb_le; lia).
  now rewrite orb_true_r.
Qed.

Lemma eight_sentences : sentences_of eight = eight_split.
Proof. vm_compute. reflexivity. Qed.

Lemma eight_scores_of (query : string) :
  scores_of query eight = map (sentence_score (terms query)) eight_split.
Proof. unfold scores_of. rewrite eight_sentences. reflexivity. Qed.

Lemma eight_no_error : has_error eight = false.
Proof. vm_compute. reflexivity. Qed.

(** The scores of the eight sentences when the query meets the fifth only. *)
Lemma eight_scores (query : string) :
  (forall (i : nat) (sentence : string),
     eight_split !! i = Some sentence ->
     (terms query ∩ terms sentence <> ∅ <-> i = 4%nat)) ->
  (forall (i : nat) (x : PyNum),
     i <> 4%nat ->
     map (sentence_score (terms query)) eight_split !! i = Some x ->
     (num_q x == 0)%Q)
  /\ (0 < num_q (sentence_score (terms query) "S5."))%Q.
Proof.
  intros Honly. split.
  - intros i x Hi Hx.
    apply list_lookup_fmap_Some in Hx. destruct Hx as (sn & Hx & Hsn).
    subst x. apply score_without_overlap.
    destruct (decide (terms query ∩ terms sn = ∅)) as [E|E]; [exact E|].
    apply (Honly i sn Hsn) in E. contradiction.
  - apply score_with_overlap. apply (Honly 4%nat "S5."); reflexivity.
Qed.

Lemma first_max_fifth (scores : list PyNum) (x4 : PyNum) (m : nat)
    (b : PyNum) :
  (forall (i : nat) (x : PyNum),
     i <> 4%nat -> scores !! i = Some x -> (num_q x == 0)%Q) ->
  scores !! 4%nat = Some x4 -> (0 < num_q x4)%Q ->
  first_max scores m b -> m = 4%nat.
Proof.
  intros Hzero Hx4 Hpos (Hb & Hall & Hbefore).
  destruct (lt_eq_lt_dec m 4) as [[Hlt|Heq]|Hgt]; [|exact Heq|].
  - exfalso. apply (Qlt_not_le _ _ Hpos).
    assert (Hz : (num_q b == 0)%Q) by (apply (Hzero m b); [lia | exact Hb]).
    apply Qle_trans with (num_q b); [exact (Hall _ _ Hx4)|].
    rewrite Hz. apply Qle_refl.
  - exfalso. pose proof (Hbefore _ _ Hgt Hx4) as Hlt.
    assert (Hz : (num_q b == 0)%Q) by (apply (Hzero m b); [lia | exact Hb]).
    apply (Qlt_not_le _ _ Hpos). apply Qlt_le_weak.
    apply Qlt_le_trans with (num_q b); [exact Hlt|].
    rewrite Hz. apply Qle_refl.
Qed.

Lemma eight_window (query : string) :
  (forall (i : nat) (sentence : string),
     sentences_of eight !! i = Some sentence ->
     (terms query ∩ terms sentence <> ∅ <-> i = 4%nat)) ->
  page_content (refine query 2 eight) = "S3. S4. S5. S6. S7."
  /\ metadata (refine query 2 eight) !! "central_sentence"
     = Some (VNum (PInt 4)).
Proof.
  intros Honly. rewrite eight_sentences in Honly.
  destruct (eight_scores query Honly) as (Hzero & Hpos).
  assert (Hlen : Z.of_nat (length (sentences_of eight)) = 8)
    by (rewrite eight_sentences; reflexivity).
  destruct (refine_window query 2 eight) as (m & b & Hfirst & Hcontent & _ & _ & Hc & _).
  - exact eight_no_error.
  - lia.
  - rewrite Hlen. lia.
  - left. rewrite Hlen. lia.
  - rewrite eight_scores_of in Hfirst. rewrite eight_sentences in Hcontent.
    assert (Hm : m = 4%nat).
    { apply (first_max_fifth _ (sentence_score (terms query) "S5.") m b Hzero);
        [reflexivity | exact Hpos | exact Hfirst]. }
    subst m. split.
    + rewrite Hcontent. vm_compute. reflexivity.
    + rewrite Hc. reflexivity.
Qed.

(** C6: on the eight sentences [S1.] to [S8.], with half-width 2 and a
    query whose terms meet those of the fifth sentence only, the refiner
    returns the third to the seventh sentence, centred on index 4.  In
    general, for a document without error flag that has more than [2 w]
    sentences and is not cut to its first ten, the window is the sentences
    from [max(0, m - w)] up to, not including, [min(len, m + w + 1)], where
    [m] is the first index that has the largest score. *)
Theorem context_window_centred (query : string) (w : Z) (doc : Document) :
  (has_error doc = false -> 0 <= w ->
   2 * w < Z.of_nat (length (sentences_of doc)) ->
   (Z.of_nat (length (sentences_of doc)) <= 10
    \/ Exists (fun x => (1 # 10 <= num_q x)%Q) (scores_of query doc)) ->
   exists (m : nat) (b : PyNum) (r : Document),
     enhanced_context_window [doc] query w = [r]
     /\ first_max (scores_of query doc) m b
     /\ page_content r
        = String.concat " "
            (take (Z.to_nat (Z.min (Z.of_nat (length (sentences_of doc)))
                               (Z.of_nat m + w + 1))
                   - Z.to_nat (Z.max 0 (Z.of_nat m - w)))
               (drop (Z.to_nat (Z.max 0 (Z.of_nat m - w))) (sentences_of doc)))
     /\ metadata r !! "window_start"
        = Some (VNum (PInt (Z.max 0 (Z.of_nat m - w))))
     /\ metadata r !! "window_end"
        = Some (VNum (PInt (Z.min (Z.of_nat (length (sentences_of doc)))
                              (Z.of_nat m + w + 1))))
     /\ metadata r !! "central_sentence" = Some (VNum (PInt (Z.of_nat m)))
     /\ metadata r !! "sentence_relevance" = Some (VNum b))
  /\ ((forall (i : nat) (sentence : string),
         sentences_of eight !! i = Some sentence ->
         (terms query ∩ terms sentence <> ∅ <-> i = 4%nat)) ->
      exists r : Document,
        enhanced_context_window [eight] query 2 = [r]
        /\ page_content r = "S3. S4. S5. S6. S7."
        /\ metadata r !! "central_sentence" = Some (VNum (PInt 4))).
Proof.
  split.
  - intros Herr Hw Hlen Hgood.
    destruct (refine_window query w doc Herr Hw Hlen Hgood)
      as (m & b & Hfirst & Hcontent & Hlo & Hhi & Hc & Hr & _).
    exists m, b, (refine query w doc).
    split; [reflexivity|]. repeat (split; [assumption|]). assumption.
  - intros Honly. exists (refine query 2 eight).
    split; [reflexivity|]. now apply eight_window.
Qed.

Lemma context_window_centred_witness :
  (exists (m : nat) (b : PyNum) (r : Document),
      enhanced_context_window [eight] "S5." 2 = [r]
      /\ first_max (scores_of "S5." eight) m b
      /\ metadata r !! "central_sentence" = Some (VNum (PInt (Z.of_nat m))))
  /\ (exists r : Document,
        enhanced_context_window [eight] "S5." 2 = [r]
        /\ page_content r = "S3. S4. S5. S6. S7."
        /\ metadata r !! "central_sentence" = Some (VNum (PInt 4))).
Proof.
  split.
  - destruct (proj1 (context_window_centred "S5." 2 eight))
      as (m & b & r & Hr & Hfirst & _ & _ & _ & Hc & _).
    + vm_compute. reflexivity.
    + lia.
    + vm_compute. reflexivity.
    + left. vm_compute. discriminate.
    + exists m, b, r. split; [exact Hr|]. split; [exact Hfirst | exact Hc].
  - apply (proj2 (context_window_centred "S5." 2 eight)).
    intros i sentence Hi. rewrite eight_sentences in Hi.
    do 8 (destruct i as [|i];
          [injection Hi as <-; vm_compute;
           split; [intros H; try reflexivity; exfalso; now apply H
                  | intros H; try discriminate H; try discriminate] |]).
    discriminate Hi.
Defined.

(** C7, as amended: whatever the query and the half-width [w], a document
    that carries the error flag or splits into at most [2 w] sentences
    comes back as it went in; one with empty content splits into the single
    sentence [""] and so is passed through as soon as [w] is at least 1. *)
Theorem short_or_flagged_passes_through (query : string) (w : Z)
    (docs : list Document) :
  (Forall (fun d => has_error d = true
                    \/ Z.of_nat (length (sentences_of d)) <= 2 * w) docs ->
   enhanced_context_window docs query w = docs)
  /\ (forall md : gmap string MVal,
        1 <= w ->
        enhanced_context_window [mkDocument "" md] query w
        = [mkDocument "" md]).
Proof.
  split.
  - intros Hall. destruct docs as [|d docs]; [reflexivity|].
    unfold enhanced_context_window.
    induction Hall as [|x l Hx _ IH]; [reflexivity|].
    simpl. now rewrite (refine_passes query w x Hx), IH.
  - intros md Hw. simpl. f_equal. apply refine_passes. right. simpl. lia.
Qed.

Lemma short_or_flagged_witness :
  enhanced_context_window
    [mkDocument "[Unsupported file type: .xyz]" {[ "error" := VBool true ]};
     mkDocument "One. Two. Three." ∅] "two" 3
  = [mkDocument "[Unsupported file type: .xyz]" {[ "error" := VBool true ]};
     mkDocument "One. Two. Three." ∅]
  /\ enhanced_context_window [mkDocument "" ∅] "two" 1 = [mkDocument "" ∅].
Proof.
  split.
  - apply (proj1 (short_or_flagged_passes_through "two" 3 _)).
    constructor; [left; vm_compute; reflexivity|].
    constructor; [right; vm_compute; discriminate | constructor].
  - apply (proj2 (short_or_flagged_passes_through "two" 1 []) ∅). lia.
Defined.

(** With half-width 0 the document with empty content is not passed
    through: it comes back annotated as a window. *)
Lemma empty_content_annotated_at_zero :
  enhanced_context_window [mkDocument "" ∅] "anything" 0 <> [mkDocument "" ∅]
  /\ (metadata <$> enhanced_context_window [mkDocument "" ∅] "anything" 0)
     = [ {[ "window_start" := VNum (PInt 0); "window_end" := VNum (PInt 1);
            "central_sentence" := VNum (PInt 0);
            "sentence_relevance" := VNum (PFloat 0);
            "window_type" := VStr "context" ]} ].
Proof.
  split.
  - intros H.
    apply (f_equal (fun l => match l with
                             | [d] => metadata d !! "window_type"
                             | _ => None
                             end)) in H.
    vm_compute in H. discriminate H.
  - vm_compute. reflexivity.
Qed.

End RefinerClaims.

(** ** Facts about the vector store *)

Import VectorStore.
Local Open Scope py_scope.

Section MonadFacts.

Context {A B : Type}.

Lemma bind_ok (m : M A) (f : A -> M B) (st st' : St) (a : A) :
  m st = (Ok a, st') -> bind m f st = f a st'.
Proof. intros H. unfold bind. now rewrite H. Qed.

Lemma bind_raise (m : M A) (f : A -> M B) (st st' : St) (e : PyExn) :
  m st = (Raise e, st') -> bind m f st = (Raise e, st').
Proof. intros H. unfold bind. now rewrite H. Qed.

Lemma try_ok (m : M A) (h : PyExn -> M A) (st st' : St) (a : A) :
  m st = (Ok a, st') -> try_catch m h st = (Ok a, st').
Proof. intros H. unfold try_catch. now rewrite H. Qed.

Lemma try_raise (m : M A) (h : PyExn -> M A) (st st' : St) (e : PyExn) :
  m st = (Raise e, st') -> try_catch m h st = h e st'.
Proof. intros H. unfold try_catch. now rewrite H. Qed.

End MonadFacts.

Section DocstoreFacts.

Lemma od_get_keys (ds : list (string * Document)) (key : string) :
  In key (od_keys ds) ->
  exists d : Document, od_get key ds = Some d /\ In d (map snd ds).
Proof.
  induction ds as [|[k' d'] ds IH]; simpl; [tauto|]. intros Hin.
  destruct (String.eqb k' key) eqn:E.
  - exists d'. split; [reflexivity | now left].
  - destruct Hin as [Heq|Hin].
    + apply String.eqb_neq in E. congruence.
    + destruct (IH Hin) as (d & Hd & Hin'). exists d. split; [exact Hd | now right].
Qed.

Lemma fetch_ok (ds : list (string * Document)) (stamp : Document -> Document)
    (keys : list string) :
  (forall key, In key keys -> In key (od_keys ds)) ->
  exists docs : list Document,
    fetch ds stamp keys = Ok docs /\ length docs = length keys
    /\ Forall (fun d => exists d0, In d0 (map snd ds) /\ d = stamp d0) docs.
Proof.
  induction keys as [|key keys IH]; intros Hsub; simpl.
  - exists []. repeat split. constructor.
  - destruct (od_get_keys ds key) as (d & Hd & Hin); [apply Hsub; now left|].
    destruct IH as (docs & Hf & Hlen & Hall); [intros; apply Hsub; now right|].
    rewrite Hd, Hf. exists (stamp d :: docs). repeat split.
    + simpl. now rewrite Hlen.
    + constructor; [eauto | exact Hall].
Qed.

Lemma enumerate_ok (ds : list (string * Document)) (k : Z)
    (stamp : Document -> Document) :
  exists docs : list Document,
    enumerate ds k stamp = Ok docs
    /\ length docs = Z.to_nat (Z.min k (Z.of_nat (length ds)))
    /\ Forall (fun d => exists d0, In d0 (map snd ds) /\ d = stamp d0) docs.
Proof.
  unfold enumerate.
  destruct (fetch_ok ds stamp
              (take (Z.to_nat (Z.min k (Z.of_nat (length (od_keys ds)))))
                 (od_keys ds)))
    as (docs & Hf & Hlen & Hall).
  { intros key Hin. apply list_elem_of_In. apply list_elem_of_In in Hin.
    exact (subseteq_take _ _ _ Hin). }
  exists docs. split; [exact Hf|]. split; [|exact Hall].
  rewrite Hlen, length_take. unfold od_keys. rewrite length_map. lia.
Qed.

Lemma docstore_tier_run (vs : Faiss) (k : Z) (stamp : Document -> Document)
    (st : St) :
  exists r : option (list Document),
    docstore_tier vs k stamp st = (Ok r, st) /\ tier_yield vs k stamp r
    /\ (r = None -> docstore vs = None \/ docstore vs = Some []).
Proof.
  unfold docstore_tier, try_catch, bind, lift, ret.
  destruct (docstore vs) as [ds|] eqn:Hds.
  - destruct ds as [|p ds'].
    + exists None. simpl. auto.
    + simpl nonempty. cbv iota.
      destruct (enumerate_ok (p :: ds') k stamp) as (docs & He & _).
      rewrite He. exists (Some docs). split; [reflexivity|].
      split; [|discriminate]. exists (p :: ds'). now repeat split.
  - exists None. simpl. auto.
Qed.

Lemma direct_tier_run (vs : Faiss) (k : Z) (stamp : Document -> Document)
    (st : St) :
  exists r : option (list Document),
    direct_tier vs k stamp st = (Ok r, st) /\ tier_yield vs k stamp r
    /\ (index vs <> None -> r = None).
Proof.
  unfold direct_tier, try_catch, bind, lift, ret.
  destruct (docstore vs) as [ds|] eqn:Hds.
  - destruct ds as [|p ds'].
    + exists None. simpl. auto.
    + simpl nonempty. destruct (index vs) as [b|] eqn:Hi; simpl.
      * exists None. simpl. auto.
      * destruct (enumerate_ok (p :: ds') k stamp) as (docs & He & _).
        rewrite He. exists (Some docs). split; [reflexivity|].
        split; [|congruence]. exists (p :: ds'). now repeat split.
  - exists None. simpl. auto.
Qed.

End DocstoreFacts.

Ltac run_ok H := rewrite (bind_ok _ _ _ _ _ H); cbv beta iota.
Ltac run_raise H := rewrite (bind_raise _ _ _ _ _ H).

Section SearchFacts.

Variable B : Backend.

Lemma plain_search_run (vs : Faiss) (query : string) (k : Z) (st : St) :
  exists t' : Trace,
    (exists e, plain_search B vs query k st = (Raise e, mkSt (self st) t'))
    \/ (exists found,
          plain_search B vs query k st = (Ok found, mkSt (self st) t')
          /\ answered B vs query k found).
Proof.
  unfold plain_search, call. eexists.
  destruct (vs_similarity_search B (trace st) vs query k) as [found|e] eqn:E.
  - right. exists found. split; [reflexivity|]. exists (trace st). now right.
  - left. now exists e.
Qed.

Lemma primary_search_run (mmr : bool) (vs : Faiss) (query : string) (k : Z)
    (st : St) :
  exists t' : Trace,
    (exists e, primary_search B mmr vs query k st = (Raise e, mkSt (self st) t'))
    \/ (exists found,
          primary_search B mmr vs query k st = (Ok found, mkSt (self st) t')
          /\ (found = [] \/ answered B vs query k found)).
Proof.
  unfold primary_search. destruct mmr.
  - set (st1 := mkSt (self st) (trace st ++ [CMmrSearch vs query k (k * 3)])).
    set (ask := call (CMmrSearch vs query k (k * 3))
                  (fun t => vs_max_marginal_relevance_search B t vs query k (k * 3))).
    destruct (vs_max_marginal_relevance_search B (trace st) vs query k (k * 3))
      as [docs|e] eqn:E.
    + assert (Hask : ask st = (Ok docs, st1))
        by (unfold ask, call; now rewrite E).
      destruct (negb (nonempty docs)
                && match index vs with Some b => b | None => false end) eqn:Hc.
      * destruct (plain_search_run vs query k st1) as (t' & [[e He]|[f [Hf Ha]]]).
        -- destruct (plain_search_run vs query k (mkSt (self st1) t'))
             as (t'' & [[e' He']|[f [Hf Ha]]]); exists t''.
           ++ left. exists e'. erewrite try_raise; [exact He'|].
              erewrite bind_ok by exact Hask. rewrite Hc. exact He.
           ++ right. exists f. split; [|now right].
              erewrite try_raise; [exact Hf|].
              erewrite bind_ok by exact Hask. rewrite Hc. exact He.
        -- exists t'. right. exists f. split; [|now right].
           erewrite try_ok; [reflexivity|].
           erewrite bind_ok by exact Hask. rewrite Hc. exact Hf.
      * exists (trace st1). right. exists docs. split.
        -- erewrite try_ok; [reflexivity|].
           erewrite bind_ok by exact Hask. rewrite Hc. reflexivity.
        -- destruct docs; [now left|]. right. exists (trace st). now left.
    + assert (Hask : ask st = (Raise e, st1))
        by (unfold ask, call; now rewrite E).
      destruct (plain_search_run vs query k st1) as (t' & [[e' He]|[f [Hf Ha]]]);
        exists t'.
      * left. exists e'. erewrite try_raise; [exact He|].
        now erewrite bind_raise by exact Hask.
      * right. exists f. split; [|now right].
        erewrite try_raise; [exact Hf|].
        now erewrite bind_raise by exact Hask.
  - destruct (plain_search_run vs query k st) as (t' & [[e' He]|[f [Hf Ha]]]);
      exists t'.
    + left. exists e'. exact He.
    + right. exists f. split; [exact Hf | now right].
Qed.

(** A search returns, leaves the object as it is, and its result has one
    of the three provenances. *)
Lemma tiered_search_run (mmr : bool) (vs : Faiss) (query : string) (k : Z)
    (stamp : Q -> Document -> Document) (fill : Document -> Document)
    (st : St) :
  exists (docs : list Document) (t' : Trace),
    tiered_search B mmr vs query k stamp fill st = (Ok docs, mkSt (self st) t')
    /\ provenance B vs query k stamp fill docs.
Proof.
  unfold tiered_search.
  destruct (direct_tier_run vs k (stamp (8 # 10)) st) as (d & Hd & Hy & _).
  destruct d as [docs|].
  - exists docs, (trace st). split.
    + rewrite (try_ok _ _ st st docs); [destruct st; reflexivity|].
      now run_ok Hd.
    + left. exists (8 # 10). auto.
  - destruct (primary_search_run mmr vs query k st)
      as (t1 & [[e He]|[found [Hf Ha]]]).
    + destruct (docstore_tier_run vs k (stamp (6 # 10)) (mkSt (self st) t1))
        as (r & Hr & Hyr & Hnone).
      rewrite (try_raise _ _ st (mkSt (self st) t1) e);
        [|run_ok Hd; now run_raise He].
      run_ok Hr. destruct r as [docs|].
      * exists docs, t1. split; [reflexivity|]. left. exists (6 # 10). auto.
      * exists [], t1. split; [reflexivity|]. right. right. auto.
    + destruct found as [|x found].
      * destruct (docstore_tier_run vs k (stamp (7 # 10)) (mkSt (self st) t1))
          as (r & Hr & Hyr & Hnone).
        destruct r as [docs|].
        -- exists docs, t1. split.
           ++ rewrite (try_ok _ _ st (mkSt (self st) t1) docs); [reflexivity|].
              run_ok Hd. run_ok Hf. simpl. now run_ok Hr.
           ++ left. exists (7 # 10). auto.
        -- exists [], t1. split.
           ++ rewrite (try_ok _ _ st (mkSt (self st) t1) []); [reflexivity|].
              run_ok Hd. run_ok Hf. simpl. now run_ok Hr.
           ++ right. right. auto.
      * exists (map fill (x :: found)), t1. split.
        -- rewrite (try_ok _ _ st (mkSt (self st) t1) (map fill (x :: found)));
             [reflexivity|].
           run_ok Hd. run_ok Hf. reflexivity.
        -- right. left. exists (x :: found). split; [discriminate|].
           split; [|reflexivity]. destruct Ha as [Ha|Ha]; [discriminate|exact Ha].
Qed.

Lemma similarity_search_tiered (query : string) (k : option Z) (st : St) :
  similarity_search B query k st =
  match vectorstore (self st) with
  | None => (Ok [], st)
  | Some vs =>
      tiered_search B (use_mmr (self st)) vs query
        (int_or k (top_k_retrieval (self st))) set_score
        (fill_score (85 # 100)) st
  end.
Proof.
  unfold similarity_search, bind, get_self.
  destruct (vectorstore (self st)); reflexivity.
Qed.

Lemma search_department_tiered (query department : string) (k : option Z)
    (st : St) :
  search_department B query department k st =
  match od_get department (department_vectorstores (self st)) with
  | None => (Ok [], st)
  | Some vs =>
      tiered_search B (use_mmr (self st)) vs query
        (int_or k (top_k_retrieval (self st)))
        (fun q => stamp_department q department)
        (fun doc => set_department department (fill_score (85 # 100) doc)) st
  end.
Proof.
  unfold search_department, bind, get_self.
  destruct (od_get department (department_vectorstores (self st))); reflexivity.
Qed.

End SearchFacts.

Section ScoreFacts.

Lemma score_of_set_score (q : Q) (d : Document) :
  score_of (set_score q d) = Some (VNum (PFloat q)).
Proof. unfold score_of, set_score, set_meta. simpl. apply lookup_insert_eq. Qed.

Lemma score_of_set_department (department : string) (d : Document) :
  score_of (set_department department d) = score_of d.
Proof.
  unfold score_of, set_department, set_meta. simpl.
  apply lookup_insert_ne. discriminate.
Qed.

Lemma score_of_fill (q : Q) (d : Document) :
  score_of (fill_score q d) =
  match score_of d with Some v => Some v | None => Some (VNum (PFloat q)) end.
Proof.
  unfold fill_score. fold (score_of d).
  destruct (score_of d) eqn:E; [exact E | apply score_of_set_score].
Qed.

Lemma content_set_meta (key : string) (v : MVal) (d : Document) :
  page_content (set_meta key v d) = page_content d.
Proof. reflexivity. Qed.

Lemma content_fill (q : Q) (d : Document) :
  page_content (fill_score q d) = page_content d.
Proof. unfold fill_score. now destruct (metadata d !! score_key). Qed.

Lemma unit_score_default (q : Q) (d : Document) :
  (0 <= q)%Q -> (q <= 1)%Q -> score_of d = Some (VNum (PFloat q)) ->
  unit_score d.
Proof. intros H0 H1 H. exists (PFloat q). auto. Qed.

Lemma tier_constant (q : Q) :
  q = 8 # 10 \/ q = 7 # 10 \/ q = 6 # 10 -> (0 <= q)%Q /\ (q <= 1)%Q.
Proof. intros [-> | [-> | ->]]; split; discriminate. Qed.

End ScoreFacts.

Section Budget.

Variable B : Backend.

Lemma tier_yield_length (vs : Faiss) (k : Z) (stamp : Document -> Document)
    (docs : list Document) :
  tier_yield vs k stamp (Some docs) ->
  exists ds, docstore vs = Some ds /\ ds <> []
    /\ length docs = Z.to_nat (Z.min k (Z.of_nat (length ds)))
    /\ Forall (fun d => exists d0, In d0 (map snd ds) /\ d = stamp d0) docs.
Proof.
  intros (ds & Hds & Hne & He).
  destruct (enumerate_ok ds k stamp) as (docs' & He' & Hlen & Hall).
  rewrite He in He'. injection He' as <-. exists ds. auto.
Qed.

Lemma provenance_length (s : VectorStore) (vs : Faiss) (query : string)
    (k : Z) (stamp : Q -> Document -> Document) (fill : Document -> Document)
    (docs : list Document) :
  holds s vs -> honours_budget B s -> 0 <= k ->
  provenance B vs query k stamp fill docs ->
  Z.of_nat (length docs) <= k.
Proof.
  intros Hh Hb Hk [(q & _ & Hy)|[(found & _ & Ha & Hd)|[Hd _]]]; try subst docs.
  - destruct (tier_yield_length _ _ _ _ Hy) as (ds & _ & _ & Hlen & _).
    rewrite Hlen. lia.
  - rewrite length_map. exact (Hb vs query k found Hh Hk Ha).
  - simpl. lia.
Qed.

(** C4, as amended: [similarity_search] always returns, whatever the
    collaborators do; without a main index it returns the empty list; and
    with [k' = k or top_k_retrieval] for the budget actually used, the
    list has at most [k'] documents when [k'] is not negative and the index
    itself honours the budget it is given. *)
Theorem similarity_search_total_and_bounded (s : VectorStore)
    (query : string) (k : option Z) (t : Trace) :
  exists (docs : list Document) (t' : Trace),
    similarity_search B query k (mkSt s t) = (Ok docs, mkSt s t')
    /\ (vectorstore s = None -> docs = [])
    /\ (honours_budget B s -> 0 <= int_or k (top_k_retrieval s) ->
        Z.of_nat (length docs) <= int_or k (top_k_retrieval s)).
Proof.
  rewrite similarity_search_tiered. simpl self.
  destruct (vectorstore s) as [vs|] eqn:Hvs.
  - destruct (tiered_search_run B (use_mmr s) vs query
                (int_or k (top_k_retrieval s)) set_score
                (fill_score (85 # 100)) (mkSt s t)) as (docs & t' & Hrun & Hp).
    exists docs, t'. split; [exact Hrun|]. split; [discriminate|].
    intros Hb Hk. eapply provenance_length; try eassumption. now left.
  - exists [], t. split; [reflexivity|]. split; [reflexivity|]. simpl. lia.
Qed.

(** C9: a budget of [0], like no budget at all, stands for the configured
    [top_k_retrieval], in both search methods; on an index of seven
    documents and the default configuration, [k = 0] returns five. *)
Theorem zero_budget_is_default (s : VectorStore) (query department : string)
    (t : Trace) :
  similarity_search B query (Some 0) (mkSt s t)
    = similarity_search B query (Some (top_k_retrieval s)) (mkSt s t)
  /\ similarity_search B query None (mkSt s t)
    = similarity_search B query (Some (top_k_retrieval s)) (mkSt s t)
  /\ search_department B query department (Some 0) (mkSt s t)
    = search_department B query department (Some (top_k_retrieval s)) (mkSt s t)
  /\ search_department B query department None (mkSt s t)
    = search_department B query department (Some (top_k_retrieval s)) (mkSt s t)
  /\ (let seven := map (fun text => mkDocument text ∅)
                     ["a"; "b"; "c"; "d"; "e"; "f"; "g"] in
      length <$> returned (similarity_search mock_backend "q" (Some 0)
                             (with_main seven)) = Some 5%nat
      /\ length <$> returned (search_department mock_backend "q" "hr" (Some 0)
                               (with_departments [("hr", seven)]))
         = Some 5%nat).
Proof.
  assert (Hk : int_or (Some (top_k_retrieval s)) (top_k_retrieval s)
               = top_k_retrieval s).
  { unfold int_or. now destruct (top_k_retrieval s =? 0). }
  rewrite !similarity_search_tiered, !search_department_tiered. simpl self.
  rewrite Hk. simpl int_or. repeat split; vm_compute; reflexivity.
Qed.

(** C10: with no chunks to add, both [add_documents] and
    [add_documents_to_department] answer [False]; the object is left as it
    was and no collaborator is called. *)
Theorem add_nothing_changes_nothing (department : string) (st : St) :
  add_documents B None st = (Ok false, st)
  /\ add_documents B (Some []) st = (Ok false, st)
  /\ add_documents_to_department B department None st = (Ok false, st)
  /\ add_documents_to_department B department (Some []) st = (Ok false, st).
Proof. repeat split. Qed.

End Budget.

Section SortFacts.

Lemma py_lt_numeric (x y : Document) :
  numeric_key x -> numeric_key y ->
  py_lt (relevance_key x) (relevance_key y) = Some (Qltb (key_q x) (key_q y)).
Proof.
  intros [qx Hx] [qy Hy]. unfold key_q, py_lt. rewrite Hx, Hy.
  destruct (relevance_key x), (relevance_key y); try discriminate; reflexivity.
Qed.

Lemma same_key_apart (q : Q) (x y : Document) :
  (key_q x < key_q y)%Q -> same_key q x = true -> same_key q y = false.
Proof.
  unfold same_key. intros Hlt Hx. apply Qeq_bool_iff in Hx.
  destruct (Qeq_bool (key_q y) q) eqn:E; [|reflexivity].
  apply Qeq_bool_iff in E. rewrite Hx, E in Hlt.
  exfalso. exact (Qlt_irrefl _ Hlt).
Qed.

Lemma descending_cons (x : Document) (l : list Document) :
  descending l -> Forall (fun z => (key_q z <= key_q x)%Q) l ->
  descending (x :: l).
Proof. intros Hl Hx. now constructor. Qed.

Lemma descending_take (n : nat) (l : list Document) :
  descending l -> descending (take n l).
Proof.
  intros H. revert n. induction H as [|x l Hl IH Hx]; intros [|n]; simpl;
    try constructor.
  - apply IH.
  - now apply Forall_take.
Qed.

Lemma insert_desc_ok (x : Document) (l : list Document) :
  numeric_key x -> Forall numeric_key l -> descending l ->
  exists r : list Document,
    insert_desc x l = Ok r /\ Permutation r (x :: l) /\ descending r
    /\ forall q : Q,
         List.filter (same_key q) r = List.filter (same_key q) (x :: l).
Proof.
  intros Hx Hall Hdesc. induction l as [|y l IH].
  - exists [x]. simpl. repeat split; auto. apply descending_cons; constructor.
  - inversion Hall as [|? ? Hy Hl]; subst.
    inversion Hdesc as [|? ? Hdl Hyl]; subst.
    simpl. rewrite (py_lt_numeric x y Hx Hy).
    destruct (Qltb (key_q x) (key_q y)) eqn:E.
    + apply Qltb_true in E.
      destruct (IH Hl Hdl) as (r & Hr & Hperm & Hdr & Hfil). rewrite Hr.
      exists (y :: r). split; [reflexivity|]. split; [|split].
      * rewrite Hperm. apply perm_swap.
      * apply descending_cons; [exact Hdr|].
        apply (Permutation_Forall (Permutation_sym Hperm)).
        constructor; [now apply Qlt_le_weak | exact Hyl].
      * intros q. simpl. rewrite Hfil. simpl.
        destruct (same_key q x) eqn:Ex; [|reflexivity].
        now rewrite (same_key_apart q x y E Ex).
    + apply Qltb_false in E. exists (x :: y :: l).
      split; [reflexivity|]. split; [reflexivity|]. split; [|reflexivity].
      apply descending_cons; [exact Hdesc|].
      constructor; [exact E|].
      eapply Forall_impl; [exact Hyl|]. intros z Hz. simpl in Hz.
      now apply Qle_trans with (key_q y).
Qed.

(** On numeric keys the sort returns, and it is a stable sort. *)
Lemma sorted_desc_ok (l : list Document) :
  Forall numeric_key l ->
  exists s : list Document, sorted_desc l = Ok s /\ stable_descending l s.
Proof.
  induction l as [|x l IH]; intros Hall.
  - exists []. split; [reflexivity|]. repeat split; constructor.
  - inversion Hall as [|? ? Hx Hl]; subst.
    destruct (IH Hl) as (s & Hs & Hperm & Hdesc & Hfil).
    destruct (insert_desc_ok x s Hx) as (r & Hr & Hp & Hd & Hf);
      [exact (Permutation_Forall (Permutation_sym Hperm) Hl) | exact Hdesc |].
    exists r. simpl. rewrite Hs. split; [exact Hr|]. split; [|split].
    + rewrite Hp. now constructor.
    + exact Hd.
    + intros q. rewrite Hf. simpl. now rewrite Hfil.
Qed.

Lemma prefix_is_take {A : Type} (l : list A) (k : Z) :
  exists n : nat, prefix l k = take n l /\ (0 <= k -> Z.of_nat n <= k).
Proof.
  unfold prefix. eexists. split; [reflexivity|]. intros Hk.
  unfold norm_index. destruct (Z.ltb_spec k 0); lia.
Qed.

End SortFacts.

Section FusionFacts.

Variable B : Backend.

Lemma provenance_forall (P0 P : Document -> Prop) (vs : Faiss)
    (query : string) (k : Z) (stamp : Q -> Document -> Document)
    (fill : Document -> Document) (docs : list Document) :
  (forall q d, q = 8 # 10 \/ q = 7 # 10 \/ q = 6 # 10 -> P (stamp q d)) ->
  (forall d, P0 d -> P (fill d)) ->
  (forall found, answered B vs query k found -> Forall P0 found) ->
  provenance B vs query k stamp fill docs -> Forall P docs.
Proof.
  intros Hstamp Hfill Hans [(q & Hq & Hy)|[(found & _ & Ha & Hd)|[Hd _]]].
  - destruct (tier_yield_length _ _ _ _ Hy) as (ds & _ & _ & _ & Hall).
    eapply Forall_impl; [exact Hall|]. intros d (d0 & _ & ->). now apply Hstamp.
  - subst docs. apply Forall_map. eapply Forall_impl; [exact (Hans found Ha)|].
    exact Hfill.
  - subst docs. constructor.
Qed.

(** A department search returns and leaves the object as it is. *)
Lemma search_department_run (s : VectorStore) (query department : string)
    (k : option Z) (t : Trace) :
  exists (docs : list Document) (t' : Trace),
    search_department B query department k (mkSt s t) = (Ok docs, mkSt s t')
    /\ match od_get department (department_vectorstores s) with
       | None => docs = []
       | Some vs =>
           provenance B vs query (int_or k (top_k_retrieval s))
             (fun q => stamp_department q department)
             (fun doc => set_department department (fill_score (85 # 100) doc))
             docs
       end.
Proof.
  rewrite search_department_tiered. simpl self.
  destruct (od_get department (department_vectorstores s)) as [vs|].
  - destruct (tiered_search_run B (use_mmr s) vs query
                (int_or k (top_k_retrieval s))
                (fun q => stamp_department q department)
                (fun doc => set_department department
                              (fill_score (85 # 100) doc)) (mkSt s t))
      as (docs & t' & Hrun & Hp).
    now exists docs, t'.
  - now exists [], t.
Qed.

Lemma search_department_forall (P0 P : Document -> Prop) (s : VectorStore)
    (query department : string) (k : option Z) (t : Trace) :
  (forall q d, q = 8 # 10 \/ q = 7 # 10 \/ q = 6 # 10 ->
               P (stamp_department q department d)) ->
  (forall d, P0 d -> P (set_department department (fill_score (85 # 100) d))) ->
  answers B s P0 ->
  exists (docs : list Document) (t' : Trace),
    search_department B query department k (mkSt s t) = (Ok docs, mkSt s t')
    /\ Forall P docs.
Proof.
  intros Hstamp Hfill Hans.
  destruct (search_department_run s query department k t)
    as (docs & t' & Hrun & Hp).
  exists docs, t'. split; [exact Hrun|].
  destruct (od_get department (department_vectorstores s)) as [vs|] eqn:Hvs.
  - refine (provenance_forall P0 P vs query _ _ _ docs _ _ _ Hp).
    + intros q d Hq. exact (Hstamp q d Hq).
    + exact Hfill.
    + intros found Ha.
      refine (Hans vs query _ found _ Ha). right. now exists department.
  - subst docs. constructor.
Qed.

Lemma scan_departments_concat (query : string) (k : Z)
    (departments : list string) (st : St) :
  scan_departments B query k departments st
  = bind (scan_pieces B query k departments) (fun p => ret (concat p)) st.
Proof.
  revert st. induction departments as [|d rest IH]; intros st; [reflexivity|].
  simpl. unfold bind, get_self. cbv beta.
  match goal with
  | |- context [ (if ?c then ?a else ?b) st ] =>
      destruct ((if c then a else b) st) as [[here|e] st1]
  end; [|reflexivity].
  fold (@bind (list (list Document)) (list (list Document))).
  rewrite IH. unfold bind.
  destruct (scan_pieces B query k rest st1) as [[p|e] st2]; reflexivity.
Qed.

Lemma scan_pieces_run (P : Document -> Prop) (s : VectorStore)
    (query : string) (k : Z) (departments : list string) (t : Trace) :
  (forall department t0,
     exists docs t',
       search_department B query department (Some k) (mkSt s t0)
         = (Ok docs, mkSt s t')
       /\ Forall P docs) ->
  (forall department d, P d -> P (set_department department d)) ->
  exists (pieces : list (list Document)) (t' : Trace),
    scan_pieces B query k departments (mkSt s t) = (Ok pieces, mkSt s t')
    /\ Forall (Forall P) pieces /\ length pieces = length departments.
Proof.
  intros Hsearch Hset. revert t.
  induction departments as [|d rest IH]; intros t.
  - exists [], t. repeat split. constructor.
  - assert (Hhere : exists here t1,
               (if od_mem d (department_vectorstores s)
                then try_catch
                       (found <- search_department B query d (Some k) ;;
                        ret (map (set_department d) found))
                       (fun _ => ret [])
                else ret []) (mkSt s t) = (Ok here, mkSt s t1)
               /\ Forall P here).
    { destruct (od_mem d (department_vectorstores s)).
      - destruct (Hsearch d t) as (docs & t1 & Hrun & Hall).
        exists (map (set_department d) docs), t1. split.
        + rewrite (try_ok _ _ _ (mkSt s t1) (map (set_department d) docs));
            [reflexivity|]. now run_ok Hrun.
        + apply Forall_map. eapply Forall_impl; [exact Hall|]. apply Hset.
      - exists [], t. split; [reflexivity | constructor]. }
    destruct Hhere as (here & t1 & Hhere & Hp).
    destruct (IH t1) as (pieces & t' & Hrest & Hall & Hlen).
    exists (here :: pieces), t'. split; [|split].
    + simpl. unfold bind at 1. unfold get_self. simpl self.
      run_ok Hhere. now run_ok Hrest.
    + now constructor.
    + simpl. now rewrite Hlen.
Qed.

Lemma score_missing_scored (query_embedding : option (list Q))
    (docs : list Document) (st : St) :
  Forall (fun d => is_Some (score_of d)) docs ->
  score_missing B query_embedding docs st = (Ok docs, st).
Proof.
  induction 1 as [|d docs [v Hv] _ IH]; [reflexivity|].
  simpl. unfold score_of in Hv. rewrite Hv.
  unfold bind at 1. unfold ret at 1. now run_ok IH.
Qed.

Lemma embedding_run (query : string) (s : VectorStore) (t : Trace) :
  exists e : option (list Q),
    try_catch
      (e <- call (CEmbedQuery query) (fun t => embed_query B t query) ;;
       ret (Some e))
      (fun _ => ret None) (mkSt s t)
    = (Ok e, mkSt s (t ++ [CEmbedQuery query])).
Proof.
  unfold try_catch, bind, call, ret. simpl.
  destruct (embed_query B t query); eexists; reflexivity.
Qed.

(** Every gathered document has a score before the scoring loop is
    reached, so that the loop changes nothing. *)
Lemma gather_run (P : Document -> Prop) (s : VectorStore) (query : string)
    (k : Z) (departments : list string) (t : Trace) :
  (forall d, P d -> is_Some (score_of d)) ->
  (forall department t0,
     exists docs t',
       search_department B query department (Some k) (mkSt s t0)
         = (Ok docs, mkSt s t')
       /\ Forall P docs) ->
  (forall department d, P d -> P (set_department department d)) ->
  exists (pieces : list (list Document)) (t' : Trace),
    scan_pieces B query k departments (mkSt s (t ++ [CEmbedQuery query]))
      = (Ok pieces, mkSt s t')
    /\ gather B query departments k (mkSt s t) = (Ok (concat pieces), mkSt s t')
    /\ Forall P (concat pieces) /\ length pieces = length departments.
Proof.
  intros Hscore Hsearch Hset.
  destruct (scan_pieces_run P s query k departments (t ++ [CEmbedQuery query])
              Hsearch Hset) as (pieces & t' & Hrun & Hall & Hlen).
  assert (Hcat : Forall P (concat pieces)).
  { clear Hrun Hlen. induction Hall; simpl; [constructor|].
    apply Forall_app. now split. }
  exists pieces, t'. split; [exact Hrun|]. split; [|now split].
  unfold gather. destruct (embedding_run query s t) as (e & He).
  run_ok He. rewrite (bind_ok _ _ _ (mkSt s t') (concat pieces)).
  - apply score_missing_scored. eapply Forall_impl; [exact Hcat | exact Hscore].
  - rewrite scan_departments_concat. now run_ok Hrun.
Qed.

End FusionFacts.

Section RetrievalClaims.

Variable B : Backend.

Lemma numeric_score_key (d : Document) : numeric_score d -> numeric_key d.
Proof.
  intros (v & q & Hv & Hq). exists q. unfold relevance_key.
  unfold score_of in Hv. now rewrite Hv.
Qed.

Lemma unit_score_numeric (d : Document) : unit_score d -> numeric_score d.
Proof. intros (n & Hn & _). now exists (VNum n), (num_q n). Qed.

Lemma numeric_stamp (q : Q) (department : string) (d : Document) :
  numeric_score (stamp_department q department d).
Proof.
  exists (VNum (PFloat q)), q. split; [|reflexivity].
  unfold stamp_department. now rewrite score_of_set_department, score_of_set_score.
Qed.

Lemma numeric_fill (q : Q) (d : Document) :
  score_of d = None \/ numeric_score d -> numeric_score (fill_score q d).
Proof.
  intros [H|(v & x & Hv & Hx)]; unfold numeric_score; rewrite score_of_fill.
  - rewrite H. now exists (VNum (PFloat q)), q.
  - rewrite Hv. now exists v, x.
Qed.

Lemma numeric_set_department (department : string) (d : Document) :
  numeric_score d -> numeric_score (set_department department d).
Proof.
  intros (v & q & Hv & Hq). exists v, q.
  now rewrite score_of_set_department.
Qed.

Lemma unit_set_score (q : Q) (d : Document) :
  q = 8 # 10 \/ q = 7 # 10 \/ q = 6 # 10 -> unit_score (set_score q d).
Proof.
  intros Hq. destruct (tier_constant q Hq) as [H0 H1].
  exists (PFloat q). now rewrite score_of_set_score.
Qed.

Lemma unit_fill (d : Document) :
  score_of d = None \/ unit_score d -> unit_score (fill_score (85 # 100) d).
Proof.
  intros [H|(n & Hn & H0 & H1)]; unfold unit_score; rewrite score_of_fill.
  - rewrite H. exists (PFloat (85 # 100)). repeat split; discriminate.
  - rewrite Hn. now exists n.
Qed.

Lemma unit_set_department (department : string) (d : Document) :
  unit_score d -> unit_score (set_department department d).
Proof.
  intros (n & Hn & H01). exists n. now rewrite score_of_set_department.
Qed.

Lemma similarity_search_forall (P0 P : Document -> Prop) (s : VectorStore)
    (query : string) (k : option Z) (t : Trace) :
  (forall q d, q = 8 # 10 \/ q = 7 # 10 \/ q = 6 # 10 -> P (set_score q d)) ->
  (forall d, P0 d -> P (fill_score (85 # 100) d)) ->
  answers B s P0 ->
  exists (docs : list Document) (t' : Trace),
    similarity_search B query k (mkSt s t) = (Ok docs, mkSt s t')
    /\ Forall P docs.
Proof.
  intros Hstamp Hfill Hans. rewrite similarity_search_tiered. simpl self.
  destruct (vectorstore s) as [vs|] eqn:Hvs.
  - destruct (tiered_search_run B (use_mmr s) vs query
                (int_or k (top_k_retrieval s)) set_score
                (fill_score (85 # 100)) (mkSt s t)) as (docs & t' & Hrun & Hp).
    exists docs, t'. split; [exact Hrun|].
    refine (provenance_forall B P0 P vs query _ _ _ docs Hstamp Hfill _ Hp).
    intros found Ha. refine (Hans vs query _ found _ Ha). now left.
  - exists [], t. split; [reflexivity | constructor].
Qed.

Lemma search_across_departments_unfold (s : VectorStore) (query : string)
    (departments : option (list string)) (k : option Z) (t : Trace) :
  search_across_departments B query departments k (mkSt s t)
  = if negb (nonempty (match departments with Some l => l | None => [] end))
       && negb (nonempty (department_vectorstores s))
    then similarity_search B query k (mkSt s t)
    else
      (all_results <-
         gather B query
           (if negb (nonempty (match departments with Some l => l | None => [] end))
            then od_keys (department_vectorstores s)
            else match departments with Some l => l | None => [] end)
           (int_or k (top_k_retrieval s)) ;;
       sorted <- lift (sorted_desc all_results) ;;
       ret (prefix sorted (int_or k (top_k_retrieval s)))) (mkSt s t).
Proof.
  unfold search_across_departments.
  cbv beta iota zeta delta [bind get_self self].
  destruct (negb _ && negb _); reflexivity.
Qed.

(** The fusion proper: what [search_across_departments] does once a
    department is asked for or known. *)
Lemma fusion_run (P : Document -> Prop) (s : VectorStore) (query : string)
    (departments : option (list string)) (k : option Z) (t : Trace) :
  let given := match departments with Some l => l | None => [] end in
  let scanned := if negb (nonempty given)
                 then od_keys (department_vectorstores s) else given in
  let k' := int_or k (top_k_retrieval s) in
  scanned <> [] ->
  (forall d, P d -> numeric_score d) ->
  (forall department t0,
     exists docs t',
       search_department B query department (Some k') (mkSt s t0)
         = (Ok docs, mkSt s t')
       /\ Forall P docs) ->
  (forall department d, P d -> P (set_department department d)) ->
  exists (pieces : list (list Document)) (sorted docs : list Document)
         (t1 t' : Trace),
    scan_pieces B query k' scanned (mkSt s (t ++ [CEmbedQuery query]))
      = (Ok pieces, mkSt s t1)
    /\ length pieces = length scanned
    /\ search_across_departments B query departments k (mkSt s t)
       = (Ok docs, mkSt s t')
    /\ stable_descending (concat pieces) sorted
    /\ docs = prefix sorted k'
    /\ Forall P sorted.
Proof.
  intros given scanned k' Hne Hnum Hsearch Hset.
  destruct (gather_run B P s query k' scanned t) as
    (pieces & t1 & Hscan & Hgather & Hall & Hlen); try assumption.
  { intros d Hd. destruct (Hnum d Hd) as (v & _ & Hv & _). now exists v. }
  destruct (sorted_desc_ok (concat pieces)) as (sorted & Hsort & Hstable).
  { eapply Forall_impl; [exact Hall|]. intros d Hd.
    apply numeric_score_key. now apply Hnum. }
  exists pieces, sorted, (prefix sorted k'), t1, t1.
  split; [exact Hscan|]. split; [exact Hlen|]. split; [|split; [exact Hstable|]].
  - rewrite search_across_departments_unfold. fold given.
    assert (Hpath : negb (nonempty given)
                    && negb (nonempty (department_vectorstores s)) = false).
    { subst scanned. destruct given; simpl in *; [|reflexivity].
      destruct (department_vectorstores s); [now elim Hne | reflexivity]. }
    rewrite Hpath. fold scanned. fold k'.
    run_ok Hgather. unfold lift at 1. unfold bind. now rewrite Hsort.
  - split; [reflexivity|].
    destruct Hstable as (Hperm & _ & _).
    exact (Permutation_Forall (Permutation_sym Hperm) Hall).
Qed.

(** C5, as amended: once a department is asked for or known, and the
    scores that the indices answer with are numbers, the fusion returns
    the first documents of a stable sort, by non-increasing score, of the
    results of the departments taken in the order they are scanned
    ([pieces], one list per department, each in its own rank order).  With
    [k' = k or top_k_retrieval], the list has at most [k'] documents when
    [k'] is not negative. *)
Theorem fusion_sorted_and_stable (s : VectorStore) (query : string)
    (departments : option (list string)) (k : option Z) (t : Trace) :
  let given := match departments with Some l => l | None => [] end in
  let scanned := if negb (nonempty given)
                 then od_keys (department_vectorstores s) else given in
  let k' := int_or k (top_k_retrieval s) in
  scanned <> [] ->
  answers B s (fun d => score_of d = None \/ numeric_score d) ->
  exists (pieces : list (list Document)) (sorted docs : list Document)
         (t1 t' : Trace),
    scan_pieces B query k' scanned (mkSt s (t ++ [CEmbedQuery query]))
      = (Ok pieces, mkSt s t1)
    /\ length pieces = length scanned
    /\ search_across_departments B query departments k (mkSt s t)
       = (Ok docs, mkSt s t')
    /\ stable_descending (concat pieces) sorted
    /\ docs = prefix sorted k'
    /\ descending docs
    /\ (0 <= k' -> Z.of_nat (length docs) <= k').
Proof.
  intros given scanned k' Hne Hans.
  destruct (fusion_run numeric_score s query departments k t Hne)
    as (pieces & sorted & docs & t1 & t' & Hscan & Hlen & Hrun & Hst & Hd & _).
  - auto.
  - intros department t0.
    apply (search_department_forall B
             (fun d => score_of d = None \/ numeric_score d)); [| |exact Hans].
    + intros q d _. apply numeric_stamp.
    + intros d Hd. apply numeric_set_department. now apply numeric_fill.
  - intros department d. apply numeric_set_department.
  - exists pieces, sorted, docs, t1, t'. repeat (split; [assumption|]).
    fold k' in Hd. destruct (prefix_is_take sorted k') as (n & Hn & Hle).
    rewrite Hd, Hn. split.
    + apply descending_take. now destruct Hst as (_ & Hdesc & _).
    + intros Hk. rewrite length_take. specialize (Hle Hk). lia.
Qed.

End RetrievalClaims.

Section ScoreOrigins.

Variable B : Backend.

Lemma int_or_again (k : option Z) (top : Z) :
  int_or (Some (int_or k top)) top = int_or k top.
Proof.
  unfold int_or. destruct k as [z|].
  - destruct (Z.eqb_spec z 0) as [->|Hz].
    + now destruct (Z.eqb_spec top 0).
    + destruct (Z.eqb_spec z 0); [contradiction | reflexivity].
  - now destruct (Z.eqb_spec top 0).
Qed.














End ScoreOrigins.

Section ScoreClaim.

Variable B : Backend.


End ScoreClaim.

Section PlaceholderClaims.

Variable B : Backend.

(** The defect behind C2 does not depend on the backend: when
    initialising a department with an empty chunk list has left a
    single-sentinel placeholder index in place, a later search of that
    department returns without raising, and what it returns is not empty
    as soon as the budget used is at least one.  When the index answers
    with documents it stores, every document returned has the text of the
    sentinel. *)
Lemma placeholder_is_returned (department : string) (rebuild : bool)
    (st : St) (query : string) (k : option Z) (t : Trace) (vs : Faiss)
    (text : string) :
  let s1 := self (snd (initialize_department_vectorstore B department
                         (Some []) rebuild st)) in
  od_get department (department_vectorstores s1) = Some vs ->
  placeholder_index text vs ->
  exists (docs : list Document) (t' : Trace),
    search_department B query department k (mkSt s1 t) = (Ok docs, mkSt s1 t')
    /\ (1 <= int_or k (top_k_retrieval s1) -> docs <> [])
    /\ (answers_stored B s1 -> Forall (fun d => page_content d = text) docs).
Proof.
  intros s1 Hvs (id & sentinel & b & Hds & Hidx & Htext).
  destruct (search_department_run B s1 query department k t)
    as (docs & t' & Hrun & Hp).
  rewrite Hvs in Hp. exists docs, t'. split; [exact Hrun|].
  destruct Hp as [(q & Hq & Hy)|[(found & Hne & Ha & Hd)|[_ [Hnone|Hnone]]]];
    try congruence.
  - destruct (tier_yield_length _ _ _ _ Hy) as (ds & Hds' & _ & Hlen & Hall).
    rewrite Hds in Hds'. injection Hds' as <-. simpl in Hlen, Hall. split.
    + intros Hk Hnil. subst docs. simpl in Hlen. lia.
    + intros _. eapply Forall_impl; [exact Hall|].
      intros d (d0 & [<-|[]] & ->). exact Htext.
  - subst docs. split.
    + intros _ Hnil. destruct found; [congruence | discriminate].
    + intros Hstored.
      assert (Hin : Forall (fun d => In d (stored_documents vs)) found).
      { refine (Hstored vs query _ found _ Ha). right. now exists department. }
      apply Forall_map. eapply Forall_impl; [exact Hin|].
      intros d Hd. unfold stored_documents in Hd. rewrite Hds in Hd.
      destruct Hd as [<-|[]]. simpl. now rewrite content_fill.
Qed.

End PlaceholderClaims.

Section InitialisationClaims.

Variable B : Backend.

Lemma placeholder_is_not_fallback (department : string) :
  String.eqb (placeholder_text department) (fallback_text department) = false.
Proof. reflexivity. Qed.

Lemma fallback_is_fallback (text : string) :
  is_fallback_call text (CFromTexts [text]) = true.
Proof. simpl. apply String.eqb_refl. Qed.

Lemma od_mem_set {V : Type} (key : string) (v : V) (d : list (string * V)) :
  od_mem key (od_set key v d) = true.
Proof.
  unfold od_mem. induction d as [|[k' v'] d IH]; simpl.
  - now rewrite String.eqb_refl.
  - destruct (String.eqb k' key) eqn:E; simpl.
    + now rewrite String.eqb_refl.
    + now rewrite E.
Qed.

(** One case for each answer that a collaborator can give, once the
    moment of the call is known. *)
Ltac settled t :=
  lazymatch t with
  | context [match _ with _ => _ end] => fail
  | _ => idtac
  end.

Ltac answer B :=
  match goal with
  | |- context [os_makedirs B ?t ?p] =>
      settled t; destruct (os_makedirs B t p) as [[]|?] eqn:?
  | |- context [os_path_exists B ?t ?p] =>
      settled t; destruct (os_path_exists B t p) eqn:?
  | |- context [FAISS_load_local B ?t ?p] =>
      settled t; destruct (FAISS_load_local B t p) eqn:?
  | |- context [FAISS_from_texts B ?t ?p] =>
      settled t; destruct (FAISS_from_texts B t p) eqn:?
  | |- context [FAISS_from_documents B ?t ?p] =>
      settled t; destruct (FAISS_from_documents B t p) eqn:?
  | |- context [vs_save_local B ?t ?v ?p] =>
      settled t; destruct (vs_save_local B t v p) as [[]|?] eqn:?
  | |- context [nonempty (filter ?P ?l)] =>
      destruct (filter P l) eqn:?
  end.

Ltac split_answers B := repeat (answer B; simpl).

Lemma department_policy (department : string)
    (chunks : option (list Document)) (rebuild : bool) (st : St) :
  let run := initialize_department_vectorstore B department chunks rebuild st in
  let primary := initialize_department_primary B department chunks rebuild st in
  let text := fallback_text department in
  exists new : list Call,
    trace (snd run) = trace st ++ new
    /\ (exists b : bool, fst run = Ok b)
    /\ match fst primary with
       | Ok _ => fst run = Ok true /\ fallback_attempts text new = 0%nat
       | Raise _ =>
           fallback_attempts text new = 1%nat
           /\ (fst run = Ok false <->
               exists e, FAISS_from_texts B (trace (snd primary)) [text] = Raise e)
       end
    /\ (fst run = Ok true ->
        od_mem department (department_vectorstores (self (snd run))) = true).
Proof.
  cbv zeta.
  unfold initialize_department_vectorstore, initialize_department_primary.
  unfold try_catch, bind, call, ret, get_self, set_department_vectorstore,
    put_self, bind, get_self.
  destruct chunks as [[|c cs]|], rebuild; simpl.
  all: split_answers B.
  all: eexists; (split; [rewrite <- ?app_assoc; reflexivity|]).
  all: unfold fallback_attempts; simpl;
    rewrite ?placeholder_is_not_fallback, ?String.eqb_refl; simpl.
  all: repeat split; intros; try discriminate; try congruence; eauto;
    try apply od_mem_set.
  all: try match goal with
           | H : exists _, _ |- _ => destruct H
           end.
  all: simpl in *; try congruence; eauto.
Qed.

Lemma main_policy (chunks : option (list Document)) (rebuild : bool)
    (st : St) :
  let run := initialize_vectorstore B chunks rebuild st in
  let primary := initialize_vectorstore_primary B chunks rebuild st in
  let text := main_fallback_text in
  exists new : list Call,
    trace (snd run) = trace st ++ new
    /\ (exists b : bool, fst run = Ok b)
    /\ match fst primary with
       | Ok _ => fst run = Ok true /\ fallback_attempts text new = 0%nat
       | Raise _ =>
           fallback_attempts text new = 1%nat
           /\ (fst run = Ok false <->
               exists e, FAISS_from_texts B (trace (snd primary)) [text] = Raise e)
       end
    /\ (fst run = Ok true -> vectorstore (self (snd run)) <> None).
Proof.
  cbv zeta.
  unfold initialize_vectorstore, initialize_vectorstore_primary.
  unfold try_catch, bind, call, ret, get_self, set_vectorstore,
    put_self, bind, get_self.
  destruct chunks as [[|c cs]|], rebuild; simpl.
  all: split_answers B.
  all: eexists; (split; [rewrite <- ?app_assoc; reflexivity|]).
  all: unfold fallback_attempts; simpl.
  all: repeat split; intros; try discriminate; try congruence; eauto.
  all: try match goal with
           | H : exists _, _ |- _ => destruct H
           end.
  all: simpl in *; try congruence; eauto.
Qed.

(** C8: an initialisation never raises.  When the body of its [try]
    raises, whatever the step that failed, the fallback placeholder is
    asked for exactly once, and not at all otherwise; the answer is [False]
    exactly when the body raised and the fallback did too; and after an
    answer [True] the index is in place, for a department as for the main
    store. *)
Theorem initialization_fallback_policy (department : string)
    (chunks : option (list Document)) (rebuild : bool) (st : St) :
  (let run := initialize_department_vectorstore B department chunks rebuild st in
   let primary := initialize_department_primary B department chunks rebuild st in
   let text := fallback_text department in
   exists new : list Call,
     trace (snd run) = trace st ++ new
     /\ (exists b : bool, fst run = Ok b)
     /\ match fst primary with
        | Ok _ => fst run = Ok true /\ fallback_attempts text new = 0%nat
        | Raise _ =>
            fallback_attempts text new = 1%nat
            /\ (fst run = Ok false <->
                exists e,
                  FAISS_from_texts B (trace (snd primary)) [text] = Raise e)
        end
     /\ (fst run = Ok true ->
         od_mem department (department_vectorstores (self (snd run))) = true))
  /\ (let run := initialize_vectorstore B chunks rebuild st in
      let primary := initialize_vectorstore_primary B chunks rebuild st in
      let text := main_fallback_text in
      exists new : list Call,
        trace (snd run) = trace st ++ new
        /\ (exists b : bool, fst run = Ok b)
        /\ match fst primary with
           | Ok _ => fst run = Ok true /\ fallback_attempts text new = 0%nat
           | Raise _ =>
               fallback_attempts text new = 1%nat
               /\ (fst run = Ok false <->
                   exists e,
                     FAISS_from_texts B (trace (snd primary)) [text] = Raise e)
           end
        /\ (fst run = Ok true -> vectorstore (self (snd run)) <> None)).
Proof.
  split; [apply department_policy | apply main_policy].
Qed.

End InitialisationClaims.

Section SummaryClaims.

Lemma py_lt_numbers (a b : MVal) :
  is_Some (as_number a) -> is_Some (as_number b) ->
  py_lt a b = Some (Qltb (val_q a) (val_q b)).
Proof.
  intros [x Hx] [y Hy]. unfold val_q, py_lt. rewrite Hx, Hy.
  destruct a, b; try discriminate; reflexivity.
Qed.

Lemma max_value_ok (l : list MVal) : forall cur : MVal,
  is_Some (as_number cur) -> Forall (fun v => is_Some (as_number v)) l ->
  exists best : MVal,
    max_value cur l = Ok best /\ In best (cur :: l)
    /\ Forall (fun v => (val_q v <= val_q best)%Q) (cur :: l).
Proof.
  induction l as [|x l IH]; intros cur Hcur Hall.
  - exists cur. split; [reflexivity|]. split; [now left|].
    constructor; [apply Qle_refl | constructor].
  - inversion Hall as [|? ? Hx Hl]; subst. simpl.
    rewrite (py_lt_numbers cur x Hcur Hx).
    destruct (Qltb (val_q cur) (val_q x)) eqn:E.
    + apply Qltb_true in E. destruct (IH x Hx Hl) as (best & Hm & Hin & Hle).
      exists best. split; [exact Hm|]. split; [now right|].
      inversion Hle as [|? ? Hxb Hlb]; subst.
      constructor; [|now constructor].
      apply Qle_trans with (val_q x); [now apply Qlt_le_weak | exact Hxb].
    + apply Qltb_false in E. destruct (IH cur Hcur Hl) as (best & Hm & Hin & Hle).
      exists best. split; [exact Hm|]. split.
      * destruct Hin as [<-|Hin]; [now left | right; now right].
      * inversion Hle as [|? ? Hcb Hlb]; subst.
        constructor; [exact Hcb|]. constructor; [|exact Hlb].
        now apply Qle_trans with (val_q cur).
Qed.

Lemma score_or_default_fill (d : Document) :
  score_or_default (fill_score (7 # 10) d) = score_or_default d.
Proof.
  unfold score_or_default. fold (score_of (fill_score (7 # 10) d)) (score_of d).
  rewrite score_of_fill. now destruct (score_of d).
Qed.

Lemma score_or_default_numeric (d : Document) :
  score_of d = None \/ numeric_score d -> is_Some (as_number (score_or_default d)).
Proof.
  unfold score_or_default. fold (score_of d).
  intros [->|(v & q & -> & Hq)]; [now exists (7 # 10)%Q | now exists q].
Qed.

(** C1, as amended: for a non-empty list, [has_relevant_context] is [True]
    whatever the threshold, and [max_score] is the largest
    [relevance_score] of the documents, [0.7] standing for a missing one
    (the scores being numbers); the call leaves that [0.7] on the documents
    that had no score.  For the empty list the tuple is [(0.0, False)]. *)
Theorem relevance_summary_ignores_threshold (query : string)
    (docs : list Document) (threshold : Q) :
  evaluate_context_relevance query [] threshold
    = ([], Ok (VNum (PFloat 0), false))
  /\ (docs <> [] ->
      Forall (fun d => score_of d = None \/ numeric_score d) docs ->
      exists best : MVal,
        evaluate_context_relevance query docs threshold
          = (map (fill_score (7 # 10)) docs, Ok (best, true))
        /\ In best (map score_or_default docs)
        /\ Forall (fun d => (val_q (score_or_default d) <= val_q best)%Q) docs).
Proof.
  split; [reflexivity|]. intros Hne Hall.
  destruct docs as [|d docs]; [congruence|].
  unfold evaluate_context_relevance.
  rewrite map_map.
  rewrite (map_ext _ score_or_default score_or_default_fill).
  simpl map at 2.
  destruct (max_value_ok (map score_or_default docs) (score_or_default d))
    as (best & Hm & Hin & Hle).
  { apply score_or_default_numeric. now inversion Hall. }
  { apply Forall_map. inversion Hall as [|? ? _ Hrest]; subst.
    eapply Forall_impl; [exact Hrest|]. apply score_or_default_numeric. }
  rewrite Hm. exists best. split; [reflexivity|]. split; [exact Hin|].
  change (score_or_default d :: map score_or_default docs)
    with (map score_or_default (d :: docs)) in Hle.
  rewrite Forall_map in Hle. exact Hle.
Qed.

End SummaryClaims.

(** ** The methods run on the mock backend *)

Section MockFacts.

Lemma od_get_in {V : Type} (key : string) (d : list (string * V)) (v : V) :
  od_get key d = Some v -> In v (map snd d).
Proof.
  induction d as [|[k' v'] d IH]; simpl; [discriminate|].
  destruct (String.eqb k' key).
  - intros H. injection H as <-. now left.
  - intros H. right. now apply IH.
Qed.

Lemma mock_answered (vs : Faiss) (query : string) (k : Z)
    (found : list Document) :
  answered mock_backend vs query k found ->
  found = take (Z.to_nat k) (stored_documents vs).
Proof. intros [t [H|H]]; simpl in H; now injection H as <-. Qed.

Lemma mock_answers (s : VectorStore) (P : Document -> Prop) :
  (forall vs, holds s vs -> Forall P (stored_documents vs)) ->
  answers mock_backend s P.
Proof.
  intros Hall vs query k found Hh Ha.
  rewrite (mock_answered _ _ _ _ Ha). apply Forall_take. now apply Hall.
Qed.

Lemma mock_honours_budget (s : VectorStore) : honours_budget mock_backend s.
Proof.
  intros vs query k found _ Hk Ha. rewrite (mock_answered _ _ _ _ Ha).
  rewrite length_take. lia.
Qed.

Lemma mock_answers_stored (s : VectorStore) : answers_stored mock_backend s.
Proof.
  intros vs query k found _ Ha. rewrite (mock_answered _ _ _ _ Ha).
  apply Forall_forall. intros d Hd. apply list_elem_of_In.
  exact (subseteq_take _ _ _ Hd).
Qed.


Lemma holds_with_departments (stores : list (string * list Document))
    (vs : Faiss) :
  holds (self (with_departments stores)) vs ->
  In vs (map (fun p => mock_store (snd p)) stores).
Proof.
  intros [H|[department H]]; simpl in H; [discriminate|].
  apply od_get_in in H. rewrite map_map in H. exact H.
Qed.

Lemma two_departments_unit :
  answers mock_backend (self two_departments)
    (fun d => score_of d = None \/ unit_score d).
Proof.
  apply mock_answers. intros vs Hvs.
  apply holds_with_departments in Hvs.
  destruct Hvs as [<-|[<-|[]]]; simpl.
  - constructor; [|constructor].
    right. exists (PFloat (9 # 10)). repeat split; vm_compute; congruence.
  - constructor; [|constructor; [|constructor]].
    + right. exists (PFloat (9 # 10)). repeat split; vm_compute; congruence.
    + left. vm_compute. reflexivity.
Qed.

Lemma two_departments_numeric :
  answers mock_backend (self two_departments)
    (fun d => score_of d = None \/ numeric_score d).
Proof.
  apply mock_answers. intros vs Hvs.
  apply holds_with_departments in Hvs.
  destruct Hvs as [<-|[<-|[]]]; simpl.
  - constructor; [|constructor].
    right. exists (VNum (PFloat (9 # 10))), (9 # 10)%Q.
    split; vm_compute; reflexivity.
  - constructor; [|constructor; [|constructor]].
    + right. exists (VNum (PFloat (9 # 10))), (9 # 10)%Q.
      split; vm_compute; reflexivity.
    + left. vm_compute. reflexivity.
Qed.

End MockFacts.

Section Witnesses.

Lemma relevance_summary_witness :
  exists best : MVal,
    evaluate_context_relevance "q" [scored (1 # 10) "x"; mkDocument "y" ∅]
      (3 # 10)
    = (map (fill_score (7 # 10)) [scored (1 # 10) "x"; mkDocument "y" ∅],
       Ok (best, true))
    /\ In best (map score_or_default [scored (1 # 10) "x"; mkDocument "y" ∅]).
Proof.
  destruct (proj2 (relevance_summary_ignores_threshold "q"
                     [scored (1 # 10) "x"; mkDocument "y" ∅] (3 # 10)))
    as (best & Hrun & Hin & _).
  - discriminate.
  - constructor.
    + right. exists (VNum (PFloat (1 # 10))), (1 # 10)%Q.
      split; vm_compute; reflexivity.
    + constructor; [left; vm_compute; reflexivity | constructor].
  - exists best. split; [exact Hrun | exact Hin].
Defined.

(** The threshold plays no part: a best score of [0.1] under a threshold
    of [0.3] is reported as relevant. *)
Lemma threshold_is_ignored :
  snd (evaluate_context_relevance "q" [scored (1 # 10) "x"] (3 # 10))
    = Ok (VNum (PFloat (1 # 10)), true)
  /\ Qle_bool (3 # 10) (1 # 10) = false
  /\ relevance_summary_by_threshold [1 # 10] (3 # 10) = (1 # 10, false).
Proof. repeat split; vm_compute; reflexivity. Qed.

Lemma placeholder_is_returned_witness :
  exists (docs : list Document) (t' : Trace),
    search_department mock_backend "anything" "hr" (Some 5)
      (mkSt (self hr_state) [])
    = (Ok docs, mkSt (self hr_state) t')
    /\ docs <> []
    /\ Forall (fun d => page_content d = placeholder_text "hr") docs.
Proof.
  destruct (placeholder_is_returned mock_backend "hr" false
              (fresh "faiss_index") "anything" (Some 5) []
              (mock_store [mkDocument (placeholder_text "hr") ∅])
              (placeholder_text "hr"))
    as (docs & t' & Hrun & Hne & Hall).
  - vm_compute. reflexivity.
  - exists "id", (mkDocument (placeholder_text "hr") ∅), true.
    repeat split.
  - exists docs, t'. split; [exact Hrun|]. split.
    + apply Hne. vm_compute. discriminate.
    + apply Hall. apply mock_answers_stored.
Defined.

(** C2: the code at the failing input.  On an empty disk,
    [initialize_department_vectorstore('hr', chunks=[])] answers [True];
    the search for anything in [hr] with [k = 5] then returns one
    document, the sentinel of the placeholder index, with the score 0.85
    and the department [hr], where the claim has the empty list. *)
Lemma placeholder_leaks :
  fst (initialize_department_vectorstore mock_backend "hr" (Some []) false
         (fresh "faiss_index")) = Ok true
  /\ exists d : Document,
       returned (search_department mock_backend "anything" "hr" (Some 5)
                   hr_state) = Some [d]
       /\ page_content d = "Empty placeholder for hr department"
       /\ score_of d = Some (VNum (PFloat (85 # 100)))
       /\ metadata d !! "department" = Some (VStr "hr").
Proof.
  split; [vm_compute; reflexivity|].
  eexists. split; [vm_compute; reflexivity|].
  repeat split; vm_compute; reflexivity.
Qed.



Lemma similarity_search_bounded_witness :
  exists (docs : list Document) (t' : Trace),
    similarity_search mock_backend "q" (Some 2)
      (mkSt (self (with_main (map (fun text => mkDocument text ∅)
                                ["a"; "b"; "c"]))) [])
    = (Ok docs,
       mkSt (self (with_main (map (fun text => mkDocument text ∅)
                                ["a"; "b"; "c"]))) t')
    /\ Z.of_nat (length docs) <= 2.
Proof.
  destruct (similarity_search_total_and_bounded mock_backend
              (self (with_main (map (fun text => mkDocument text ∅)
                                  ["a"; "b"; "c"])))
              "q" (Some 2) [])
    as (docs & t' & Hrun & _ & Hlen).
  exists docs, t'. split; [exact Hrun|].
  apply Hlen; [apply mock_honours_budget | vm_compute; discriminate].
Defined.

(** With [k = 0] the list returned is longer than [k]. *)
Lemma zero_budget_exceeded :
  exists docs : list Document,
    returned (similarity_search mock_backend "q" (Some 0)
                (with_main [mkDocument "x" ∅])) = Some docs
    /\ ~ Z.of_nat (length docs) <= 0.
Proof.
  eexists. split; [vm_compute; reflexivity|]. simpl. lia.
Qed.

Lemma fusion_sorted_witness :
  exists docs : list Document,
    returned (search_across_departments mock_backend "q" (Some ["a"; "b"])
                (Some 5) two_departments) = Some docs
    /\ descending docs /\ Z.of_nat (length docs) <= 5.
Proof.
  destruct (fusion_sorted_and_stable mock_backend (self two_departments) "q"
              (Some ["a"; "b"]) (Some 5) [])
    as (pieces & sorted & docs & t1 & t' & _ & _ & Hrun & _ & _ & Hdesc & Hlen).
  - discriminate.
  - apply mock_answers. intros vs Hvs.
    apply holds_with_departments in Hvs.
    destruct Hvs as [<-|[<-|[]]]; simpl.
    + constructor; [|constructor].
      right. exists (VNum (PFloat (9 # 10))), (9 # 10)%Q.
      split; vm_compute; reflexivity.
    + constructor; [|constructor; [|constructor]].
      * right. exists (VNum (PFloat (9 # 10))), (9 # 10)%Q.
        split; vm_compute; reflexivity.
      * left. vm_compute. reflexivity.
  - exists docs. split; [|split; [exact Hdesc|]].
    + unfold returned. change two_departments with (mkSt (self two_departments) []).
      now rewrite Hrun.
    + apply Hlen. vm_compute. discriminate.
Defined.

(** With [k = 0] the fusion returns more than [k] documents. *)
Lemma fusion_zero_budget_exceeded :
  exists docs : list Document,
    returned (search_across_departments mock_backend "q" (Some ["a"; "b"])
                (Some 0) two_departments) = Some docs
    /\ ~ Z.of_nat (length docs) <= 0.
Proof.
  eexists. split; [vm_compute; reflexivity|]. simpl. lia.
Qed.

(** Two chunks with the same score come out in the order in which
    their departments are scanned. *)
Example equal_scores_keep_scan_order :
  option_map (map page_content)
    (returned (search_across_departments mock_backend "q" (Some ["a"; "b"])
                 (Some 5) two_departments)) = Some ["x"; "y"; "z"]
  /\ option_map (map page_content)
       (returned (search_across_departments mock_backend "q" (Some ["b"; "a"])
                    (Some 5) two_departments)) = Some ["y"; "x"; "z"].
Proof. split; vm_compute; reflexivity. Qed.

(** When nothing works, the initialisation answers [False] after one
    attempt at the fallback. *)
Example initialisation_total_failure :
  initialize_department_vectorstore failing_backend "hr" None false
    (fresh "faiss_index")
  = (Ok false,
     mkSt (self (fresh "faiss_index"))
       [CMakedirs "faiss_index/hr"; CFromTexts [fallback_text "hr"]]).
Proof. vm_compute. reflexivity. Qed.

End Witnesses.

(** ** More about the context window refiner *)

Section SentenceFacts.

Lemma re_split_go_nonempty (cs : list ascii) : forall after in_sep cur,
  re_split_go cs after in_sep cur <> [].
Proof.
  induction cs as [|c cs IH]; intros after in_sep cur; simpl; [discriminate|].
  destruct (is_space c); [|apply IH].
  destruct in_sep; [apply IH|]. destruct after; [discriminate | apply IH].
Qed.

Lemma visible_app (a b : list ascii) : visible (a ++ b) = visible a ++ visible b.
Proof. apply List.filter_app. Qed.

Lemma visible_space (c : ascii) (cs : list ascii) :
  is_space c = true -> visible (c :: cs) = visible cs.
Proof. intros H. unfold visible. simpl. now rewrite H. Qed.

Lemma re_split_go_visible (cs : list ascii) : forall after in_sep cur,
  visible (chars_of (re_split_go cs after in_sep cur))
  = visible (rev cur ++ cs).
Proof.
  unfold chars_of.
  induction cs as [|c cs IH]; intros after in_sep cur; simpl.
  - now rewrite list_ascii_of_string_of_list_ascii, !app_nil_r.
  - destruct (is_space c) eqn:Hc.
    + destruct in_sep.
      * rewrite IH, !visible_app. now rewrite (visible_space c cs Hc).
      * destruct after.
        -- simpl. rewrite list_ascii_of_string_of_list_ascii.
           rewrite !visible_app, IH. change (rev [] ++ cs) with cs.
           now rewrite (visible_space c cs Hc).
        -- rewrite IH. simpl rev. now rewrite <- app_assoc.
    + rewrite IH. simpl rev. now rewrite <- app_assoc.
Qed.

(** Every piece that [re_split_go] closes ends with a terminator. *)
Lemma re_split_go_ends (cs : list ascii) : forall after in_sep cur,
  (after = true -> exists c cur', cur = c :: cur' /\ is_terminator c = true) ->
  forall (i : nat) (piece : string),
    re_split_go cs after in_sep cur !! i = Some piece ->
    (S i < length (re_split_go cs after in_sep cur))%nat ->
    ends_sentence piece.
Proof.
  induction cs as [|c cs IH]; intros after in_sep cur Hinv i piece; simpl.
  - intros _ Hlen. simpl in Hlen. lia.
  - destruct (is_space c) eqn:Hc.
    + destruct in_sep.
      * apply IH. discriminate.
      * destruct after.
        -- destruct (Hinv eq_refl) as (c0 & cur' & -> & Hc0).
           destruct i as [|i]; simpl.
           ++ intros [= <-] _. exists c0.
              rewrite list_ascii_of_string_of_list_ascii. simpl rev.
              split; [apply last_snoc | exact Hc0].
           ++ intros Hi Hlen. apply (IH false true [] ltac:(discriminate) i piece Hi).
              lia.
        -- apply IH. discriminate.
    + apply IH. intros Ht. now exists c, cur.
Qed.

Lemma re_split_go_whole (cs : list ascii) : forall after in_sep cur,
  (after = false /\ in_sep = false
   /\ Forall (fun c => is_terminator c = false) cs)
  \/ Forall (fun c => is_space c = false) cs ->
  re_split_go cs after in_sep cur = [string_of_list_ascii (rev cur ++ cs)].
Proof.
  induction cs as [|c cs IH]; intros after in_sep cur H; simpl.
  - now rewrite app_nil_r.
  - replace (rev cur ++ c :: cs) with (rev (c :: cur) ++ cs)
      by (simpl; now rewrite <- app_assoc).
    destruct H as [(-> & -> & H)|H].
    + apply Forall_cons in H. destruct H as [Hc H]. rewrite Hc.
      destruct (is_space c); apply IH; left; auto.
    + apply Forall_cons in H. destruct H as [Hc H]. rewrite Hc.
      apply IH. now right.
Qed.

Lemma split_sentences_whole (text : string) :
  Forall (fun c => is_terminator c = false) (list_ascii_of_string text)
  \/ Forall (fun c => is_space c = false) (list_ascii_of_string text) ->
  split_sentences text = [text].
Proof.
  intros H. unfold split_sentences. rewrite re_split_go_whole.
  - simpl. now rewrite string_of_list_ascii_of_string.
  - destruct H as [H|H]; [left | right]; auto.
Qed.

Lemma size_common (qt st : gset string) : (size (qt ∩ st) <= size qt)%nat.
Proof. apply subseteq_size. apply intersection_subseteq_l. Qed.

Lemma pos_of_size (n : nat) :
  n <> 0%nat -> Z.pos (Pos.of_nat (Nat.max n 1)) = Z.of_nat n.
Proof.
  intros Hn. rewrite <- positive_nat_Z. rewrite Nat2Pos.id by lia. lia.
Qed.

Lemma sentence_score_range (qt : gset string) (sentence : string) :
  (0 <= num_q (sentence_score qt sentence))%Q
  /\ (num_q (sentence_score qt sentence) <= 1)%Q.
Proof.
  unfold sentence_score.
  destruct (Nat.eqb_spec (size qt) 0) as [E|E]; simpl.
  - split; unfold Qle; simpl; lia.
  - pose proof (size_common qt (terms sentence)) as Hle.
    pose proof (pos_of_size (size qt) E) as Hpos.
    split; unfold Qle; simpl; rewrite ?Hpos; lia.
Qed.

Lemma sentence_score_full (qt : gset string) (sentence : string) :
  qt <> ∅ -> qt ⊆ terms sentence ->
  (num_q (sentence_score qt sentence) == 1)%Q.
Proof.
  intros Hne Hsub. unfold sentence_score.
  assert (Hq : size qt <> 0%nat).
  { intros Hz. apply size_empty_iff in Hz. apply Hne. now apply leibniz_equiv. }
  destruct (Nat.eqb_spec (size qt) 0) as [E|_]; [contradiction|].
  rewrite (subseteq_intersection_1_L _ _ Hsub).
  simpl. unfold Qeq. simpl. rewrite (pos_of_size (size qt) Hq). lia.
Qed.

End SentenceFacts.

Section WindowFacts.

Lemma refine_metadata_other (query : string) (w : Z) (d : Document)
    (key : string) :
  ~ In key window_keys ->
  metadata (refine query w d) !! key = metadata d !! key.
Proof.
  intros Hk. unfold refine.
  destruct (has_error d); [reflexivity|].
  destruct (_ || _); [reflexivity|].
  destruct (py_max _) as [best|]; [|reflexivity].
  destruct (_ && _).
  - simpl. apply lookup_insert_ne. intros <-. apply Hk. simpl. tauto.
  - destruct (index_of _ _); [|reflexivity]. simpl.
    rewrite !lookup_insert_ne; [reflexivity|..]; intros <-; apply Hk;
      simpl; tauto.
Qed.

Lemma enhanced_context_window_map (docs : list Document) (query : string)
    (w : Z) :
  enhanced_context_window docs query w = map (refine query w) docs.
Proof. now destruct docs. Qed.

Lemma py_max_in (scores : list PyNum) (best : PyNum) :
  py_max scores = Some best -> In best scores.
Proof.
  destruct scores as [|x l]; [discriminate|]. intros [= <-].
  destruct (max_from_in l x) as [->|H]; [now left | now right].
Qed.

Lemma refine_prefix (query : string) (w : Z) (d : Document) :
  has_error d = false ->
  2 * w < Z.of_nat (length (sentences_of d)) ->
  10 < Z.of_nat (length (sentences_of d)) ->
  Forall (fun x => (num_q x < 1 # 10)%Q) (scores_of query d) ->
  refine query w d
  = mkDocument (String.concat " " (take 10 (sentences_of d)))
      (<["window_type" := VStr "prefix"]> (metadata d)).
Proof.
  intros Herr Hw Hlen Hlow. unfold refine. rewrite Herr.
  fold (sentences_of d).
  replace ((length (sentences_of d) =? 0)%nat
           || (Z.of_nat (length (sentences_of d)) <=? w * 2)) with false.
  2:{ symmetry. apply orb_false_intro;
        [apply Nat.eqb_neq; lia | apply Z.leb_gt; lia]. }
  fold (scores_of query d).
  destruct (py_max (scores_of query d)) as [best|] eqn:Hbest.
  2:{ exfalso. unfold scores_of in Hbest.
      destruct (sentences_of d); [simpl in Hlen; lia | discriminate]. }
  assert (Hb : Qltb (num_q best) (1 # 10) = true).
  { apply Qltb_true. rewrite Forall_forall in Hlow. apply Hlow.
    apply list_elem_of_In. now apply py_max_in. }
  rewrite Hb. replace (10 <? Z.of_nat (length (sentences_of d))) with true
    by (symmetry; apply Z.ltb_lt; lia).
  simpl andb. cbv iota. f_equal. f_equal.
  unfold prefix, norm_index.
  rewrite Z.min_l by lia. simpl (10 <? 0). cbv iota.
  rewrite Z.min_l by lia. reflexivity.
Qed.

End WindowFacts.

Section RefinerExtras.

(** X1: the refiner returns one document per document it is given, in the
    same order, and the only metadata keys on which a returned document
    can differ from the one it was made from are the five window keys; the
    relevance score, the department and the source are among the keys
    that are kept. *)
Theorem refiner_keeps_foreign_metadata (docs : list Document)
    (query : string) (w : Z) (i : nat) (d : Document) (key : string) :
  docs !! i = Some d -> ~ In key window_keys ->
  length (enhanced_context_window docs query w) = length docs
  /\ exists r : Document,
       enhanced_context_window docs query w !! i = Some r
       /\ metadata r !! key = metadata d !! key.
Proof.
  intros Hd Hk. rewrite enhanced_context_window_map. split.
  - apply length_map.
  - exists (refine query w d). split.
    + change (map (refine query w) docs) with (refine query w <$> docs).
      rewrite list_lookup_fmap, Hd. reflexivity.
    + now apply refine_metadata_other.
Qed.

Lemma refiner_keeps_foreign_metadata_witness :
  length (enhanced_context_window
            [mkDocument "x" ∅; set_meta "relevance_score" (VNum (PFloat (9 # 10))) eight]
            "S5." 2) = 2%nat
  /\ exists r : Document,
       enhanced_context_window
         [mkDocument "x" ∅; set_meta "relevance_score" (VNum (PFloat (9 # 10))) eight]
         "S5." 2 !! 1%nat = Some r
       /\ metadata r !! "relevance_score"
          = metadata (set_meta "relevance_score" (VNum (PFloat (9 # 10))) eight)
              !! "relevance_score".
Proof.
  apply (refiner_keeps_foreign_metadata
           [mkDocument "x" ∅;
            set_meta "relevance_score" (VNum (PFloat (9 # 10))) eight]
           "S5." 2 1).
  - reflexivity.
  - simpl. intros [H|[H|[H|[H|[H|[]]]]]]; discriminate H.
Defined.

(** X2: a document without error flag that has more than ten sentences
    (and more than [2 w]), none of which scores 0.1 or more against the
    query, is cut to its first ten sentences, joined by one space; its
    metadata receive [window_type = 'prefix'] and nothing else. *)
Theorem low_overlap_keeps_first_ten (query : string) (w : Z) (d : Document) :
  has_error d = false ->
  2 * w < Z.of_nat (length (sentences_of d)) ->
  10 < Z.of_nat (length (sentences_of d)) ->
  Forall (fun x => (num_q x < 1 # 10)%Q) (scores_of query d) ->
  enhanced_context_window [d] query w
  = [mkDocument (String.concat " " (take 10 (sentences_of d)))
       (<["window_type" := VStr "prefix"]> (metadata d))].
Proof.
  intros Herr Hw Hlen Hlow. simpl. f_equal. now apply refine_prefix.
Qed.

Lemma low_overlap_keeps_first_ten_witness :
  enhanced_context_window [eleven] "zebra" 3
  = [mkDocument (String.concat " " (take 10 (sentences_of eleven)))
       (<["window_type" := VStr "prefix"]> (metadata eleven))].
Proof.
  apply (low_overlap_keeps_first_ten "zebra" 3 eleven).
  - vm_compute. reflexivity.
  - vm_compute. reflexivity.
  - vm_compute. reflexivity.
  - vm_compute. repeat (constructor; [reflexivity|]). constructor.
Defined.

(** X3: when the refiner cuts a window around a sentence, the window
    holds that sentence, at least [w + 1] and at most [2 w + 1] sentences,
    all of them consecutive sentences of the document, and the relevance
    it records for the central sentence lies between 0 and 1. *)
Theorem window_holds_centre_and_is_bounded (query : string) (w : Z)
    (d : Document) :
  has_error d = false -> 0 <= w ->
  2 * w < Z.of_nat (length (sentences_of d)) ->
  (Z.of_nat (length (sentences_of d)) <= 10
   \/ Exists (fun x => (1 # 10 <= num_q x)%Q) (scores_of query d)) ->
  exists (r : Document) (lo m hi : Z) (b : PyNum) (window : list string)
         (centre : string),
    enhanced_context_window [d] query w = [r]
    /\ metadata r !! "window_start" = Some (VNum (PInt lo))
    /\ metadata r !! "central_sentence" = Some (VNum (PInt m))
    /\ metadata r !! "window_end" = Some (VNum (PInt hi))
    /\ metadata r !! "sentence_relevance" = Some (VNum b)
    /\ (0 <= num_q b)%Q /\ (num_q b <= 1)%Q
    /\ 0 <= lo /\ lo <= m /\ m < hi
    /\ hi <= Z.of_nat (length (sentences_of d))
    /\ w + 1 <= hi - lo /\ hi - lo <= 2 * w + 1
    /\ page_content r = String.concat " " window
    /\ window = take (Z.to_nat (hi - lo)) (drop (Z.to_nat lo) (sentences_of d))
    /\ Z.of_nat (length window) = hi - lo
    /\ sentences_of d !! Z.to_nat m = Some centre
    /\ window !! Z.to_nat (m - lo) = Some centre.
Proof.
  intros Herr Hw Hlen Hgood.
  destruct (refine_window query w d Herr Hw Hlen Hgood)
    as (m & b & Hfirst & Hcontent & Hlo & Hhi & Hc & Hr & _).
  set (len := Z.of_nat (length (sentences_of d))) in *.
  assert (Hm : (m < length (sentences_of d))%nat).
  { destruct Hfirst as (Hb & _). apply lookup_lt_Some in Hb.
    unfold scores_of in Hb. now rewrite length_map in Hb. }
  destruct (lookup_lt_is_Some_2 (sentences_of d) m Hm) as (centre & Hcentre).
  set (lo := Z.max 0 (Z.of_nat m - w)) in *.
  set (hi := Z.min len (Z.of_nat m + w + 1)) in *.
  exists (refine query w d), lo, (Z.of_nat m), hi, b,
    (take (Z.to_nat (hi - lo)) (drop (Z.to_nat lo) (sentences_of d))), centre.
  assert (Hb : (0 <= num_q b)%Q /\ (num_q b <= 1)%Q).
  { destruct Hfirst as (Hb & _). unfold scores_of in Hb.
    apply list_lookup_fmap_Some in Hb. destruct Hb as (sn & -> & _).
    apply sentence_score_range. }
  split; [reflexivity|]. split; [exact Hlo|]. split; [exact Hc|].
  split; [exact Hhi|]. split; [exact Hr|].
  split; [apply Hb|]. split; [apply Hb|].
  unfold lo, hi, len.
  split; [lia|]. split; [lia|]. split; [lia|]. split; [lia|].
  split; [lia|]. split; [lia|]. split.
  { rewrite Hcontent. f_equal. f_equal. fold len. fold lo. fold hi. lia. }
  split; [reflexivity|]. split.
  { rewrite length_take, length_drop. lia. }
  split.
  { rewrite Nat2Z.id. exact Hcentre. }
  rewrite lookup_take_lt by lia. rewrite lookup_drop.
  rewrite <- Hcentre. f_equal. lia.
Qed.

Lemma window_holds_centre_and_is_bounded_witness :
  exists (r : Document) (lo m hi : Z),
    enhanced_context_window [eight] "S5." 2 = [r]
    /\ metadata r !! "window_start" = Some (VNum (PInt lo))
    /\ metadata r !! "central_sentence" = Some (VNum (PInt m))
    /\ metadata r !! "window_end" = Some (VNum (PInt hi))
    /\ lo <= m /\ m < hi /\ hi - lo <= 2 * 2 + 1.
Proof.
  destruct (window_holds_centre_and_is_bounded "S5." 2 eight)
    as (r & lo & m & hi & b & window & centre & Hr & Hlo & Hm & Hhi & _ & _ & _
        & _ & H1 & H2 & _ & _ & H3 & _).
  - vm_compute. reflexivity.
  - lia.
  - vm_compute. reflexivity.
  - left. vm_compute. discriminate.
  - exists r, lo, m, hi. repeat (split; [assumption|]). assumption.
Defined.

(** X4: the score of a sentence against the terms of a query is a number
    between 0 and 1; it is 1 when the query has terms and all of them
    occur in the sentence, and 0 when none does. *)
Theorem sentence_score_in_unit_interval (qt : gset string)
    (sentence : string) :
  ((0 <= num_q (sentence_score qt sentence))%Q
   /\ (num_q (sentence_score qt sentence) <= 1)%Q)
  /\ (qt <> ∅ -> qt ⊆ terms sentence ->
      (num_q (sentence_score qt sentence) == 1)%Q)
  /\ (qt ∩ terms sentence = ∅ ->
      (num_q (sentence_score qt sentence) == 0)%Q).
Proof.
  split; [apply sentence_score_range|].
  split; [apply sentence_score_full | apply score_without_overlap].
Qed.

Lemma sentence_score_in_unit_interval_witness :
  (num_q (sentence_score (terms "pump pressure") "The PUMP lost pressure") == 1)%Q
  /\ (num_q (sentence_score (terms "pump pressure") "nothing here") == 0)%Q.
Proof.
  split.
  - apply (proj1 (proj2 (sentence_score_in_unit_interval
                           (terms "pump pressure") "The PUMP lost pressure"))).
    + apply (bool_decide_unpack _). vm_compute. reflexivity.
    + apply (bool_decide_unpack _). vm_compute. reflexivity.
  - apply (proj2 (proj2 (sentence_score_in_unit_interval
                           (terms "pump pressure") "nothing here"))).
    apply (bool_decide_unpack _). vm_compute. reflexivity.
Defined.

(** X5: a text in which no [.], [!] or [?] occurs, or no white space, is
    one sentence: the refiner returns a document with such a content as
    it is, whatever the query, as soon as the half-width is at least 1. *)
Theorem unpunctuated_text_is_one_sentence (query : string) (w : Z)
    (text : string) (md : gmap string MVal) :
  Forall (fun c => is_terminator c = false) (list_ascii_of_string text)
  \/ Forall (fun c => is_space c = false) (list_ascii_of_string text) ->
  1 <= w ->
  split_sentences text = [text]
  /\ enhanced_context_window [mkDocument text md] query w
     = [mkDocument text md].
Proof.
  intros H Hw. pose proof (split_sentences_whole text H) as Hs.
  split; [exact Hs|]. simpl. f_equal. apply refine_passes. right.
  unfold sentences_of. simpl page_content. rewrite Hs. simpl. lia.
Qed.

Lemma unpunctuated_text_is_one_sentence_witness :
  split_sentences "pump curve and valve list" = ["pump curve and valve list"]
  /\ enhanced_context_window [mkDocument "pump curve and valve list" ∅]
       "valve" 1
     = [mkDocument "pump curve and valve list" ∅].
Proof.
  apply (unpunctuated_text_is_one_sentence "valve" 1
           "pump curve and valve list" ∅).
  - left. repeat constructor.
  - lia.
Defined.

(** X6: splitting a text into sentences removes white space only, and
    only after a terminator: the characters of the sentences that are not
    white space are those of the text, in the same order; there is always
    at least one sentence; and every sentence but the last ends with [.],
    [!] or [?]. *)
Theorem sentences_lose_white_space_only (text : string) :
  visible (chars_of (split_sentences text))
  = visible (list_ascii_of_string text)
  /\ split_sentences text <> []
  /\ forall (i : nat) (piece : string),
       split_sentences text !! i = Some piece ->
       (S i < length (split_sentences text))%nat ->
       ends_sentence piece.
Proof.
  unfold split_sentences. split; [|split].
  - now rewrite re_split_go_visible.
  - apply re_split_go_nonempty.
  - apply re_split_go_ends. discriminate.
Qed.

Lemma sentences_lose_white_space_only_witness :
  ends_sentence "Stop!".
Proof.
  apply (proj2 (proj2 (sentences_lose_white_space_only "Stop!  Go on. now"))
           0%nat "Stop!").
  - reflexivity.
  - simpl. lia.
Defined.

End RefinerExtras.

(** ** More about retrieval *)

Section SearchCalls.

Variable B : Backend.

Lemma primary_search_calls (mmr : bool) (vs : Faiss) (query : string) (k : Z)
    (st : St) :
  exists new : list Call,
    snd (primary_search B mmr vs query k st) = mkSt (self st) (trace st ++ new)
    /\ Forall (fun c => is_search_call c = true) new
    /\ (length new <= 3)%nat
    /\ (mmr = false -> new = [CSimilaritySearch vs query k]).
Proof.
  unfold primary_search, plain_search, try_catch, bind, call, ret.
  destruct mmr; simpl.
  - destruct (vs_max_marginal_relevance_search B (trace st) vs query k (k * 3))
      as [docs|e]; simpl.
    + destruct (negb (nonempty docs)
                && match index vs with Some b => b | None => false end); simpl.
      * destruct (vs_similarity_search B _ vs query k) as [found|e]; simpl.
        -- eexists. rewrite <- app_assoc. split; [reflexivity|].
           split; [repeat constructor|]. split; [simpl; lia | discriminate].
        -- eexists. rewrite <- !app_assoc. split; [reflexivity|].
           split; [repeat constructor|]. split; [simpl; lia | discriminate].
      * eexists. split; [reflexivity|].
        split; [repeat constructor|]. split; [simpl; lia | discriminate].
    + eexists. rewrite <- app_assoc. split; [reflexivity|].
      split; [repeat constructor|]. split; [simpl; lia | discriminate].
  - eexists. split; [reflexivity|].
    split; [repeat constructor|]. split; [simpl; lia | reflexivity].
Qed.

(** A tiered search leaves the state as the search proper left it, or as
    it found it. *)
Lemma tiered_search_state (mmr : bool) (vs : Faiss) (query : string) (k : Z)
    (stamp : Q -> Document -> Document) (fill : Document -> Document)
    (st : St) :
  snd (tiered_search B mmr vs query k stamp fill st) = st
  \/ snd (tiered_search B mmr vs query k stamp fill st)
     = snd (primary_search B mmr vs query k st).
Proof.
  unfold tiered_search, try_catch, bind.
  destruct (direct_tier_run vs k (stamp (8 # 10)) st) as (d & Hd & _).
  rewrite Hd. destruct d as [docs|]; [left; reflexivity|]. right.
  destruct (primary_search B mmr vs query k st) as [[found|e] st1]; simpl.
  - destruct (negb (nonempty (map fill found))).
    + destruct (docstore_tier_run vs k (stamp (7 # 10)) st1) as (r & Hr & _).
      rewrite Hr. now destruct r.
    + reflexivity.
  - destruct (docstore_tier_run vs k (stamp (6 # 10)) st1) as (r & Hr & _).
    rewrite Hr. now destruct r.
Qed.

Lemma tiered_search_calls (mmr : bool) (vs : Faiss) (query : string) (k : Z)
    (stamp : Q -> Document -> Document) (fill : Document -> Document)
    (st : St) :
  exists new : list Call,
    snd (tiered_search B mmr vs query k stamp fill st)
    = mkSt (self st) (trace st ++ new)
    /\ Forall (fun c => is_search_call c = true) new
    /\ (length new <= 3)%nat
    /\ (mmr = false ->
        (length new <= 1)%nat /\ Forall (fun c => is_mmr_call c = false) new).
Proof.
  destruct (tiered_search_state mmr vs query k stamp fill st) as [H|H];
    rewrite H.
  - exists []. rewrite app_nil_r. split; [now destruct st|].
    split; [constructor|]. split; [simpl; lia|].
    intros _. split; [simpl; lia | constructor].
  - destruct (primary_search_calls mmr vs query k st)
      as (new & Hs & Hall & Hlen & Hplain).
    exists new. split; [exact Hs|]. split; [exact Hall|].
    split; [exact Hlen|]. intros Hm. rewrite (Hplain Hm).
    split; [simpl; lia | repeat constructor].
Qed.

Lemma similarity_search_calls (query : string) (k : option Z) (st : St) :
  exists new : list Call,
    snd (similarity_search B query k st) = mkSt (self st) (trace st ++ new)
    /\ Forall (fun c => is_search_call c = true) new
    /\ (length new <= 3)%nat
    /\ (use_mmr (self st) = false ->
        (length new <= 1)%nat /\ Forall (fun c => is_mmr_call c = false) new).
Proof.
  rewrite similarity_search_tiered.
  destruct (vectorstore (self st)) as [vs|]; [apply tiered_search_calls|].
  exists []. rewrite app_nil_r. split; [now destruct st|].
  split; [constructor|]. split; [simpl; lia|].
  intros _. split; [simpl; lia | constructor].
Qed.

Lemma search_department_calls (query department : string) (k : option Z)
    (st : St) :
  exists new : list Call,
    snd (search_department B query department k st)
    = mkSt (self st) (trace st ++ new)
    /\ Forall (fun c => is_search_call c = true) new
    /\ (length new <= 3)%nat
    /\ (use_mmr (self st) = false ->
        (length new <= 1)%nat /\ Forall (fun c => is_mmr_call c = false) new).
Proof.
  rewrite search_department_tiered.
  destruct (od_get department (department_vectorstores (self st))) as [vs|];
    [apply tiered_search_calls|].
  exists []. rewrite app_nil_r. split; [now destruct st|].
  split; [constructor|]. split; [simpl; lia|].
  intros _. split; [simpl; lia | constructor].
Qed.

Lemma stamp_department_scored (q : Q) (department : string) (d : Document) :
  is_Some (score_of (stamp_department q department d)).
Proof.
  unfold stamp_department. rewrite score_of_set_department, score_of_set_score.
  now eexists.
Qed.

Lemma fill_department_scored (department : string) (d : Document) :
  is_Some (score_of (set_department department (fill_score (85 # 100) d))).
Proof.
  rewrite score_of_set_department, score_of_fill.
  destruct (score_of d); now eexists.
Qed.

(** A department search with what it asks and what it returns. *)
Lemma search_department_scored (s : VectorStore) (query department : string)
    (k : option Z) (t : Trace) :
  exists (docs : list Document) (new : list Call),
    search_department B query department k (mkSt s t)
    = (Ok docs, mkSt s (t ++ new))
    /\ Forall (fun c => is_search_call c = true) new
    /\ (length new <= 3)%nat
    /\ Forall (fun d => is_Some (score_of d)) docs.
Proof.
  destruct (search_department_forall B (fun _ => True)
              (fun d => is_Some (score_of d)) s query department k t)
    as (docs & t' & Hrun & Hall).
  - intros q d _. apply stamp_department_scored.
  - intros d _. apply fill_department_scored.
  - intros vs q k0 found _ _. apply Forall_forall. auto.
  - destruct (search_department_calls query department k (mkSt s t))
      as (new & Hs & Hc & Hlen & _).
    rewrite Hrun in Hs. simpl in Hs. injection Hs as ->.
    exists docs, new. auto.
Qed.

Lemma scan_pieces_calls (s : VectorStore) (query : string) (k : Z)
    (departments : list string) : forall t : Trace,
  exists (pieces : list (list Document)) (new : list Call),
    scan_pieces B query k departments (mkSt s t)
    = (Ok pieces, mkSt s (t ++ new))
    /\ Forall (fun c => is_search_call c = true) new
    /\ (length new <= 3 * length departments)%nat
    /\ Forall (Forall (fun d => is_Some (score_of d))) pieces.
Proof.
  induction departments as [|d rest IH]; intros t.
  - exists [], []. rewrite app_nil_r. repeat split; constructor.
  - assert (Hhere : exists here new1,
               (if od_mem d (department_vectorstores s)
                then try_catch
                       (found <- search_department B query d (Some k) ;;
                        ret (map (set_department d) found))
                       (fun _ => ret [])
                else ret []) (mkSt s t) = (Ok here, mkSt s (t ++ new1))
               /\ Forall (fun c => is_search_call c = true) new1
               /\ (length new1 <= 3)%nat
               /\ Forall (fun d => is_Some (score_of d)) here).
    { destruct (od_mem d (department_vectorstores s)).
      - destruct (search_department_scored s query d (Some k) t)
          as (docs & new1 & Hrun & Hc & Hlen & Hall).
        exists (map (set_department d) docs), new1. split; [|split; [|split]];
          try assumption.
        + rewrite (try_ok _ _ _ (mkSt s (t ++ new1))
                     (map (set_department d) docs)); [reflexivity|].
          now run_ok Hrun.
        + apply Forall_map. eapply Forall_impl; [exact Hall|].
          intros x Hx. simpl. now rewrite score_of_set_department.
      - exists [], []. rewrite app_nil_r.
        split; [reflexivity|]. split; [constructor|].
        split; [simpl; lia | constructor]. }
    destruct Hhere as (here & new1 & Hhere & Hc1 & Hlen1 & Hp).
    destruct (IH (t ++ new1)) as (pieces & new2 & Hrest & Hc2 & Hlen2 & Hall).
    exists (here :: pieces), (new1 ++ new2). split; [|split; [|split]].
    + simpl. unfold bind at 1. unfold get_self. simpl self.
      run_ok Hhere. run_ok Hrest. now rewrite app_assoc.
    + apply Forall_app. now split.
    + rewrite length_app. simpl length. lia.
    + now constructor.
Qed.

(** The gathering step asks for one embedding, then only questions the
    indices. *)
Lemma gather_calls (s : VectorStore) (query : string) (k : Z)
    (departments : list string) (t : Trace) :
  exists (docs : list Document) (new : list Call),
    gather B query departments k (mkSt s t)
    = (Ok docs, mkSt s (t ++ CEmbedQuery query :: new))
    /\ Forall (fun c => is_search_call c = true) new
    /\ (length new <= 3 * length departments)%nat.
Proof.
  destruct (scan_pieces_calls s query k departments (t ++ [CEmbedQuery query]))
    as (pieces & new & Hrun & Hc & Hlen & Hall).
  exists (concat pieces), new. split; [|now split].
  unfold gather. destruct (embedding_run B query s t) as (e & He).
  run_ok He.
  rewrite (bind_ok _ _ _ (mkSt s ((t ++ [CEmbedQuery query]) ++ new))
             (concat pieces)).
  - rewrite <- app_assoc. simpl app. apply score_missing_scored.
    clear Hrun Hlen. induction Hall; simpl; [constructor|].
    apply Forall_app. now split.
  - rewrite scan_departments_concat. now run_ok Hrun.
Qed.

Lemma scan_departments_unknown (s : VectorStore) (query : string) (k : Z)
    (departments : list string) (t : Trace) :
  Forall (fun d => od_mem d (department_vectorstores s) = false) departments ->
  scan_departments B query k departments (mkSt s t) = (Ok [], mkSt s t).
Proof.
  induction 1 as [|d rest Hd _ IH]; [reflexivity|].
  simpl. unfold bind at 1. unfold get_self. simpl self. rewrite Hd.
  unfold bind at 1. unfold ret at 1. cbv beta iota. now run_ok IH.
Qed.

End SearchCalls.

Section DocstoreOrder.

Lemma fetch_listed (ds : list (string * Document))
    (stamp : Document -> Document) (l : list (string * Document)) :
  Forall (fun p => od_get (fst p) ds = Some (snd p)) l ->
  fetch ds stamp (map fst l) = Ok (map (fun p => stamp (snd p)) l).
Proof.
  induction 1 as [|[key d] l Hp _ IH]; [reflexivity|].
  simpl in *. now rewrite Hp, IH.
Qed.

Lemma od_get_unique (ds : list (string * Document)) :
  NoDup (od_keys ds) ->
  Forall (fun p => od_get (fst p) ds = Some (snd p)) ds.
Proof.
  induction ds as [|[key d] ds IH]; intros Hnd; [constructor|].
  apply NoDup_cons in Hnd. destruct Hnd as [Hnew Hnd].
  constructor.
  - simpl. now rewrite String.eqb_refl.
  - specialize (IH Hnd). rewrite Forall_forall in IH |- *.
    intros [key' d'] Hin. simpl.
    destruct (String.eqb_spec key key') as [->|_].
    + exfalso. apply Hnew.
      exact (list_elem_of_fmap_2 fst ds (key', d') Hin).
    + exact (IH _ Hin).
Qed.

(** On a docstore, whose keys are unique, a tier enumerates the first
    [min(k, n)] documents in insertion order. *)
Lemma enumerate_first (ds : list (string * Document)) (k : Z)
    (stamp : Document -> Document) :
  NoDup (od_keys ds) ->
  enumerate ds k stamp
  = Ok (map stamp (take (Z.to_nat (Z.min k (Z.of_nat (length ds))))
                     (map snd ds))).
Proof.
  intros Hnd. unfold enumerate, od_keys. rewrite length_map.
  set (n := Z.to_nat (Z.min k (Z.of_nat (length ds)))).
  change (map fst ds) with (fst <$> ds). rewrite <- fmap_take.
  change (fst <$> take n ds) with (map fst (take n ds)).
  rewrite fetch_listed.
  - f_equal. change (map snd ds) with (snd <$> ds). rewrite <- fmap_take.
    change (snd <$> take n ds) with (map snd (take n ds)).
    now rewrite List.map_map.
  - apply Forall_take. now apply od_get_unique.
Qed.

End DocstoreOrder.

Section TierFacts.

Variable B : Backend.

Lemma direct_tier_closed (vs : Faiss) (k : Z) (stamp : Document -> Document)
    (st : St) :
  index vs <> None -> direct_tier vs k stamp st = (Ok None, st).
Proof.
  intros Hi. destruct (direct_tier_run vs k stamp st) as (r & Hr & _ & Hnone).
  now rewrite Hr, (Hnone Hi).
Qed.

Lemma direct_tier_open (vs : Faiss) (ds : list (string * Document)) (k : Z)
    (stamp : Document -> Document) (st : St) :
  docstore vs = Some ds -> ds <> [] -> NoDup (od_keys ds) -> index vs = None ->
  direct_tier vs k stamp st
  = (Ok (Some (map stamp (take (Z.to_nat (Z.min k (Z.of_nat (length ds))))
                            (map snd ds)))), st).
Proof.
  intros Hds Hne Hnd Hi. unfold direct_tier, try_catch, bind, lift, ret.
  rewrite Hds, Hi. destruct ds as [|p ds']; [congruence|].
  simpl nonempty. cbv iota. simpl andb. cbv iota.
  now rewrite enumerate_first.
Qed.

Lemma docstore_tier_open (vs : Faiss) (ds : list (string * Document)) (k : Z)
    (stamp : Document -> Document) (st : St) :
  docstore vs = Some ds -> ds <> [] -> NoDup (od_keys ds) ->
  docstore_tier vs k stamp st
  = (Ok (Some (map stamp (take (Z.to_nat (Z.min k (Z.of_nat (length ds))))
                            (map snd ds)))), st).
Proof.
  intros Hds Hne Hnd. unfold docstore_tier, try_catch, bind, lift, ret.
  rewrite Hds. destruct ds as [|p ds']; [congruence|].
  simpl nonempty. cbv iota. now rewrite enumerate_first.
Qed.

Lemma primary_search_dead (mmr : bool) (vs : Faiss) (query : string) (k : Z)
    (st : St) :
  (forall t, exists e,
     vs_max_marginal_relevance_search B t vs query k (k * 3) = Raise e) ->
  (forall t, exists e, vs_similarity_search B t vs query k = Raise e) ->
  exists (e : PyExn) (t' : Trace),
    primary_search B mmr vs query k st = (Raise e, mkSt (self st) t').
Proof.
  intros Hm Hs. unfold primary_search, plain_search, try_catch, bind, call.
  destruct mmr.
  - destruct (Hm (trace st)) as (e & ->). simpl.
    destruct (Hs (trace st ++ [CMmrSearch vs query k (k * 3)])) as (e' & ->).
    now eexists _, _.
  - destruct (Hs (trace st)) as (e' & ->). now eexists _, _.
Qed.

Lemma primary_search_blind (mmr : bool) (vs : Faiss) (query : string) (k : Z)
    (st : St) :
  (forall t, vs_max_marginal_relevance_search B t vs query k (k * 3) = Ok []) ->
  (forall t, vs_similarity_search B t vs query k = Ok []) ->
  exists t' : Trace,
    primary_search B mmr vs query k st = (Ok [], mkSt (self st) t').
Proof.
  intros Hm Hs. unfold primary_search, plain_search, try_catch, bind, call, ret.
  destruct mmr.
  - rewrite Hm. simpl.
    destruct (match index vs with Some b => b | None => false end).
    + rewrite Hs. now eexists.
    + now eexists.
  - rewrite Hs. now eexists.
Qed.

Lemma primary_search_degrades (vs : Faiss) (query : string) (k : Z)
    (found : list Document) (st : St) :
  (exists e, vs_max_marginal_relevance_search B (trace st) vs query k (k * 3)
             = Raise e)
  \/ (vs_max_marginal_relevance_search B (trace st) vs query k (k * 3) = Ok []
      /\ index vs = Some true) ->
  vs_similarity_search B (trace st ++ [CMmrSearch vs query k (k * 3)])
    vs query k = Ok found ->
  primary_search B true vs query k st
  = (Ok found,
     mkSt (self st)
       (trace st ++ [CMmrSearch vs query k (k * 3);
                     CSimilaritySearch vs query k])).
Proof.
  intros Hm Hs. unfold primary_search, plain_search, try_catch, bind, call, ret.
  destruct Hm as [(e & ->)|(-> & ->)]; simpl; rewrite Hs;
    now rewrite <- app_assoc.
Qed.

(** The outcome of a tiered search whose direct tier is closed, from the
    outcome of the search proper. *)
Lemma tiered_search_found (mmr : bool) (vs : Faiss) (query : string) (k : Z)
    (stamp : Q -> Document -> Document) (fill : Document -> Document)
    (st st1 : St) (x : Document) (found : list Document) :
  index vs <> None ->
  primary_search B mmr vs query k st = (Ok (x :: found), st1) ->
  tiered_search B mmr vs query k stamp fill st
  = (Ok (map fill (x :: found)), st1).
Proof.
  intros Hi Hp. unfold tiered_search.
  rewrite (try_ok _ _ st st1 (map fill (x :: found))); [reflexivity|].
  run_ok (direct_tier_closed vs k (stamp (8 # 10)) st Hi).
  run_ok Hp. reflexivity.
Qed.

Lemma tiered_search_nothing (mmr : bool) (vs : Faiss)
    (ds : list (string * Document)) (query : string) (k : Z)
    (stamp : Q -> Document -> Document) (fill : Document -> Document)
    (st st1 : St) :
  index vs <> None ->
  docstore vs = Some ds -> ds <> [] -> NoDup (od_keys ds) ->
  primary_search B mmr vs query k st = (Ok [], st1) ->
  tiered_search B mmr vs query k stamp fill st
  = (Ok (map (stamp (7 # 10))
           (take (Z.to_nat (Z.min k (Z.of_nat (length ds)))) (map snd ds))),
     st1).
Proof.
  intros Hi Hds Hne Hnd Hp. unfold tiered_search.
  erewrite try_ok; [reflexivity|].
  run_ok (direct_tier_closed vs k (stamp (8 # 10)) st Hi).
  run_ok Hp. simpl negb. cbv iota.
  run_ok (docstore_tier_open vs ds k (stamp (7 # 10)) st1 Hds Hne Hnd).
  reflexivity.
Qed.

Lemma tiered_search_failed (mmr : bool) (vs : Faiss)
    (ds : list (string * Document)) (query : string) (k : Z)
    (stamp : Q -> Document -> Document) (fill : Document -> Document)
    (st st1 : St) (e : PyExn) :
  index vs <> None ->
  docstore vs = Some ds -> ds <> [] -> NoDup (od_keys ds) ->
  primary_search B mmr vs query k st = (Raise e, st1) ->
  tiered_search B mmr vs query k stamp fill st
  = (Ok (map (stamp (6 # 10))
           (take (Z.to_nat (Z.min k (Z.of_nat (length ds)))) (map snd ds))),
     st1).
Proof.
  intros Hi Hds Hne Hnd Hp. unfold tiered_search.
  erewrite try_raise.
  2:{ run_ok (direct_tier_closed vs k (stamp (8 # 10)) st Hi).
      run_raise Hp. reflexivity. }
  run_ok (docstore_tier_open vs ds k (stamp (6 # 10)) st1 Hds Hne Hnd).
  reflexivity.
Qed.

Lemma tiered_search_direct (mmr : bool) (vs : Faiss)
    (ds : list (string * Document)) (query : string) (k : Z)
    (stamp : Q -> Document -> Document) (fill : Document -> Document)
    (st : St) :
  index vs = None ->
  docstore vs = Some ds -> ds <> [] -> NoDup (od_keys ds) ->
  tiered_search B mmr vs query k stamp fill st
  = (Ok (map (stamp (8 # 10))
           (take (Z.to_nat (Z.min k (Z.of_nat (length ds)))) (map snd ds))),
     st).
Proof.
  intros Hi Hds Hne Hnd. unfold tiered_search.
  erewrite try_ok; [reflexivity|].
  run_ok (direct_tier_open vs ds k (stamp (8 # 10)) st Hds Hne Hnd Hi).
  reflexivity.
Qed.

End TierFacts.

Section SearchExtras.

Variable B : Backend.

(** X7: a search of the main index or of a department index asks
    nothing of its collaborators but searches of the index: it never
    builds, loads or saves an index and never asks for an embedding.  It
    asks at most three searches, and, when [use_mmr] is off, at most one,
    which is not a diversity search. *)
Theorem searching_only_questions_the_index (query department : string)
    (k : option Z) (st : St) :
  (exists new : list Call,
     trace (snd (similarity_search B query k st)) = trace st ++ new
     /\ Forall (fun c => is_search_call c = true) new
     /\ (length new <= 3)%nat
     /\ (use_mmr (self st) = false ->
         (length new <= 1)%nat /\ Forall (fun c => is_mmr_call c = false) new))
  /\ (exists new : list Call,
        trace (snd (search_department B query department k st))
        = trace st ++ new
        /\ Forall (fun c => is_search_call c = true) new
        /\ (length new <= 3)%nat
        /\ (use_mmr (self st) = false ->
            (length new <= 1)%nat
            /\ Forall (fun c => is_mmr_call c = false) new)).
Proof.
  split.
  - destruct (similarity_search_calls B query k st) as (new & Hs & H).
    exists new. now rewrite Hs.
  - destruct (search_department_calls B query department k st)
      as (new & Hs & H).
    exists new. now rewrite Hs.
Qed.

(** X8: once a department is asked for or known, the fusion asks for the
    embedding of the query exactly once, before anything else, and after
    that only searches the indices, at most three times per department
    scanned: no other embedding is asked for, so that the loop that scores
    the documents never embeds one.  This holds whether the final sort
    succeeds or raises. *)
Theorem fusion_embeds_the_query_once (s : VectorStore) (query : string)
    (departments : option (list string)) (k : option Z) (t : Trace) :
  let given := match departments with Some l => l | None => [] end in
  let scanned := if negb (nonempty given)
                 then od_keys (department_vectorstores s) else given in
  scanned <> [] ->
  exists new : list Call,
    trace (snd (search_across_departments B query departments k (mkSt s t)))
    = t ++ CEmbedQuery query :: new
    /\ Forall (fun c => is_search_call c = true) new
    /\ (length new <= 3 * length scanned)%nat.
Proof.
  intros given scanned Hne.
  rewrite search_across_departments_unfold. fold given.
  assert (Hpath : negb (nonempty given)
                  && negb (nonempty (department_vectorstores s)) = false).
  { subst scanned. destruct given; simpl in *; [|reflexivity].
    destruct (department_vectorstores s); [now elim Hne | reflexivity]. }
  rewrite Hpath. fold scanned.
  destruct (gather_calls B s query (int_or k (top_k_retrieval s)) scanned t)
    as (docs & new & Hg & Hc & Hlen).
  exists new. split; [|now split].
  run_ok Hg. unfold lift, bind, ret.
  now destruct (sorted_desc docs).
Qed.

(** X9: a department that has no index yields nothing.  A department
    search for it returns the empty list without asking anything; a
    fusion over departments none of which has an index returns the empty
    list, having asked for the embedding of the query and nothing else. *)
Theorem unknown_departments_yield_nothing (s : VectorStore) (query : string)
    (departments : list string) (k : option Z) (t : Trace) :
  departments <> [] ->
  Forall (fun d => od_mem d (department_vectorstores s) = false) departments ->
  search_across_departments B query (Some departments) k (mkSt s t)
  = (Ok [], mkSt s (t ++ [CEmbedQuery query]))
  /\ Forall (fun d => search_department B query d k (mkSt s t)
                      = (Ok [], mkSt s t)) departments.
Proof.
  intros Hne Hall. split.
  - rewrite search_across_departments_unfold.
    destruct departments as [|d rest]; [congruence|].
    simpl negb. simpl andb. cbv iota.
    assert (Hg : gather B query (d :: rest) (int_or k (top_k_retrieval s))
                   (mkSt s t) = (Ok [], mkSt s (t ++ [CEmbedQuery query]))).
    { unfold gather. destruct (embedding_run B query s t) as (e & He).
      run_ok He.
      now run_ok (scan_departments_unknown B s query
                    (int_or k (top_k_retrieval s)) (d :: rest)
                    (t ++ [CEmbedQuery query]) Hall). }
    run_ok Hg. unfold lift, bind, ret. simpl. unfold prefix.
    now rewrite take_nil.
  - eapply Forall_impl; [exact Hall|]. intros d Hd. simpl in Hd.
    rewrite search_department_tiered. simpl self. unfold od_mem in Hd.
    now destruct (od_get d (department_vectorstores s)).
Qed.

(** X10: when the diversity search raises, or finds nothing on an index
    that is not empty, the plain similarity search is asked once, right
    after it, and its non-empty answer is what [similarity_search]
    returns, each document with the score 0.85 unless it had one. *)
Theorem diversity_failure_degrades_to_plain_search (s : VectorStore)
    (vs : Faiss) (query : string) (k : option Z) (t : Trace)
    (found : list Document) :
  let k' := int_or k (top_k_retrieval s) in
  vectorstore s = Some vs -> use_mmr s = true -> index vs <> None ->
  (exists e, vs_max_marginal_relevance_search B t vs query k' (k' * 3)
             = Raise e)
  \/ (vs_max_marginal_relevance_search B t vs query k' (k' * 3) = Ok []
      /\ index vs = Some true) ->
  vs_similarity_search B (t ++ [CMmrSearch vs query k' (k' * 3)]) vs query k'
  = Ok found ->
  found <> [] ->
  similarity_search B query k (mkSt s t)
  = (Ok (map (fill_score (85 # 100)) found),
     mkSt s (t ++ [CMmrSearch vs query k' (k' * 3);
                   CSimilaritySearch vs query k'])).
Proof.
  intros k' Hvs Hmmr Hi Hm Hs Hne.
  rewrite similarity_search_tiered. simpl self. rewrite Hvs, Hmmr. fold k'.
  destruct found as [|x found]; [congruence|].
  apply tiered_search_found; [exact Hi|].
  now apply (primary_search_degrades B vs query k' (x :: found) (mkSt s t)).
Qed.

(** X11: when the index is of no use, the main search answers from the
    docstore (a dict, so with unique keys): it returns the first
    [min(k', n)] stored documents in insertion order, [k'] being
    [k or top_k_retrieval] and [n] the size of the docstore, all with one
    score that tells why.  The score is 0.8, and nothing is asked, when
    the store has no [index] attribute; 0.7 when every search finds
    nothing; 0.6 when every search raises. *)
Theorem docstore_backs_a_useless_index (s : VectorStore) (vs : Faiss)
    (ds : list (string * Document)) (query : string) (k : option Z)
    (t : Trace) :
  let k' := int_or k (top_k_retrieval s) in
  let first := take (Z.to_nat (Z.min k' (Z.of_nat (length ds)))) (map snd ds) in
  vectorstore s = Some vs ->
  docstore vs = Some ds -> ds <> [] -> NoDup (od_keys ds) ->
  (index vs = None ->
   similarity_search B query k (mkSt s t)
   = (Ok (map (set_score (8 # 10)) first), mkSt s t))
  /\ (index vs <> None ->
      (forall t0, vs_max_marginal_relevance_search B t0 vs query k' (k' * 3)
                  = Ok []) ->
      (forall t0, vs_similarity_search B t0 vs query k' = Ok []) ->
      fst (similarity_search B query k (mkSt s t))
      = Ok (map (set_score (7 # 10)) first))
  /\ (index vs <> None ->
      (forall t0, exists e,
         vs_max_marginal_relevance_search B t0 vs query k' (k' * 3) = Raise e) ->
      (forall t0, exists e, vs_similarity_search B t0 vs query k' = Raise e) ->
      fst (similarity_search B query k (mkSt s t))
      = Ok (map (set_score (6 # 10)) first)).
Proof.
  intros k' first Hvs Hds Hne Hnd.
  rewrite similarity_search_tiered. simpl self. rewrite Hvs. fold k'.
  split; [|split].
  - intros Hi. now apply tiered_search_direct.
  - intros Hi Hm Hs.
    destruct (primary_search_blind B (use_mmr s) vs query k' (mkSt s t) Hm Hs)
      as (t' & Hp).
    now rewrite (tiered_search_nothing B (use_mmr s) vs ds query k' set_score
                   (fill_score (85 # 100)) _ _ Hi Hds Hne Hnd Hp).
  - intros Hi Hm Hs.
    destruct (primary_search_dead B (use_mmr s) vs query k' (mkSt s t) Hm Hs)
      as (e & t' & Hp).
    now rewrite (tiered_search_failed B (use_mmr s) vs ds query k' set_score
                   (fill_score (85 # 100)) _ _ e Hi Hds Hne Hnd Hp).
Qed.

End SearchExtras.

Section SearchWitnesses.

Lemma searching_only_questions_the_index_witness :
  exists new : list Call,
    trace (snd (similarity_search mock_backend "q" None
                  (plain_main three_texts)))
    = trace (plain_main three_texts) ++ new
    /\ (length new <= 1)%nat.
Proof.
  destruct (proj1 (searching_only_questions_the_index mock_backend "q" "hr"
                     None (plain_main three_texts)))
    as (new & Hs & _ & _ & Hplain).
  exists new. split; [exact Hs|]. apply Hplain. reflexivity.
Defined.

Lemma fusion_embeds_the_query_once_witness :
  exists new : list Call,
    trace (snd (search_across_departments mock_backend "q" None None
                  (mkSt (self two_departments) [])))
    = [] ++ CEmbedQuery "q" :: new
    /\ Forall (fun c => is_search_call c = true) new
    /\ (length new <= 3 * 2)%nat.
Proof.
  apply (fusion_embeds_the_query_once mock_backend (self two_departments) "q"
           None None []).
  discriminate.
Defined.

Lemma unknown_departments_yield_nothing_witness :
  search_across_departments mock_backend "q" (Some ["legal"]) None
    (mkSt (self two_departments) [])
  = (Ok [], mkSt (self two_departments) ([] ++ [CEmbedQuery "q"]))
  /\ Forall (fun d => search_department mock_backend "q" d None
                        (mkSt (self two_departments) [])
                      = (Ok [], mkSt (self two_departments) []))
       ["legal"].
Proof.
  apply (unknown_departments_yield_nothing mock_backend
           (self two_departments) "q" ["legal"] None []).
  - discriminate.
  - constructor; [reflexivity | constructor].
Defined.

Lemma diversity_failure_degrades_witness :
  similarity_search no_mmr_backend "q" (Some 2)
    (mkSt (self (with_main three_texts)) [])
  = (Ok (map (fill_score (85 # 100)) [mkDocument "x" ∅; mkDocument "y" ∅]),
     mkSt (self (with_main three_texts))
       ([] ++ [CMmrSearch (mock_store three_texts) "q" 2 (2 * 3);
               CSimilaritySearch (mock_store three_texts) "q" 2])).
Proof.
  apply (diversity_failure_degrades_to_plain_search no_mmr_backend
           (self (with_main three_texts)) (mock_store three_texts) "q"
           (Some 2) [] [mkDocument "x" ∅; mkDocument "y" ∅]).
  - reflexivity.
  - reflexivity.
  - discriminate.
  - left. eexists. reflexivity.
  - reflexivity.
  - discriminate.
Defined.

Lemma three_ids_distinct :
  NoDup (od_keys (combine (mock_ids 3 "id") three_texts)).
Proof.
  apply (bool_decide_unpack _). vm_compute. reflexivity.
Qed.

Lemma docstore_backs_a_useless_index_witness :
  similarity_search mock_backend "q" (Some 2)
    (mkSt (self (with_store (bare_store three_texts))) [])
  = (Ok (map (set_score (8 # 10)) [mkDocument "x" ∅; mkDocument "y" ∅]),
     mkSt (self (with_store (bare_store three_texts))) [])
  /\ fst (similarity_search blind_backend "q" (Some 2)
            (mkSt (self (with_main three_texts)) []))
     = Ok (map (set_score (7 # 10)) [mkDocument "x" ∅; mkDocument "y" ∅])
  /\ fst (similarity_search no_search_backend "q" (Some 2)
            (mkSt (self (with_main three_texts)) []))
     = Ok (map (set_score (6 # 10)) [mkDocument "x" ∅; mkDocument "y" ∅]).
Proof.
  split; [|split].
  - apply (proj1 (docstore_backs_a_useless_index mock_backend
                    (self (with_store (bare_store three_texts)))
                    (bare_store three_texts)
                    (combine (mock_ids 3 "id") three_texts) "q" (Some 2) []
                    eq_refl eq_refl ltac:(discriminate) three_ids_distinct)).
    reflexivity.
  - apply (proj1 (proj2 (docstore_backs_a_useless_index blind_backend
                    (self (with_main three_texts))
                    (mock_store three_texts)
                    (combine (mock_ids 3 "id") three_texts) "q" (Some 2) []
                    eq_refl eq_refl ltac:(discriminate) three_ids_distinct))).
    + discriminate.
    + reflexivity.
    + reflexivity.
  - apply (proj2 (proj2 (docstore_backs_a_useless_index no_search_backend
                    (self (with_main three_texts))
                    (mock_store three_texts)
                    (combine (mock_ids 3 "id") three_texts) "q" (Some 2) []
                    eq_refl eq_refl ltac:(discriminate) three_ids_distinct))).
    + discriminate.
    + intros t0. eexists. reflexivity.
    + intros t0. eexists. reflexivity.
Defined.

End SearchWitnesses.

(** ** More about the life cycle of the indices *)

Section DictFacts.

Context {V : Type}.

Lemma od_get_set_ne (k k' : string) (v : V) (d : list (string * V)) :
  k' <> k -> od_get k' (od_set k v d) = od_get k' d.
Proof.
  intros Hne. induction d as [|[k0 v0] d IH]; simpl.
  - destruct (String.eqb_spec k k'); [congruence | reflexivity].
  - destruct (String.eqb_spec k0 k) as [->|Hk]; simpl.
    + destruct (String.eqb_spec k k'); [congruence | reflexivity].
    + now rewrite IH.
Qed.

Lemma od_get_set_eq (k : string) (v : V) (d : list (string * V)) :
  od_get k (od_set k v d) = Some v.
Proof.
  induction d as [|[k0 v0] d IH]; simpl.
  - now rewrite String.eqb_refl.
  - destruct (String.eqb_spec k0 k) as [->|Hk]; simpl.
    + now rewrite String.eqb_refl.
    + destruct (String.eqb_spec k0 k); [contradiction | exact IH].
Qed.

Lemma od_set_set (k : string) (v v' : V) (d : list (string * V)) :
  od_set k v' (od_set k v d) = od_set k v' d.
Proof.
  induction d as [|[k0 v0] d IH]; simpl.
  - now rewrite String.eqb_refl.
  - destruct (String.eqb_spec k0 k) as [->|Hk]; simpl.
    + now rewrite String.eqb_refl.
    + destruct (String.eqb_spec k0 k); [contradiction | now rewrite IH].
Qed.

Lemma od_mem_set_keeps (k k' : string) (v : V) (d : list (string * V)) :
  od_mem k' d = true -> od_mem k' (od_set k v d) = true.
Proof.
  intros H. destruct (String.eqb_spec k' k) as [->|Hne].
  - apply od_mem_set.
  - unfold od_mem in *. now rewrite od_get_set_ne.
Qed.

End DictFacts.

Lemma filter_all (department : string) (l : list Document) :
  Forall (fun d => in_department department d = true)
    (filter (fun c => in_department department c = true) l).
Proof.
  apply Forall_forall. intros d Hd. now apply list_elem_of_filter in Hd.
Qed.

Lemma filter_none (department : string) (l : list Document) :
  Forall (fun c => in_department department c = false) l ->
  filter (fun c => in_department department c = true) l = [].
Proof.
  induction 1 as [|c l Hc _ IH]; [reflexivity|].
  rewrite filter_cons_False by congruence. exact IH.
Qed.

(** One case for each answer that a collaborator can give, once the
    moment of the call is known. *)
Ltac known t :=
  lazymatch t with
  | context [match _ with _ => _ end] => fail
  | _ => idtac
  end.

Ltac each_answer B :=
  match goal with
  | |- context [os_makedirs B ?t ?p] =>
      known t; destruct (os_makedirs B t p) as [[]|?] eqn:?
  | |- context [os_path_exists B ?t ?p] =>
      known t; destruct (os_path_exists B t p) eqn:?
  | |- context [FAISS_load_local B ?t ?p] =>
      known t; destruct (FAISS_load_local B t p) eqn:?
  | |- context [FAISS_from_texts B ?t ?p] =>
      known t; destruct (FAISS_from_texts B t p) eqn:?
  | |- context [FAISS_from_documents B ?t ?p] =>
      known t; destruct (FAISS_from_documents B t p) eqn:?
  | |- context [vs_save_local B ?t ?v ?p] =>
      known t; destruct (vs_save_local B t v p) as [[]|?] eqn:?
  | |- context [vs_add_documents B ?t ?v ?p] =>
      known t; destruct (vs_add_documents B t v p) as [? [[]|?]] eqn:?
  | |- context [nonempty (filter ?P ?l)] =>
      destruct (filter P l) eqn:?
  end.

Ltac all_answers B := repeat (each_answer B; simpl).

Ltac own_chunks :=
  unfold indexes_only; cbn [app];
  repeat match goal with
         | |- Forall _ (_ :: _) =>
             constructor;
             [simpl indexed_by;
              first [solve [constructor]
                    | match goal with
                      | H : filter _ _ = ?x |- Forall _ ?x =>
                          rewrite <- H; apply filter_all
                      end]
             |]
         end;
  constructor.

Section StoreEffects.

Variable B : Backend.

(** What an initialisation of a department does to the object and asks of
    the collaborators. *)
Lemma department_init_effect (department : string)
    (chunks : option (list Document)) (rebuild : bool) (st : St) :
  let run := initialize_department_vectorstore B department chunks rebuild st in
  exists new : list Call,
    trace (snd run) = trace st ++ new
    /\ (exists b : bool, fst run = Ok b)
    /\ vectorstore (self (snd run)) = vectorstore (self st)
    /\ same_settings (self st) (self (snd run))
    /\ (department_vectorstores (self (snd run))
        = department_vectorstores (self st)
        \/ exists vs : Faiss,
             department_vectorstores (self (snd run))
             = od_set department vs (department_vectorstores (self st)))
    /\ indexes_only department new
    /\ (rebuild = true \/ chunks_given chunks <> [] ->
        Forall (fun c => is_load_call c = false) new)
    /\ exists rest : list Call,
         new = CMakedirs (path_join (faiss_index_path (self st)) department)
               :: rest.
Proof.
  cbv zeta. unfold initialize_department_vectorstore,
    initialize_department_primary.
  unfold try_catch, bind, call, ret, get_self, set_department_vectorstore,
    put_self, bind, get_self.
  destruct chunks as [[|c cs]|], rebuild; simpl.
  all: all_answers B.
  all: eexists; (split; [rewrite <- ?app_assoc; reflexivity|]).
  all: split; [eauto|]. all: split; [reflexivity|].
  all: split; [repeat split|].
  all: split; [first [left; reflexivity | right; eexists; reflexivity
                     | right; eexists; apply od_set_set]|].
  all: split; [own_chunks|].
  all: split; [|eexists; reflexivity].
  all: intros [Hr|Hc]; try discriminate; try (now elim Hc);
    repeat constructor.
Qed.

Lemma main_init_effect (chunks : option (list Document)) (rebuild : bool)
    (st : St) :
  let run := initialize_vectorstore B chunks rebuild st in
  exists new : list Call,
    trace (snd run) = trace st ++ new
    /\ (exists b : bool, fst run = Ok b)
    /\ department_vectorstores (self (snd run))
       = department_vectorstores (self st)
    /\ same_settings (self st) (self (snd run))
    /\ (rebuild = true \/ chunks_given chunks <> [] ->
        Forall (fun c => is_load_call c = false) new).
Proof.
  cbv zeta. unfold initialize_vectorstore, initialize_vectorstore_primary.
  unfold try_catch, bind, call, ret, get_self, set_vectorstore,
    put_self, bind, get_self.
  destruct chunks as [[|c cs]|], rebuild; simpl.
  all: all_answers B.
  all: eexists; (split; [rewrite <- ?app_assoc; reflexivity|]).
  all: split; [eauto|]. all: split; [reflexivity|].
  all: split; [repeat split|].
  all: intros [Hr|Hc]; try discriminate; try (now elim Hc);
    repeat constructor.
Qed.

Lemma department_add_effect (department : string)
    (chunks : option (list Document)) (st : St) :
  let run := add_documents_to_department B department chunks st in
  exists new : list Call,
    trace (snd run) = trace st ++ new
    /\ (exists b : bool, fst run = Ok b)
    /\ vectorstore (self (snd run)) = vectorstore (self st)
    /\ same_settings (self st) (self (snd run))
    /\ (department_vectorstores (self (snd run))
        = department_vectorstores (self st)
        \/ exists vs : Faiss,
             department_vectorstores (self (snd run))
             = od_set department vs (department_vectorstores (self st)))
    /\ indexes_only department new.
Proof.
  cbv zeta. unfold add_documents_to_department.
  destruct (negb (nonempty (chunks_given chunks))) eqn:Hgiven.
  { exists []. rewrite app_nil_r. simpl.
    repeat split; eauto. constructor. }
  unfold try_catch, bind, call, ret, get_self, add_to,
    set_department_vectorstore, put_self, bind, get_self.
  cbv beta iota. simpl self.
  destruct (od_get department (department_vectorstores (self st)))
    as [vs|] eqn:Hvs.
  - simpl. all_answers B.
    all: rewrite ?od_get_set_eq; simpl.
    all: all_answers B.
    all: first [exists []; split; [symmetry; apply app_nil_r|]
               | eexists; split; [rewrite <- ?app_assoc; reflexivity|]].
    all: try (split; [eauto|]). all: try (split; [reflexivity|]).
    all: try (split; [repeat split|]).
    all: try (split; [first [left; reflexivity | right; eexists; reflexivity]|]).
    all: own_chunks.
  - destruct (department_init_effect department chunks false st)
      as (new & Ht & Hb & Hv & Hs & Hd & Hi & _ & _).
    exists new. auto 10.
Qed.

Lemma add_documents_run (s : VectorStore) (vs : Faiss)
    (chunks : list Document) (t : Trace) :
  vectorstore s = Some vs -> chunks <> [] ->
  let added := vs_add_documents B t vs chunks in
  let t1 := t ++ [CAddDocuments vs chunks] in
  let saved := vs_save_local B t1 (fst added) (faiss_index_path s) in
  exists (b : bool) (st' : St),
    add_documents B (Some chunks) (mkSt s t) = (Ok b, st')
    /\ vectorstore (self st') = Some (fst added)
    /\ department_vectorstores (self st') = department_vectorstores s
    /\ (b = true <-> snd added = Ok tt /\ saved = Ok tt)
    /\ trace st'
       = match snd added with
         | Ok _ => t1 ++ [CSaveLocal (fst added) (faiss_index_path s)]
         | Raise _ => t1
         end.
Proof.
  intros Hvs Hne. cbv zeta.
  unfold add_documents. destruct chunks as [|c cs]; [congruence|].
  simpl negb. cbv iota.
  unfold try_catch, bind, call, ret, get_self, add_to, set_vectorstore,
    put_self, bind, get_self. simpl. rewrite Hvs. simpl.
  destruct (vs_add_documents B t vs (c :: cs)) as [vs' [[]|e]]; simpl.
  - destruct (vs_save_local B (t ++ [CAddDocuments vs (c :: cs)]) vs'
                (faiss_index_path s)) as [[]|e]; simpl.
    + eexists _, _. split; [reflexivity|]. simpl.
      split; [reflexivity|]. split; [reflexivity|]. split; [|reflexivity].
      split; auto.
    + eexists _, _. split; [reflexivity|]. simpl.
      split; [reflexivity|]. split; [reflexivity|]. split; [|reflexivity].
      split; [discriminate | intros (_ & Hsaved); discriminate Hsaved].
  - eexists _, _. split; [reflexivity|]. simpl.
    split; [reflexivity|]. split; [reflexivity|]. split; [|reflexivity].
    split; [discriminate | intros (Hadded & _); discriminate Hadded].
Qed.

End StoreEffects.

Section AllDepartments.

Variable B : Backend.

Lemma initialize_all_loop_run (chunks : option (list Document))
    (rebuild : bool) (departments : list string) :
  forall (all_success : bool) (st : St),
    let run := initialize_all_loop B departments chunks rebuild all_success st in
    exists (b : bool) (new : list Call),
      fst run = Ok b
      /\ trace (snd run) = trace st ++ new
      /\ vectorstore (self (snd run)) = vectorstore (self st)
      /\ same_settings (self st) (self (snd run))
      /\ (forall d, od_mem d (department_vectorstores (self st)) = true ->
                    od_mem d (department_vectorstores (self (snd run))) = true)
      /\ Forall (fun d => In (CMakedirs
                                (path_join (faiss_index_path (self st)) d)) new)
           departments
      /\ (b = true ->
          all_success = true
          /\ Forall (fun d => od_mem d (department_vectorstores
                                          (self (snd run))) = true)
               departments).
Proof.
  induction departments as [|d rest IH]; intros all_success st; cbv zeta.
  - exists all_success, []. simpl. rewrite app_nil_r.
    repeat split; auto.
  - simpl initialize_all_loop. unfold bind.
    destruct (department_init_effect B d chunks rebuild st)
      as (new1 & Ht1 & (b1 & Hb1) & Hv1 & Hs1 & Hd1 & _ & _ & (r1 & Hr1)).
    destruct (department_policy B d chunks rebuild st)
      as (_ & _ & _ & _ & Hin).
    cbv zeta in Hin.
    destruct (initialize_department_vectorstore B d chunks rebuild st)
      as [o st1]. simpl in Ht1, Hb1, Hv1, Hs1, Hd1, Hin. subst o.
    destruct (IH (if negb b1 then false else all_success) st1)
      as (b & new2 & Hb & Ht2 & Hv2 & Hs2 & Hkeep & Hall & Htrue).
    cbv zeta in Hb, Ht2, Hv2, Hs2, Hkeep, Hall, Htrue.
    assert (Hkeep1 : forall d',
               od_mem d' (department_vectorstores (self st)) = true ->
               od_mem d' (department_vectorstores (self st1)) = true).
    { intros d' Hd'. destruct Hd1 as [->|(vs & ->)]; [exact Hd'|].
      now apply od_mem_set_keeps. }
    assert (Hpath : faiss_index_path (self st1) = faiss_index_path (self st))
      by apply Hs1.
    exists b, (new1 ++ new2). split; [exact Hb|].
    split; [now rewrite Ht2, Ht1, app_assoc|].
    split; [now rewrite Hv2|].
    split.
    { destruct Hs1 as (H1 & H2 & H3), Hs2 as (H4 & H5 & H6).
      repeat split; congruence. }
    split; [auto|]. split.
    + constructor.
      * apply in_or_app. left. rewrite Hr1. now left.
      * eapply Forall_impl; [exact Hall|]. intros d' Hd'. simpl in Hd'.
        apply in_or_app. right. now rewrite <- Hpath.
    + intros ->. destruct (Htrue eq_refl) as (Hacc & Hrest).
      destruct b1; [|discriminate Hacc]. simpl in Hacc.
      split; [exact Hacc|]. constructor; [|exact Hrest].
      apply Hkeep. now apply Hin.
Qed.

End AllDepartments.

Section StoreExtras.

Variable B : Backend.

(** X12: adding a non-empty list of chunks to an existing main index never
    raises.  It hands all the chunks to FAISS, then saves the index it
    got back; it answers [True] exactly when both steps succeeded.  Either
    way the object keeps the index as FAISS left it, so that a failure to
    save is reported while the chunks stay searchable in memory. *)
Theorem add_documents_reports_persistence (s : VectorStore) (vs : Faiss)
    (chunks : list Document) (t : Trace) :
  vectorstore s = Some vs -> chunks <> [] ->
  let added := vs_add_documents B t vs chunks in
  let t1 := t ++ [CAddDocuments vs chunks] in
  let saved := vs_save_local B t1 (fst added) (faiss_index_path s) in
  exists (b : bool) (st' : St),
    add_documents B (Some chunks) (mkSt s t) = (Ok b, st')
    /\ vectorstore (self st') = Some (fst added)
    /\ department_vectorstores (self st') = department_vectorstores s
    /\ (b = true <-> snd added = Ok tt /\ saved = Ok tt)
    /\ trace st'
       = match snd added with
         | Ok _ => t1 ++ [CSaveLocal (fst added) (faiss_index_path s)]
         | Raise _ => t1
         end.
Proof. apply add_documents_run. Qed.

(** X13: an initialisation of a department, and an addition to it, hand
    to FAISS only chunks whose metadata name that department, leave the
    main index alone, and leave the index of every other department as it
    is. *)
Theorem department_operations_stay_in_their_department
    (department other : string) (chunks : option (list Document))
    (rebuild : bool) (st : St) :
  other <> department ->
  (let run := initialize_department_vectorstore B department chunks rebuild st in
   exists new : list Call,
     trace (snd run) = trace st ++ new
     /\ indexes_only department new
     /\ vectorstore (self (snd run)) = vectorstore (self st)
     /\ od_get other (department_vectorstores (self (snd run)))
        = od_get other (department_vectorstores (self st)))
  /\ (let run := add_documents_to_department B department chunks st in
      exists new : list Call,
        trace (snd run) = trace st ++ new
        /\ indexes_only department new
        /\ vectorstore (self (snd run)) = vectorstore (self st)
        /\ od_get other (department_vectorstores (self (snd run)))
           = od_get other (department_vectorstores (self st))).
Proof.
  intros Hother. split; cbv zeta.
  - destruct (department_init_effect B department chunks rebuild st)
      as (new & Ht & _ & Hv & _ & Hd & Hi & _).
    exists new. repeat split; try assumption.
    destruct Hd as [->|(vs & ->)]; [reflexivity|].
    now apply od_get_set_ne.
  - destruct (department_add_effect B department chunks st)
      as (new & Ht & _ & Hv & _ & Hd & Hi).
    exists new. repeat split; try assumption.
    destruct Hd as [->|(vs & ->)]; [reflexivity|].
    now apply od_get_set_ne.
Qed.

(** X14: when the department already has an index and none of the chunks
    given names that department, [add_documents_to_department] answers
    [True] and does nothing: nothing is asked, nothing is changed. *)
Theorem foreign_chunks_are_skipped (department : string)
    (chunks : list Document) (st : St) :
  chunks <> [] ->
  od_mem department (department_vectorstores (self st)) = true ->
  Forall (fun c => in_department department c = false) chunks ->
  add_documents_to_department B department (Some chunks) st = (Ok true, st).
Proof.
  intros Hne Hmem Hall. unfold add_documents_to_department.
  change (chunks_given (Some chunks)) with chunks.
  rewrite (filter_none department chunks Hall).
  destruct chunks as [|c cs]; [congruence|]. simpl.
  unfold bind, get_self, try_catch, ret. cbv beta iota. unfold od_mem in Hmem.
  destruct (od_get department (department_vectorstores (self st)));
    [reflexivity | discriminate].
Qed.

(** X15: an initialisation that is asked to rebuild, or that is given
    chunks, never reads an index from disk, for the main index as for a
    department. *)
Theorem rebuild_and_chunks_bypass_the_disk (department : string)
    (chunks : option (list Document)) (rebuild : bool) (st : St) :
  rebuild = true \/ chunks_given chunks <> [] ->
  (exists new : list Call,
     trace (snd (initialize_vectorstore B chunks rebuild st)) = trace st ++ new
     /\ Forall (fun c => is_load_call c = false) new)
  /\ (exists new : list Call,
        trace (snd (initialize_department_vectorstore B department chunks
                      rebuild st)) = trace st ++ new
        /\ Forall (fun c => is_load_call c = false) new).
Proof.
  intros H. split.
  - destruct (main_init_effect B chunks rebuild st)
      as (new & Ht & _ & _ & _ & Hl).
    exists new. auto.
  - destruct (department_init_effect B department chunks rebuild st)
      as (new & Ht & _ & _ & _ & _ & _ & Hl & _).
    exists new. auto.
Qed.

(** X16: without rebuild and without chunks, an index that is on disk and
    loads is taken as it is: the initialisation answers [True], the object
    holds the loaded index, and nothing is built or saved.  For a
    department this needs its directory to be creatable, which is the
    first thing asked. *)
Theorem saved_index_is_loaded_as_is (s : VectorStore) (department : string)
    (chunks : option (list Document)) (vs : Faiss) (t : Trace) :
  chunks_given chunks = [] ->
  (let path := faiss_index_path s in
   os_path_exists B t path = true ->
   FAISS_load_local B (t ++ [CPathExists path]) path = Ok vs ->
   initialize_vectorstore B chunks false (mkSt s t)
   = (Ok true,
      mkSt (with_vectorstore s vs) (t ++ [CPathExists path; CLoadLocal path])))
  /\ (let path := path_join (faiss_index_path s) department in
      os_makedirs B t path = Ok tt ->
      os_path_exists B (t ++ [CMakedirs path]) path = true ->
      FAISS_load_local B (t ++ [CMakedirs path; CPathExists path]) path
      = Ok vs ->
      initialize_department_vectorstore B department chunks false (mkSt s t)
      = (Ok true,
         mkSt (with_department s department vs)
           (t ++ [CMakedirs path; CPathExists path; CLoadLocal path]))).
Proof.
  intros Hnone. split; cbv zeta.
  - intros He Hl.
    unfold initialize_vectorstore, initialize_vectorstore_primary.
    unfold try_catch, bind, call, ret, get_self, set_vectorstore,
      put_self, bind, get_self. simpl. rewrite Hnone, He. simpl.
    rewrite Hl. simpl. unfold with_vectorstore.
    now rewrite <- app_assoc.
  - intros Hm He Hl.
    unfold initialize_department_vectorstore, initialize_department_primary.
    unfold try_catch, bind, call, ret, get_self, set_department_vectorstore,
      put_self, bind, get_self. simpl. rewrite Hnone, Hm, He. simpl.
    rewrite <- app_assoc. simpl app. rewrite Hl. simpl.
    unfold with_department. now rewrite <- !app_assoc.
Qed.

(** X17: [initialize_all_department_vectorstores] never raises and goes
    through all the default departments, whatever happens to the ones
    before: for each of them the creation of its directory is asked.  It
    leaves the main index alone, and when it answers [True] every default
    department has an index. *)
Theorem every_default_department_is_initialised
    (default_departments : list string) (chunks : option (list Document))
    (rebuild : bool) (st : St) :
  let run := initialize_all_department_vectorstores B default_departments
               chunks rebuild st in
  exists (b : bool) (new : list Call),
    fst run = Ok b
    /\ trace (snd run) = trace st ++ new
    /\ vectorstore (self (snd run)) = vectorstore (self st)
    /\ Forall (fun d => In (CMakedirs
                              (path_join (faiss_index_path (self st)) d)) new)
         default_departments
    /\ (b = true ->
        Forall (fun d => od_mem d (department_vectorstores
                                     (self (snd run))) = true)
          default_departments).
Proof.
  cbv zeta. unfold initialize_all_department_vectorstores.
  destruct (initialize_all_loop_run B chunks rebuild default_departments
              true st)
    as (b & new & Hb & Ht & Hv & _ & _ & Hall & Htrue).
  exists b, new. repeat (split; [assumption|]).
  intros Hbt. now apply Htrue.
Qed.

End StoreExtras.

Section StoreWitnesses.

Lemma add_documents_reports_persistence_witness :
  exists (b : bool) (st' : St),
    add_documents no_save_backend (Some [mkDocument "new" ∅])
      (mkSt (self (with_main three_texts)) [])
    = (Ok b, st')
    /\ vectorstore (self st')
       = Some (mock_store (three_texts ++ [mkDocument "new" ∅]))
    /\ b = false.
Proof.
  destruct (add_documents_reports_persistence no_save_backend
              (self (with_main three_texts)) (mock_store three_texts)
              [mkDocument "new" ∅] [])
    as (b & st' & Hrun & Hvs & _ & Hb & _).
  - reflexivity.
  - discriminate.
  - exists b, st'. split; [exact Hrun|]. split; [exact Hvs|].
    destruct b; [|reflexivity].
    destruct (proj1 Hb eq_refl) as (_ & Hsaved). discriminate Hsaved.
Defined.

Lemma department_operations_stay_witness :
  (let run := initialize_department_vectorstore mock_backend "hr"
                (Some [hr_chunk "a"; mkDocument "b" ∅]) false
                two_departments in
   exists new : list Call,
     trace (snd run) = trace two_departments ++ new
     /\ indexes_only "hr" new
     /\ vectorstore (self (snd run)) = vectorstore (self two_departments)
     /\ od_get "a" (department_vectorstores (self (snd run)))
        = od_get "a" (department_vectorstores (self two_departments)))
  /\ (let run := add_documents_to_department mock_backend "hr"
                   (Some [hr_chunk "a"; mkDocument "b" ∅]) two_departments in
      exists new : list Call,
        trace (snd run) = trace two_departments ++ new
        /\ indexes_only "hr" new
        /\ vectorstore (self (snd run)) = vectorstore (self two_departments)
        /\ od_get "a" (department_vectorstores (self (snd run)))
           = od_get "a" (department_vectorstores (self two_departments))).
Proof.
  apply (department_operations_stay_in_their_department mock_backend "hr" "a"
           (Some [hr_chunk "a"; mkDocument "b" ∅]) false two_departments).
  discriminate.
Defined.

Lemma foreign_chunks_are_skipped_witness :
  add_documents_to_department mock_backend "a" (Some [hr_chunk "x"])
    two_departments
  = (Ok true, two_departments).
Proof.
  apply (foreign_chunks_are_skipped mock_backend "a" [hr_chunk "x"]
           two_departments).
  - discriminate.
  - reflexivity.
  - constructor; [reflexivity | constructor].
Defined.

Lemma rebuild_and_chunks_bypass_the_disk_witness :
  (exists new : list Call,
     trace (snd (initialize_vectorstore disk_backend None true
                   (fresh "faiss_index")))
     = trace (fresh "faiss_index") ++ new
     /\ Forall (fun c => is_load_call c = false) new)
  /\ (exists new : list Call,
        trace (snd (initialize_department_vectorstore disk_backend "hr" None
                      true (fresh "faiss_index")))
        = trace (fresh "faiss_index") ++ new
        /\ Forall (fun c => is_load_call c = false) new).
Proof.
  apply (rebuild_and_chunks_bypass_the_disk disk_backend "hr" None true
           (fresh "faiss_index")).
  left. reflexivity.
Defined.

Lemma saved_index_is_loaded_as_is_witness :
  initialize_vectorstore disk_backend None false
    (mkSt (self (fresh "faiss_index")) [])
  = (Ok true,
     mkSt (with_vectorstore (self (fresh "faiss_index"))
             (mock_store three_texts))
       ([] ++ [CPathExists "faiss_index"; CLoadLocal "faiss_index"]))
  /\ initialize_department_vectorstore disk_backend "hr" None false
       (mkSt (self (fresh "faiss_index")) [])
     = (Ok true,
        mkSt (with_department (self (fresh "faiss_index")) "hr"
                (mock_store three_texts))
          ([] ++ [CMakedirs (path_join "faiss_index" "hr");
                  CPathExists (path_join "faiss_index" "hr");
                  CLoadLocal (path_join "faiss_index" "hr")])).
Proof.
  split.
  - apply (proj1 (saved_index_is_loaded_as_is disk_backend
                    (self (fresh "faiss_index")) "hr" None
                    (mock_store three_texts) [] eq_refl)); reflexivity.
  - apply (proj2 (saved_index_is_loaded_as_is disk_backend
                    (self (fresh "faiss_index")) "hr" None
                    (mock_store three_texts) [] eq_refl)); reflexivity.
Defined.

Lemma every_default_department_is_initialised_witness :
  Forall (fun d => od_mem d
                     (department_vectorstores
                        (self (snd (initialize_all_department_vectorstores
                                      mock_backend ["general"; "technical"]
                                      None false (fresh "faiss_index")))))
                   = true)
    ["general"; "technical"].
Proof.
  destruct (every_default_department_is_initialised mock_backend
              ["general"; "technical"] None false (fresh "faiss_index"))
    as (b & new & Hb & _ & _ & _ & Htrue).
  apply Htrue. vm_compute in Hb. congruence.
Defined.

End StoreWitnesses.

(** ** Loading and chunking *)

Import Ingestion.

Section IngestionFacts.

Lemma each_ok {A : Type} (f : A -> Outcome A) (l : list A) :
  forall r : list A,
    each f l = Ok r -> Forall (fun y => exists x, In x l /\ f x = Ok y) r.
Proof.
  induction l as [|x l IH]; intros r; simpl.
  - intros [= <-]. constructor.
  - destruct (f x) as [y|e] eqn:Hx; [|discriminate].
    destruct (each f l) as [r'|e]; [|discriminate]. intros [= <-].
    constructor; [exists x; auto|].
    eapply Forall_impl; [exact (IH r' eq_refl)|].
    intros y' (x' & Hin & Hy'). exists x'. auto.
Qed.

Lemma has_error_flagged (d : Document) :
  metadata d !! "error" = Some (VBool true) -> has_error d = true.
Proof. intros H. unfold has_error. now rewrite H. Qed.

Ltac lookups :=
  repeat first [rewrite lookup_insert_eq
               | rewrite lookup_insert_ne by discriminate].

(** A placeholder with its file path: what it carries. *)
Lemma placeholder_labels (F : Files) (file_path : string)
    (department : option string) (content filetype : string) :
  let d := set_meta "file_path" (VStr file_path)
             (placeholder F file_path department content filetype) in
  metadata d !! "department" = Some (VStr (str_or department "general"))
  /\ metadata d !! "source" = Some (VStr (basename F file_path))
  /\ metadata d !! "file_path" = Some (VStr file_path)
  /\ metadata d !! "filetype" = Some (VStr filetype)
  /\ metadata d !! "page_number" = Some (VNum (PInt 1))
  /\ metadata d !! "error" = Some (VBool true).
Proof.
  cbv zeta. unfold set_meta, placeholder, labelled. simpl metadata.
  repeat split; lookups; reflexivity.
Qed.

Lemma text_labels (F : Files) (file_path : string)
    (department : option string) (content : string) :
  let d := set_meta "file_path" (VStr file_path)
             (mkDocument content (labelled F file_path department "txt")) in
  metadata d !! "department" = Some (VStr (str_or department "general"))
  /\ metadata d !! "source" = Some (VStr (basename F file_path))
  /\ metadata d !! "file_path" = Some (VStr file_path)
  /\ metadata d !! "filetype" = Some (VStr "txt").
Proof.
  cbv zeta. unfold set_meta, labelled. simpl metadata.
  repeat split; lookups; reflexivity.
Qed.

Lemma pdf_labels (F : Files) (file_path : string)
    (department : option string) (x y : Document) :
  stamp_pdf F file_path department x = Ok y ->
  let d := set_meta "file_path" (VStr file_path) y in
  metadata d !! "department" = Some (VStr (str_or department "general"))
  /\ metadata d !! "source" = Some (VStr (basename F file_path))
  /\ metadata d !! "file_path" = Some (VStr file_path)
  /\ metadata d !! "filetype" = Some (VStr "pdf").
Proof.
  unfold stamp_pdf. destruct (next_page _) as [page_num|e]; [|discriminate].
  intros [= <-]. cbv zeta. unfold set_meta. simpl metadata.
  repeat split; lookups; reflexivity.
Qed.

Lemma docx_labels (F : Files) (file_path : string)
    (department : option string) (x : Document) :
  let d := set_meta "file_path" (VStr file_path)
             (stamp_docx F file_path department x) in
  metadata d !! "department" = Some (VStr (str_or department "general"))
  /\ metadata d !! "source" = Some (VStr (basename F file_path))
  /\ metadata d !! "file_path" = Some (VStr file_path)
  /\ metadata d !! "filetype" = Some (VStr "docx").
Proof.
  cbv zeta. unfold set_meta, stamp_docx. simpl metadata.
  repeat split; lookups; reflexivity.
Qed.

(** A load that fails returns one placeholder. *)
Lemma failed_load_run (F : Files) (file_path : string)
    (department : option string) :
  load_fails F file_path ->
  exists content filetype : string,
    load_document F file_path department
    = [set_meta "file_path" (VStr file_path)
         (placeholder F file_path department content filetype)].
Proof.
  unfold load_fails, load_document. cbv zeta.
  set (file_ext := lower (splitext_ext F file_path)).
  intros [(Ht & Hp & Hd)|[(-> & e & He)|[(-> & e & He)|(-> & Hr)]]].
  - apply String.eqb_neq in Ht, Hp, Hd. rewrite Ht, Hp, Hd.
    now eexists _, _.
  - simpl. rewrite He. now eexists _, _.
  - simpl. rewrite He. now eexists _, _.
  - simpl. destruct Hr as [(e & ->)|((e & ->) & Hl)]; [now eexists _, _|].
    destruct (read_text F "latin-1" file_path) as [content|e'|e'].
    + now elim (Hl content).
    + now eexists _, _.
    + now eexists _, _.
Qed.

Lemma split_flagged (splitter : list Document -> Outcome (list Document))
    (d : Document) :
  has_error d = true -> split_documents splitter [d] = [d].
Proof. intros H. unfold split_documents. simpl. now rewrite H. Qed.

Lemma imap_annotate_lookup (first_valid : Document) (chunks : list Document)
    (rest : list Document) (i : nat) (chunk : Document) :
  chunks !! i = Some chunk ->
  (imap (annotate first_valid) chunks ++ rest) !! i
  = Some (annotate first_valid i chunk).
Proof.
  intros H. rewrite lookup_app_l.
  - rewrite list_lookup_imap, H. reflexivity.
  - rewrite length_imap. now apply lookup_lt_Some in H.
Qed.

Lemma annotate_labels (first_valid : Document) (i : nat) (chunk : Document) :
  let r := annotate first_valid i chunk in
  page_content r = page_content chunk
  /\ metadata r !! "chunk_id" = Some (VNum (PInt (Z.of_nat i)))
  /\ metadata r !! "source"
     = Some (match metadata chunk !! "source" with
             | Some v => v
             | None => get_or (metadata first_valid) "source" (VStr "unknown")
             end)
  /\ metadata r !! "department"
     = Some (match metadata chunk !! "department" with
             | Some v => v
             | None =>
                 get_or (metadata first_valid) "department" (VStr "general")
             end)
  /\ forall key : string,
       ~ In key chunk_keys -> metadata r !! key = metadata chunk !! key.
Proof.
  cbv zeta. unfold annotate.
  rewrite (lookup_insert_ne _ "chunk_id" "source") by discriminate.
  destruct (metadata chunk !! "source") as [src|] eqn:Hsrc.
  - rewrite (lookup_insert_ne _ "chunk_id" "department") by discriminate.
    destruct (metadata chunk !! "department") as [dep|] eqn:Hdep;
      simpl; (split; [reflexivity|]); lookups; rewrite ?Hsrc, ?Hdep;
      repeat split; try reflexivity.
    + intros key Hk. rewrite lookup_insert_ne; [reflexivity|].
      intros <-. apply Hk. simpl. tauto.
    + intros key Hk. rewrite !lookup_insert_ne; [reflexivity|..];
        intros <-; apply Hk; simpl; tauto.
  - rewrite (lookup_insert_ne _ "source" "department") by discriminate.
    rewrite (lookup_insert_ne _ "chunk_id" "department") by discriminate.
    destruct (metadata chunk !! "department") as [dep|] eqn:Hdep;
      simpl; (split; [reflexivity|]); lookups; rewrite ?Hsrc, ?Hdep;
      repeat split; try reflexivity.
    + intros key Hk. rewrite !lookup_insert_ne; [reflexivity|..];
        intros <-; apply Hk; simpl; tauto.
    + intros key Hk. rewrite !lookup_insert_ne; [reflexivity|..];
        intros <-; apply Hk; simpl; tauto.
Qed.

End IngestionFacts.

Section IngestionExtras.

(** X18: every document that [load_document] returns, a page that was
    read as well as a placeholder for a failure, is labelled with the
    department asked for ([general] when none or the empty one is), with
    the base name of the file as its source, with the path of the file,
    and with a file type. *)
Theorem loaded_documents_are_labelled (F : Files) (file_path : string)
    (department : option string) (d : Document) :
  In d (load_document F file_path department) ->
  metadata d !! "department" = Some (VStr (str_or department "general"))
  /\ metadata d !! "source" = Some (VStr (basename F file_path))
  /\ metadata d !! "file_path" = Some (VStr file_path)
  /\ is_Some (metadata d !! "filetype").
Proof.
  assert (Hplace : forall content filetype,
             In d [set_meta "file_path" (VStr file_path)
                     (placeholder F file_path department content filetype)] ->
             metadata d !! "department"
             = Some (VStr (str_or department "general"))
             /\ metadata d !! "source" = Some (VStr (basename F file_path))
             /\ metadata d !! "file_path" = Some (VStr file_path)
             /\ is_Some (metadata d !! "filetype")).
  { intros content filetype [<-|[]].
    destruct (placeholder_labels F file_path department content filetype)
      as (H1 & H2 & H3 & H4 & _).
    repeat split; try assumption. rewrite H4. now eexists. }
  assert (Htext : forall content,
             In d (with_file_path file_path
                     [mkDocument content
                        (labelled F file_path department "txt")]) ->
             metadata d !! "department"
             = Some (VStr (str_or department "general"))
             /\ metadata d !! "source" = Some (VStr (basename F file_path))
             /\ metadata d !! "file_path" = Some (VStr file_path)
             /\ is_Some (metadata d !! "filetype")).
  { intros content [<-|[]].
    destruct (text_labels F file_path department content)
      as (H1 & H2 & H3 & H4).
    repeat split; try assumption. rewrite H4. now eexists. }
  unfold load_document. cbv zeta.
  destruct (String.eqb _ ".txt").
  { destruct (read_text F "utf-8" file_path) as [content|e|e];
      [apply Htext | | apply Hplace].
    destruct (read_text F "latin-1" file_path) as [content|e'|e'];
      [apply Htext | apply Hplace | apply Hplace]. }
  destruct (String.eqb _ ".pdf").
  { destruct (PyPDFLoader_load F file_path) as [docs|e]; [|apply Hplace].
    destruct (each (stamp_pdf F file_path department) docs) as [docs'|e]
      eqn:Heach; [|apply Hplace].
    intros Hin. unfold with_file_path in Hin. apply in_map_iff in Hin.
    destruct Hin as (y & <- & Hy).
    pose proof (each_ok _ _ _ Heach) as Hall.
    rewrite Forall_forall in Hall.
    destruct (Hall y) as (x & _ & Hx); [now apply list_elem_of_In|].
    destruct (pdf_labels F file_path department x y Hx) as (H1 & H2 & H3 & H4).
    repeat split; try assumption. rewrite H4. now eexists. }
  destruct (String.eqb _ ".docx").
  { destruct (Docx2txtLoader_load F file_path) as [docs|e]; [|apply Hplace].
    intros Hin. unfold with_file_path in Hin. apply in_map_iff in Hin.
    destruct Hin as (y & <- & Hy). apply in_map_iff in Hy.
    destruct Hy as (x & <- & _).
    destruct (docx_labels F file_path department x) as (H1 & H2 & H3 & H4).
    repeat split; try assumption. rewrite H4. now eexists. }
  apply Hplace.
Qed.

Lemma loaded_documents_are_labelled_witness :
  metadata (mkDocument "Pump one. Pump two."
              (<["file_path" := VStr "notes.txt"]>
                 (labelled mock_files "notes.txt" (Some "") "txt")))
    !! "department" = Some (VStr "general").
Proof.
  apply (loaded_documents_are_labelled mock_files "notes.txt" (Some "")
           (mkDocument "Pump one. Pump two."
              (<["file_path" := VStr "notes.txt"]>
                 (labelled mock_files "notes.txt" (Some "") "txt")))).
  left. reflexivity.
Defined.

(** X19: a load that fails (unsupported type, loader that raises, text
    that cannot be read) never raises: it returns exactly one placeholder,
    flagged as an error, with page number 1.  The placeholder goes
    through chunking and through the context window refiner unchanged,
    whatever the splitter, the query and the half-width. *)
Theorem failed_load_passes_through_untouched (F : Files) (file_path : string)
    (department : option string)
    (splitter : list Document -> Outcome (list Document)) (query : string)
    (w : Z) :
  load_fails F file_path ->
  exists d : Document,
    load_document F file_path department = [d]
    /\ has_error d = true
    /\ metadata d !! "page_number" = Some (VNum (PInt 1))
    /\ split_documents splitter [d] = [d]
    /\ enhanced_context_window [d] query w = [d].
Proof.
  intros Hfail.
  destruct (failed_load_run F file_path department Hfail)
    as (content & filetype & Hrun).
  destruct (placeholder_labels F file_path department content filetype)
    as (_ & _ & _ & _ & Hpage & Herr).
  apply has_error_flagged in Herr.
  eexists. split; [exact Hrun|]. split; [exact Herr|].
  split; [exact Hpage|]. split; [apply split_flagged; exact Herr|].
  unfold enhanced_context_window, map.
  now rewrite refine_passes by (now left).
Qed.

Lemma failed_load_passes_through_untouched_witness :
  exists d : Document,
    load_document mock_files "scan.PDF" (Some "technical") = [d]
    /\ has_error d = true
    /\ metadata d !! "page_number" = Some (VNum (PInt 1))
    /\ split_documents sentence_splitter [d] = [d]
    /\ enhanced_context_window [d] "pump" 0 = [d].
Proof.
  apply (failed_load_passes_through_untouched mock_files "scan.PDF"
           (Some "technical") sentence_splitter "pump" 0).
  right. left. split; [reflexivity|]. eexists. reflexivity.
Defined.

(** X20: chunking never loses an error placeholder: every flagged
    document that goes in comes out, whether the splitter succeeds, raises,
    or has nothing to split. *)
Theorem chunking_keeps_error_documents
    (splitter : list Document -> Outcome (list Document))
    (docs : list Document) (d : Document) :
  In d docs -> has_error d = true -> In d (split_documents splitter docs).
Proof.
  intros Hin Herr. unfold split_documents.
  destruct docs as [|d0 docs]; [destruct Hin|].
  destruct (List.filter _ (d0 :: docs)) as [|first_valid rest];
    [exact Hin|].
  destruct (splitter _) as [chunks|e]; [|exact Hin].
  apply in_or_app. right. apply List.filter_In. auto.
Qed.

Lemma chunking_keeps_error_documents_witness :
  In (placeholder mock_files "scan.PDF" None "[x]" "pdf")
    (split_documents sentence_splitter
       [mkDocument "One. Two." ∅;
        placeholder mock_files "scan.PDF" None "[x]" "pdf"]).
Proof.
  apply (chunking_keeps_error_documents sentence_splitter
           [mkDocument "One. Two." ∅;
            placeholder mock_files "scan.PDF" None "[x]" "pdf"]).
  - right. left. reflexivity.
  - vm_compute. reflexivity.
Defined.

(** X21: when the splitter answers, the chunks come first, in its
    order, numbered from 0 by [chunk_id]; each has a source and a
    department, its own when it had one and otherwise that of the first
    valid document ([unknown] and [general] when that one has none); its
    content and its other metadata are as the splitter made them.  The
    flagged documents follow, so that the list has one entry per chunk and
    per flagged document. *)
Theorem chunks_are_numbered_and_labelled
    (splitter : list Document -> Outcome (list Document))
    (docs chunks : list Document) (first_valid : Document)
    (others : list Document) (i : nat) (chunk : Document) :
  List.filter (fun doc => negb (has_error doc)) docs = first_valid :: others ->
  splitter (first_valid :: others) = Ok chunks ->
  chunks !! i = Some chunk ->
  length (split_documents splitter docs)
  = (length chunks + length (List.filter has_error docs))%nat
  /\ exists r : Document,
       split_documents splitter docs !! i = Some r
       /\ page_content r = page_content chunk
       /\ metadata r !! "chunk_id" = Some (VNum (PInt (Z.of_nat i)))
       /\ metadata r !! "source"
          = Some (match metadata chunk !! "source" with
                  | Some v => v
                  | None =>
                      get_or (metadata first_valid) "source" (VStr "unknown")
                  end)
       /\ metadata r !! "department"
          = Some (match metadata chunk !! "department" with
                  | Some v => v
                  | None =>
                      get_or (metadata first_valid) "department"
                        (VStr "general")
                  end)
       /\ forall key : string,
            ~ In key chunk_keys -> metadata r !! key = metadata chunk !! key.
Proof.
  intros Hvalid Hsplit Hi. unfold split_documents.
  destruct docs as [|d0 docs]; [discriminate Hvalid|].
  rewrite Hvalid, Hsplit. split.
  - now rewrite length_app, length_imap.
  - exists (annotate first_valid i chunk).
    split; [now apply imap_annotate_lookup|]. apply annotate_labels.
Qed.

Lemma chunks_are_numbered_and_labelled_witness :
  exists r : Document,
    split_documents sentence_splitter
      [hr_chunk "One. Two."; placeholder mock_files "scan.PDF" None "[x]" "pdf"]
      !! 1%nat = Some r
    /\ page_content r = "Two."
    /\ metadata r !! "chunk_id" = Some (VNum (PInt 1))
    /\ metadata r !! "department" = Some (VStr "hr").
Proof.
  destruct (chunks_are_numbered_and_labelled sentence_splitter
              [hr_chunk "One. Two.";
               placeholder mock_files "scan.PDF" None "[x]" "pdf"]
              [mkDocument "One." (metadata (hr_chunk "One. Two."));
               mkDocument "Two." (metadata (hr_chunk "One. Two."))]
              (hr_chunk "One. Two.") [] 1
              (mkDocument "Two." (metadata (hr_chunk "One. Two."))))
    as (_ & r & Hr & Hc & Hid & _ & Hdep & _).
  - vm_compute. reflexivity.
  - vm_compute. reflexivity.
  - reflexivity.
  - exists r. split; [exact Hr|]. split; [exact Hc|]. split; [exact Hid|].
    rewrite Hdep. reflexivity.
Defined.

End IngestionExtras.

(** ** The two pipelines of the API *)

Import Endpoints.

Section PipelineFacts.

Variable B : Backend.

Lemma department_add_run (s : VectorStore) (department : string)
    (vs : Faiss) (chunks : list Document) (x : Document)
    (xs : list Document) (t : Trace) :
  od_get department (department_vectorstores s) = Some vs ->
  chunks <> [] ->
  filter (fun c => in_department department c = true) chunks = x :: xs ->
  exists rest : list Call,
    trace (snd (add_documents_to_department B department (Some chunks)
                  (mkSt s t)))
    = t ++ CAddDocuments vs (x :: xs) :: rest.
Proof.
  intros Hvs Hne Hmine. unfold add_documents_to_department.
  change (chunks_given (Some chunks)) with chunks. rewrite Hmine.
  destruct chunks as [|c cs]; [congruence|]. simpl negb. cbv iota.
  unfold try_catch, bind, call, ret, get_self, add_to,
    set_department_vectorstore, put_self, bind, get_self.
  simpl. rewrite Hvs. simpl.
  destruct (vs_add_documents B t vs (x :: xs)) as [vs' [[]|e]]; simpl.
  - rewrite od_get_set_eq. simpl.
    destruct (vs_save_local B _ vs' _) as [[]|e]; simpl;
      eexists; rewrite <- app_assoc; reflexivity.
  - eexists. reflexivity.
Qed.

(** The summary of documents that all carry a numeric score. *)
Lemma evaluate_scored (query : string) (docs : list Document)
    (threshold : Q) :
  docs <> [] -> Forall numeric_score docs ->
  exists best : MVal,
    evaluate_context_relevance query docs threshold = (docs, Ok (best, true))
    /\ In best (map score_or_default docs).
Proof.
  intros Hne Hall.
  assert (Hfill : map (fill_score (7 # 10)) docs = docs).
  { clear Hne. induction Hall as [|d l (v & q & Hv & _) _ IH]; [reflexivity|].
    simpl. rewrite IH. f_equal. unfold fill_score.
    unfold score_of in Hv. now rewrite Hv. }
  destruct docs as [|d docs]; [congruence|].
  unfold evaluate_context_relevance. rewrite Hfill.
  simpl map.
  destruct (max_value_ok (map score_or_default docs) (score_or_default d))
    as (best & Hm & Hin & _).
  { apply score_or_default_numeric. right. now inversion Hall. }
  { apply Forall_map. inversion Hall as [|? ? _ Hrest]; subst.
    eapply Forall_impl; [exact Hrest|]. intros x Hx.
    apply score_or_default_numeric. now right. }
  rewrite Hm. exists best. split; [reflexivity | exact Hin].
Qed.

Lemma prefix_bounded {A : Type} (P : A -> Prop) (l : list A) (k : Z) :
  Forall P l ->
  Forall P (prefix l k) /\ (0 <= k -> Z.of_nat (length (prefix l k)) <= k).
Proof.
  intros Hall. destruct (prefix_is_take l k) as (n & -> & Hle). split.
  - now apply Forall_take.
  - intros Hk. rewrite length_take. specialize (Hle Hk). lia.
Qed.

(** The retrieval step returns, within the budget, documents with a
    score between 0 and 1. *)
Lemma retrieve_run (s : VectorStore) (query : string)
    (department : option string) (k : option Z) (t : Trace) :
  honours_budget B s ->
  answers B s (fun d => score_of d = None \/ unit_score d) ->
  0 <= int_or k (top_k_retrieval s) ->
  exists (found : list Document) (t' : Trace),
    retrieve B query department k (mkSt s t) = (Ok found, mkSt s t')
    /\ Forall unit_score found
    /\ Z.of_nat (length found) <= int_or k (top_k_retrieval s).
Proof.
  intros Hbudget Hans Hk.
  assert (Hmain : exists found t',
             similarity_search B query k (mkSt s t) = (Ok found, mkSt s t')
             /\ Forall unit_score found
             /\ Z.of_nat (length found) <= int_or k (top_k_retrieval s)).
  { rewrite similarity_search_tiered. simpl self.
    destruct (vectorstore s) as [vs|] eqn:Hvs.
    - destruct (tiered_search_run B (use_mmr s) vs query
                  (int_or k (top_k_retrieval s)) set_score
                  (fill_score (85 # 100)) (mkSt s t))
        as (found & t' & Hrun & Hp).
      exists found, t'. split; [exact Hrun|]. split.
      + refine (provenance_forall B _ unit_score vs query _ _ _ found
                  unit_set_score unit_fill _ Hp).
        intros f Ha. refine (Hans vs query _ f _ Ha). now left.
      + refine (provenance_length B s vs query _ _ _ found _ Hbudget Hk Hp).
        now left.
    - exists [], t. split; [reflexivity|]. split; [constructor | simpl; lia]. }
  unfold retrieve. destruct department as [d|]; [|exact Hmain].
  destruct (negb (String.eqb d EmptyString)); [|exact Hmain].
  destruct (fusion_run B unit_score s query (Some [d]) k t)
    as (pieces & sorted & found & t1 & t' & _ & _ & Hrun & _ & Hd & Hall).
  - discriminate.
  - apply unit_score_numeric.
  - intros dep t0.
    apply (search_department_forall B
             (fun d => score_of d = None \/ unit_score d)); [| |exact Hans].
    + intros q x Hq. apply unit_set_department. now apply unit_set_score.
    + intros x Hx. apply unit_set_department. now apply unit_fill.
  - intros dep x. apply unit_set_department.
  - exists found, t'. split; [exact Hrun|]. rewrite Hd.
    destruct (prefix_bounded unit_score sorted
                (int_or k (top_k_retrieval s)) Hall) as (H1 & H2).
    split; [exact H1 | exact (H2 Hk)].
Qed.

Lemma validated_budget (max_results : option Z) (top_k : Z) :
  validate_max_results max_results = Ok max_results -> 0 < top_k ->
  1 <= int_or max_results top_k
  /\ (max_results <> None -> int_or max_results top_k <= 20
                             /\ max_results = Some (int_or max_results top_k)).
Proof.
  unfold validate_max_results, int_or. destruct max_results as [z|].
  - destruct (Z.ltb_spec z 1); [discriminate|].
    destruct (Z.ltb_spec 20 z); [discriminate|]. intros _ Htop.
    destruct (Z.eqb_spec z 0); [lia|]. split; [lia|]. intros _. split; [lia|].
    reflexivity.
  - intros _ Htop. split; [lia|]. intros H. now elim H.
Qed.

Lemma refine_keeps_score (query : string) (w : Z) (d : Document) :
  score_of (refine query w d) = score_of d.
Proof.
  unfold score_of. apply refine_metadata_other.
  simpl. intros [H|[H|[H|[H|[H|[]]]]]]; discriminate H.
Qed.

End PipelineFacts.

Section PipelineExtras.

Variable B : Backend.

(** X22: what a failed load leaves behind is indexed as if it were
    content.  When the main index exists, [add_documents] applied to the
    chunks of a file that failed to load hands the flagged placeholder to
    FAISS; so does [add_documents_to_department] for the department of the
    upload, when that department has an index and its name is not empty. *)
Theorem failed_load_is_indexed_as_content (F : Files) (file_path : string)
    (department : string)
    (splitter : list Document -> Outcome (list Document))
    (s : VectorStore) (vs dept_vs : Faiss) (t : Trace) :
  load_fails F file_path ->
  vectorstore s = Some vs ->
  department <> EmptyString ->
  od_get department (department_vectorstores s) = Some dept_vs ->
  let chunks :=
    split_documents splitter (load_document F file_path (Some department)) in
  exists (d : Document) (rest rest' : list Call),
    chunks = [d] /\ has_error d = true
    /\ trace (snd (add_documents B (Some chunks) (mkSt s t)))
       = t ++ CAddDocuments vs [d] :: rest
    /\ trace (snd (add_documents_to_department B department (Some chunks)
                     (mkSt s t)))
       = t ++ CAddDocuments dept_vs [d] :: rest'.
Proof.
  intros Hfail Hvs Hname Hdept. cbv zeta.
  destruct (failed_load_run F file_path (Some department) Hfail)
    as (content & filetype & Hrun).
  destruct (placeholder_labels F file_path (Some department) content filetype)
    as (Hdep & _ & _ & _ & _ & Herr).
  apply has_error_flagged in Herr.
  set (d := set_meta "file_path" (VStr file_path)
              (placeholder F file_path (Some department) content filetype))
    in *.
  rewrite Hrun, (split_flagged splitter d Herr).
  destruct (add_documents_run B s vs [d] t Hvs ltac:(discriminate))
    as (b & st' & Hadd & _ & _ & _ & Htrace).
  assert (Hmine : filter (fun c => in_department department c = true) [d]
                  = [d]).
  { rewrite filter_cons_True; [reflexivity|].
    unfold in_department. rewrite Hdep. simpl.
    apply String.eqb_neq in Hname. rewrite Hname. apply String.eqb_refl. }
  destruct (department_add_run B s department dept_vs [d] d [] t Hdept
              ltac:(discriminate) Hmine) as (rest' & Hrest').
  exists d. rewrite Hadd. simpl snd. rewrite Htrace.
  destruct (snd (vs_add_documents B t vs [d])).
  - eexists _, rest'. rewrite <- app_assoc. auto.
  - exists [], rest'. auto.
Qed.

(** X23: a query whose [max_results] passed validation is answered
    within that budget.  With [k'] for [max_results], or for
    [top_k_retrieval] when there is none, [k'] is at least 1, and at most
    20 when [max_results] is given; the endpoint's retrieval does not
    raise and returns at most [k'] documents, on the main index (when the
    index honours its budget) as through a department.  When the indices
    answer with scores between 0 and 1, the relevance reported lies
    between 0 and 1, [has_relevant_context] tells whether anything was
    found, and the windowed documents are as many as the documents found
    and have the same scores, in the same order. *)
Theorem validated_query_is_bounded_and_scored (s : VectorStore)
    (threshold : Q) (query : string) (department : option string)
    (max_results : option Z) (t : Trace) :
  let k' := int_or max_results (top_k_retrieval s) in
  validate_max_results max_results = Ok max_results ->
  0 < top_k_retrieval s ->
  honours_budget B s ->
  answers B s (fun d => score_of d = None \/ unit_score d) ->
  exists (ctx : Context) (t' : Trace),
    query_context B threshold query department max_results (mkSt s t)
    = (Ok ctx, mkSt s t')
    /\ 1 <= k' /\ (max_results <> None -> k' <= 20)
    /\ Z.of_nat (length (docs ctx)) <= k'
    /\ Forall unit_score (docs ctx)
    /\ has_relevant_context ctx = nonempty (docs ctx)
    /\ (0 <= val_q (max_relevance ctx))%Q
    /\ (val_q (max_relevance ctx) <= 1)%Q
    /\ length (windowed_docs ctx) = length (docs ctx)
    /\ forall (i : nat) (d : Document),
         docs ctx !! i = Some d ->
         exists r : Document,
           windowed_docs ctx !! i = Some r /\ score_of r = score_of d.
Proof.
  intros k' Hvalid Htop Hbudget Hans.
  destruct (validated_budget max_results (top_k_retrieval s) Hvalid Htop)
    as (Hk1 & Hk20). fold k' in Hk1, Hk20.
  destruct (retrieve_run B s query department max_results t Hbudget Hans)
    as (found & t' & Hrun & Hall & Hlen); [fold k'; lia|]. fold k' in Hlen.
  assert (Hwin : forall (i : nat) (d : Document),
             found !! i = Some d ->
             exists r : Document,
               enhanced_context_window found query 3 !! i = Some r
               /\ score_of r = score_of d).
  { intros i d Hd. exists (refine query 3 d). split.
    - rewrite enhanced_context_window_map.
      change (map (refine query 3) found) with (refine query 3 <$> found).
      now rewrite list_lookup_fmap, Hd.
    - apply refine_keeps_score. }
  assert (Hwlen : length (enhanced_context_window found query 3)
                  = length found).
  { rewrite enhanced_context_window_map. apply length_map. }
  unfold query_context. run_ok Hrun.
  destruct found as [|d0 found].
  - simpl evaluate_context_relevance. cbv beta iota.
    unfold lift, bind, ret. eexists _, t'. split; [reflexivity|].
    cbn [docs windowed_docs max_relevance has_relevant_context fst snd].
    split; [exact Hk1|]. split; [intros H; now apply Hk20|].
    split; [simpl; lia|]. split; [constructor|]. split; [reflexivity|].
    split; [vm_compute; discriminate|]. split; [vm_compute; discriminate|].
    split; [reflexivity|]. intros i d Hd. discriminate Hd.
  - destruct (evaluate_scored query (d0 :: found) threshold)
      as (best & Heval & Hin); [discriminate | |].
    { eapply Forall_impl; [exact Hall|]. apply unit_score_numeric. }
    rewrite Heval. cbv beta iota. unfold lift, bind, ret.
    eexists _, t'. split; [reflexivity|].
    assert (Hbest : (0 <= val_q best)%Q /\ (val_q best <= 1)%Q).
    { apply in_map_iff in Hin. destruct Hin as (d & <- & Hd).
      rewrite Forall_forall in Hall.
      destruct (Hall d) as (n & Hn & H0 & H1); [now apply list_elem_of_In|].
      unfold score_or_default. unfold score_of in Hn. rewrite Hn. auto. }
    cbn [docs windowed_docs max_relevance has_relevant_context fst snd].
    split; [exact Hk1|]. split; [intros H; now apply Hk20|].
    split; [exact Hlen|]. split; [exact Hall|]. split; [reflexivity|].
    split; [apply Hbest|]. split; [apply Hbest|].
    split; [exact Hwlen | exact Hwin].
Qed.

End PipelineExtras.

Section PipelineWitnesses.

Lemma failed_load_is_indexed_as_content_witness :
  exists (d : Document) (rest : list Call),
    has_error d = true
    /\ trace (snd (add_documents mock_backend
                     (Some (split_documents sentence_splitter
                              (load_document mock_files "scan.PDF" (Some "a"))))
                     (mkSt (mkVectorStore "faiss_index" 5 true
                              (Some (mock_store three_texts))
                              (department_vectorstores (self two_departments)))
                        [])))
       = [] ++ CAddDocuments (mock_store three_texts) [d] :: rest.
Proof.
  destruct (failed_load_is_indexed_as_content mock_backend mock_files
              "scan.PDF" "a" sentence_splitter
              (mkVectorStore "faiss_index" 5 true
                 (Some (mock_store three_texts))
                 (department_vectorstores (self two_departments)))
              (mock_store three_texts) (mock_store [scored (9 # 10) "x"]) [])
    as (d & rest & rest' & _ & Herr & Hmain & _).
  - right. left. split; [reflexivity|]. eexists. reflexivity.
  - reflexivity.
  - discriminate.
  - reflexivity.
  - exists d, rest. split; [exact Herr | exact Hmain].
Defined.

Lemma validated_query_is_bounded_and_scored_witness :
  exists (ctx : Context) (t' : Trace),
    query_context mock_backend (7 # 10) "x" (Some "a") (Some 1)
      (mkSt (self two_departments) [])
    = (Ok ctx, mkSt (self two_departments) t')
    /\ Z.of_nat (length (docs ctx)) <= 1
    /\ Forall unit_score (docs ctx).
Proof.
  destruct (validated_query_is_bounded_and_scored mock_backend
              (self two_departments) (7 # 10) "x" (Some "a") (Some 1) [])
    as (ctx & t' & Hrun & _ & _ & Hlen & Hall & _).
  - reflexivity.
  - reflexivity.
  - apply mock_honours_budget.
  - apply two_departments_unit.
  - exists ctx, t'. split; [exact Hrun|]. split; [exact Hlen | exact Hall].
Defined.

End PipelineWitnesses.

(** ** Department labels and index statistics *)

Section LabelFacts.

Variable B : Backend.

Lemma label_stamp (q : Q) (department : string) (d : Document) :
  labelled_with department (stamp_department q department d).
Proof.
  unfold labelled_with, stamp_department, set_department, set_meta. simpl.
  apply lookup_insert_eq.
Qed.

Lemma label_set (department : string) (d : Document) :
  labelled_with department (set_department department d).
Proof.
  unfold labelled_with, set_department, set_meta. simpl.
  apply lookup_insert_eq.
Qed.

Lemma search_department_labelled (s : VectorStore) (query department : string)
    (k : option Z) (t : Trace) :
  exists (docs : list Document) (t' : Trace),
    search_department B query department k (mkSt s t) = (Ok docs, mkSt s t')
    /\ Forall (labelled_with department) docs.
Proof.
  apply (search_department_forall B (fun _ => True)).
  - intros q d _. apply label_stamp.
  - intros d _. apply label_set.
  - intros vs q k0 found _ _. apply Forall_forall. auto.
Qed.

(** The loop over the departments, piece by piece. *)
Lemma scan_pieces_from (s : VectorStore) (query : string) (k : option Z)
    (departments : list string) : forall t : Trace,
  exists (pieces : list (list Document)) (t' : Trace),
    scan_pieces B query (int_or k (top_k_retrieval s)) departments (mkSt s t)
    = (Ok pieces, mkSt s t')
    /\ Forall2 (from_department B s query (int_or k (top_k_retrieval s)))
         departments pieces.
Proof.
  set (k' := int_or k (top_k_retrieval s)).
  induction departments as [|d rest IH]; intros t.
  - exists [], t. split; [reflexivity | constructor].
  - assert (Hhere : exists here t1,
               (if od_mem d (department_vectorstores s)
                then try_catch
                       (found <- search_department B query d (Some k') ;;
                        ret (map (set_department d) found))
                       (fun _ => ret [])
                else ret []) (mkSt s t) = (Ok here, mkSt s t1)
               /\ from_department B s query k' d here).
    { unfold od_mem, from_department.
      destruct (search_department_run B s query d (Some k') t)
        as (docs & t1 & Hrun & Hp).
      unfold k' in Hp. rewrite int_or_again in Hp. fold k' in Hp.
      destruct (od_get d (department_vectorstores s)) as [vs|].
      - exists (map (set_department d) docs), t1. split; [|split].
        + rewrite (try_ok _ _ _ (mkSt s t1) (map (set_department d) docs));
            [reflexivity|]. now run_ok Hrun.
        + apply Forall_map. apply Forall_forall. intros x _. apply label_set.
        + now exists docs.
      - exists [], t. split; [reflexivity|]. split; [constructor | reflexivity]. }
    destruct Hhere as (here & t1 & Hhere & Hfrom).
    destruct (IH t1) as (pieces & t' & Hrest & Hall).
    exists (here :: pieces), t'. split; [|now constructor].
    simpl. unfold bind at 1. unfold get_self. simpl self.
    run_ok Hhere. now run_ok Hrest.
Qed.

End LabelFacts.

Section StatsFacts.

Variable index_size : Faiss -> Outcome Z.

Lemma od_set_new {V : Type} (key : string) (v : V) (d : list (string * V)) :
  ~ In key (od_keys d) -> od_set key v d = d ++ [(key, v)].
Proof.
  induction d as [|[k0 v0] d IH]; intros Hnew; [reflexivity|]. simpl.
  destruct (String.eqb_spec k0 key) as [->|_].
  - exfalso. apply Hnew. now left.
  - rewrite IH; [reflexivity|]. intros Hin. apply Hnew. now right.
Qed.

Lemma count_loop (stores : list (string * Faiss)) :
  forall (acc : list (string * IndexInfo)) (total : Z),
    NoDup (od_keys acc ++ od_keys stores) ->
    fold_left
      (fun acc p =>
         let info := measured index_size (snd p) in
         (od_set (fst p) info (fst acc), snd acc + info_size info))
      stores (acc, total)
    = (acc ++ map (fun p => (fst p, measured index_size (snd p))) stores,
       total + sum_sizes
                 (map (fun p => (fst p, measured index_size (snd p))) stores)).
Proof.
  induction stores as [|[key vs] stores IH]; intros acc total Hnd.
  - simpl. rewrite app_nil_r. f_equal. unfold sum_sizes. simpl. lia.
  - simpl fold_left. cbv zeta. simpl fst. simpl snd.
    assert (Hnew : ~ In key (od_keys acc)).
    { intros Hin. apply NoDup_app in Hnd. destruct Hnd as (_ & Hdis & _).
      apply (Hdis key); [now apply list_elem_of_In | left]. }
    rewrite (od_set_new key _ acc Hnew). rewrite IH.
    + simpl map. rewrite <- app_assoc. simpl app. f_equal.
      unfold sum_sizes. simpl. lia.
    + unfold od_keys in *. rewrite map_app. simpl map.
      rewrite <- app_assoc. exact Hnd.
Qed.

End StatsFacts.

Section LabelStatsExtras.

Variable B : Backend.

(** X24: what a department search returns is labelled with that
    department.  In the fusion each department scanned contributes one
    piece: nothing when it has no index, and otherwise the result of a
    search of its own index, every document of it labelled with that
    department, whatever label the stored chunk carried.  What the fusion
    returns is a prefix of the stable sort of the pieces, so that every
    document returned lies in the piece of some department scanned and
    carries the label of that department. *)
Theorem results_carry_the_department_searched (s : VectorStore)
    (query department : string) (departments : option (list string))
    (k : option Z) (t : Trace) :
  let given := match departments with Some l => l | None => [] end in
  let scanned := if negb (nonempty given)
                 then od_keys (department_vectorstores s) else given in
  let k' := int_or k (top_k_retrieval s) in
  scanned <> [] ->
  answers B s (fun d => score_of d = None \/ numeric_score d) ->
  (exists docs : list Document,
     fst (search_department B query department k (mkSt s t)) = Ok docs
     /\ Forall (labelled_with department) docs)
  /\ (exists (pieces : list (list Document)) (sorted docs : list Document),
        fst (scan_pieces B query k' scanned (mkSt s (t ++ [CEmbedQuery query])))
        = Ok pieces
        /\ Forall2 (from_department B s query k') scanned pieces
        /\ fst (search_across_departments B query departments k (mkSt s t))
           = Ok docs
        /\ stable_descending (concat pieces) sorted
        /\ docs = prefix sorted k'
        /\ Forall (fun d => exists (j : nat) (dep : string)
                                   (piece : list Document),
                     scanned !! j = Some dep /\ pieces !! j = Some piece
                     /\ In d piece /\ labelled_with dep d) docs).
Proof.
  intros given scanned k' Hne Hans. split.
  { destruct (search_department_labelled B s query department k t)
      as (docs & t' & Hrun & Hall).
    exists docs. now rewrite Hrun. }
  destruct (fusion_run B numeric_score s query departments k t Hne)
    as (pieces & sorted & docs & t1 & t' & Hscan & _ & Hrun & Hst & Hd & _).
  - auto.
  - intros dep t0.
    apply (search_department_forall B
             (fun d => score_of d = None \/ numeric_score d)); [| |exact Hans].
    + intros q d _. apply numeric_stamp.
    + intros d Hd. apply numeric_set_department. now apply numeric_fill.
  - intros dep d. apply numeric_set_department.
  - fold given in Hscan. fold scanned in Hscan. fold k' in Hscan, Hd.
    destruct (scan_pieces_from B s query k scanned (t ++ [CEmbedQuery query]))
      as (pieces' & t1' & Hscan' & Hfrom).
    fold k' in Hscan', Hfrom.
    rewrite Hscan in Hscan'. injection Hscan' as <- <-.
    exists pieces, sorted, docs.
    split; [now rewrite Hscan|]. split; [exact Hfrom|].
    split; [now rewrite Hrun|]. split; [exact Hst|]. split; [exact Hd|].
    assert (Hall : Forall (fun d => exists (j : nat) (dep : string)
                                           (piece : list Document),
                             scanned !! j = Some dep
                             /\ pieces !! j = Some piece
                             /\ In d piece /\ labelled_with dep d)
                     (concat pieces)).
    { apply Forall_forall. intros d Hin. apply list_elem_of_In in Hin.
      apply in_concat in Hin. destruct Hin as (piece & Hpiece & Hd').
      apply list_elem_of_In, list_elem_of_lookup_1 in Hpiece.
      destruct Hpiece as (j & Hj).
      destruct (Forall2_lookup_r _ _ _ _ _ Hfrom Hj)
        as (dep & Hdep & Hlab & _).
      exists j, dep, piece. repeat split; try assumption.
      rewrite Forall_forall in Hlab. apply Hlab. now apply list_elem_of_In. }
    destruct Hst as (Hperm & _ & _).
    pose proof (Permutation_Forall (Permutation_sym Hperm) Hall) as Hsorted.
    rewrite Hd. destruct (prefix_is_take sorted k') as (n & -> & _).
    now apply Forall_take.
Qed.

(** X25: [get_index_stats] lists the department indices in the order of
    the dict, one entry each; an index whose size cannot be read is
    listed with size 0 and the message of the error; and
    [total_documents] is the size listed for the main index plus the sizes
    listed for the departments. *)
Theorem index_stats_add_up (index_size : Faiss -> Outcome Z)
    (s : VectorStore) :
  NoDup (od_keys (department_vectorstores s)) ->
  let stats := get_index_stats index_size s in
  department_indexes stats
  = map (fun p => (fst p, measured index_size (snd p)))
      (department_vectorstores s)
  /\ total_documents stats
     = info_size (main_index stats) + sum_sizes (department_indexes stats)
  /\ (vectorstore s = None -> main_index stats = mkIndexInfo false 0 None)
  /\ forall (department : string) (info : IndexInfo),
       In (department, info) (department_indexes stats) ->
       info_exists info = true
       /\ (info_error info <> None -> info_size info = 0).
Proof.
  intros Hnd. cbv zeta. unfold get_index_stats.
  rewrite (count_loop index_size (department_vectorstores s) [] _ Hnd).
  cbn [department_indexes total_documents main_index fst snd app].
  split; [reflexivity|]. split; [reflexivity|]. split.
  - intros ->. reflexivity.
  - intros department info Hin. apply in_map_iff in Hin.
    destruct Hin as ([dep vs] & [= <- <-] & _). unfold measured.
    destruct (index_size vs) as [n|[what]]; simpl.
    + split; [reflexivity|]. intros H. now elim H.
    + auto.
Qed.

End LabelStatsExtras.

Section LabelStatsWitnesses.

Lemma results_carry_the_department_searched_witness :
  exists (pieces : list (list Document)) (docs : list Document),
    Forall2 (from_department mock_backend (self two_departments) "q" 5)
      ["a"; "b"] pieces
    /\ fst (search_across_departments mock_backend "q" (Some ["a"; "b"]) None
              (mkSt (self two_departments) []))
       = Ok docs
    /\ Forall (fun d => exists (j : nat) (dep : string)
                               (piece : list Document),
                 ["a"; "b"] !! j = Some dep /\ pieces !! j = Some piece
                 /\ In d piece /\ labelled_with dep d) docs.
Proof.
  destruct (results_carry_the_department_searched mock_backend
              (self two_departments) "q" "b" (Some ["a"; "b"]) None [])
    as (_ & pieces & sorted & docs & _ & Hfrom & Hrun & _ & _ & Hall).
  - discriminate.
  - apply two_departments_numeric.
  - exists pieces, docs. split; [exact Hfrom|]. split; [exact Hrun | exact Hall].
Defined.

Lemma index_stats_add_up_witness :
  total_documents (get_index_stats docstore_size (self two_departments))
  = info_size (main_index
                 (get_index_stats docstore_size (self two_departments)))
    + sum_sizes (department_indexes
                   (get_index_stats docstore_size (self two_departments))).
Proof.
  apply (index_stats_add_up docstore_size (self two_departments)).
  apply (bool_decide_unpack _). vm_compute. reflexivity.
Defined.

End LabelStatsWitnesses.
